(** * ENS resolution hooks of the PancakeSwap web frontend

    A shallow embedding of the derivation logic of

      - [apps/web/src/hooks/useENSPreferences.ts]
        ([useENSPreferences], [useENSProfile], [useResolveAddressOrENS]),
      - [apps/web/src/hooks/useENSTokenAddress.ts], in its two revisions
        (with and without the ERC-20 [decimals()] verification),

    followed by the properties the specification states about them.

    One render of a hook is a function of its arguments and of the current
    state of the external lookup layer (wagmi / viem), which is a parameter
    of the development.  The calls a hook makes to that layer and to the
    console are recorded as events, and a thrown JavaScript error is an
    explicit outcome. *)

From Stdlib Require Import Bool List ZArith NArith Lia Ascii String.
From Stdlib Require Import Floats.SpecFloat.
Import ListNotations.
Local Open Scope string_scope.
Local Open Scope bool_scope.

(** ** JavaScript values *)

Module JS.

(** A value of type [A | null | undefined]. *)
Inductive js (A : Type) : Type :=
| undefined : js A
| null : js A
| val (a : A) : js A.
Arguments undefined {A}.
Arguments null {A}.
Arguments val {A} a.

(** Strings.  A character of a Rocq [string] stands for one UTF-16 code unit
    below 256; the built-ins below are the ECMAScript ones on that range. *)

(** [Boolean(x)] for [x : string | null | undefined]. *)
Definition truthy (x : js string) : bool :=
  match x with
  | val s => negb (s =? "")
  | _ => false
  end.

(** The string behind a value that a truthiness test has narrowed to
    [string]; it is only used behind such a test. *)
Definition textOf (x : js string) : string :=
  match x with
  | val s => s
  | _ => ""
  end.

Definition isUndefined {A : Type} (x : js A) : bool :=
  match x with
  | undefined => true
  | _ => false
  end.

Definition isNull {A : Type} (x : js A) : bool :=
  match x with
  | null => true
  | _ => false
  end.

(** [a ?? b] *)
Definition nullish {A : Type} (a b : js A) : js A :=
  match a with
  | val _ => a
  | _ => b
  end.

(** WhiteSpace and LineTerminator code units: TAB, LF, VT, FF, CR, SP, NBSP. *)
Definition isWhiteSpace (c : ascii) : bool :=
  let n := N_of_ascii c in
  ((9 <=? n) && (n <=? 13) || (n =? 32) || (n =? 160))%N.

Fixpoint trimStart (s : string) : string :=
  match s with
  | String c rest => if isWhiteSpace c then trimStart rest else s
  | EmptyString => EmptyString
  end.

Fixpoint trimEnd (s : string) : string :=
  match s with
  | String c rest =>
      let r := trimEnd rest in
      if isWhiteSpace c && (r =? "") then "" else String c r
  | EmptyString => EmptyString
  end.

(** [s.trim()] *)
Definition trim (s : string) : string := trimEnd (trimStart s).

Fixpoint startsWith (s sub : string) : bool :=
  match sub, s with
  | EmptyString, _ => true
  | String c sub', String d s' => (c =? d)%char && startsWith s' sub'
  | String _ _, EmptyString => false
  end.

(** [s.includes(sub)] *)
Fixpoint includes (s sub : string) : bool :=
  startsWith s sub ||
  match s with
  | String _ rest => includes rest sub
  | EmptyString => false
  end.

(** [s.endsWith(sub)] *)
Fixpoint endsWith (s sub : string) : bool :=
  (s =? sub) ||
  match s with
  | String _ rest => endsWith rest sub
  | EmptyString => false
  end.

(** Lower-case mapping of one code unit: A-Z, and the Latin-1 capitals
    U+00C0-U+00DE without the multiplication sign U+00D7. *)
Definition toLowerChar (c : ascii) : ascii :=
  let n := N_of_ascii c in
  if ((65 <=? n) && (n <=? 90) ||
      (192 <=? n) && (n <=? 222) && negb (n =? 215))%N
  then ascii_of_N (n + 32) else c.

(** [s.toLowerCase()] *)
Fixpoint toLowerCase (s : string) : string :=
  match s with
  | String c rest => String (toLowerChar c) (toLowerCase rest)
  | EmptyString => EmptyString
  end.

(** [xs.includes(x)] on an array of strings. *)
Definition arrayIncludes (xs : list string) (x : string) : bool :=
  existsb (String.eqb x) xs.

Definition isDigit (c : ascii) : bool :=
  let n := N_of_ascii c in ((48 <=? n) && (n <=? 57))%N.

(** The character class [[a-fA-F0-9]]. *)
Definition isHexDigit (c : ascii) : bool :=
  let n := N_of_ascii c in
  ((48 <=? n) && (n <=? 57) || (65 <=? n) && (n <=? 70) ||
   (97 <=? n) && (n <=? 102))%N.

Fixpoint allChars (p : ascii -> bool) (s : string) : bool :=
  match s with
  | String c rest => p c && allChars p rest
  | EmptyString => true
  end.

End JS.
Export JS.

(** ** Numbers

    A JavaScript number is an IEEE 754 binary64 value, here a [spec_float]
    of the Standard Library with 53 bits of precision. *)

Module Number.

Definition prec : Z := 53.
Definition emax : Z := 1024.

Definition number : Type := spec_float.

Definition NaN : number := S754_nan.
Definition zero : number := S754_zero false.

(** A non-negative integer literal such as [50]. *)
Definition ofN (n : N) : number := binary_normalize prec emax (Z.of_N n) 0 false.

(** [Number.isNaN(x)] *)
Definition isNaN (x : number) : bool :=
  match x with
  | S754_nan => true
  | _ => false
  end.

(** [Number.isFinite(x)] *)
Definition isFinite (x : number) : bool :=
  match x with
  | S754_zero _ | S754_finite _ _ _ => true
  | _ => false
  end.

(** [x <= y] and [x >= y]; both are false when an operand is NaN. *)
Definition le (x y : number) : bool := SFleb x y.
Definition ge (x y : number) : bool := SFleb y x.

(** The longest prefix of decimal digits, and what follows it. *)
Fixpoint spanDigits (s : string) : string * string :=
  match s with
  | String c rest =>
      if isDigit c
      then let (ds, r) := spanDigits rest in (String c ds, r)
      else ("", s)
  | EmptyString => ("", "")
  end.

Fixpoint digitsValueFrom (acc : N) (ds : string) : N :=
  match ds with
  | String c rest => digitsValueFrom (acc * 10 + (N_of_ascii c - 48)) rest
  | EmptyString => acc
  end.

Definition digitsValue (ds : string) : N := digitsValueFrom 0 ds.

(** The value of the ExponentPart that [s] starts with, 0 when it starts
    with none ([e] or [E], an optional sign, at least one digit). *)
Definition parseExponent (s : string) : Z :=
  match s with
  | String c rest =>
      if ((c =? "e") || (c =? "E"))%char then
        let (neg, rest') :=
          match rest with
          | String "+" r => (false, r)
          | String "-" r => (true, r)
          | _ => (false, rest)
          end in
        let (ds, _) := spanDigits rest' in
        if ds =? "" then 0%Z
        else if neg then (- Z.of_N (digitsValue ds))%Z
        else Z.of_N (digitsValue ds)
      else 0%Z
  | EmptyString => 0%Z
  end.

(** The longest prefix of [s] that is a StrUnsignedDecimalLiteral other
    than [Infinity], as [m] and [e] with value [m * 10^e]. *)
Definition parseUnsigned (s : string) : option (N * Z) :=
  let (ip, r1) := spanDigits s in
  match r1 with
  | String "." r2 =>
      let (fp, r3) := spanDigits r2 in
      if (ip =? "") && (fp =? "") then None
      else Some (digitsValue (ip ++ fp),
                 (parseExponent r3 - Z.of_nat (String.length fp))%Z)
  | _ => if ip =? "" then None else Some (digitsValue ip, parseExponent r1)
  end.

(** [m * 10^e], negated when [neg], rounded to the nearest binary64 value,
    ties to even. *)
Definition roundDecimal (neg : bool) (m : N) (e : Z) : number :=
  match m with
  | N0 => S754_zero neg
  | Npos p =>
      match e with
      | Zneg k =>
          SFdiv prec emax (S754_finite neg p 0) (S754_finite false (10 ^ k) 0)
      | _ =>
          let n := (Z.pos p * 10 ^ e)%Z in
          binary_normalize prec emax (if neg then (- n)%Z else n) 0 neg
      end
  end.

(** [parseFloat(s)]: leading white space is skipped, then the longest
    prefix that is a StrDecimalLiteral is read; NaN when there is none. *)
Definition parseFloat (s : string) : number :=
  let t := trimStart s in
  let (neg, u) :=
    match t with
    | String "-" r => (true, r)
    | String "+" r => (false, r)
    | _ => (false, t)
    end in
  if startsWith u "Infinity" then S754_infinity neg
  else match parseUnsigned u with
       | Some (m, e) => roundDecimal neg m e
       | None => NaN
       end.

End Number.
Export Number.


(** ** Plain objects

    An object literal whose properties are assigned one by one: the
    properties in insertion order, each key once. *)

Module Obj.

Inductive value : Type :=
| VString (s : string)
| VBoolean (b : bool).

Definition object : Type := list (string * value).

(** [o[k]], [None] standing for an own property that does not exist. *)
Fixpoint get (o : object) (k : string) : option value :=
  match o with
  | (k', v) :: rest => if k' =? k then Some v else get rest k
  | [] => None
  end.

(** [o[k] = v] *)
Fixpoint set (o : object) (k : string) (v : value) : object :=
  match o with
  | (k', v') :: rest =>
      if k' =? k then (k', v) :: rest else (k', v') :: set rest k v
  | [] => [(k, v)]
  end.

(** [Object.keys(o)] *)
Definition keys (o : object) : list string := map fst o.

End Obj.

(** ** The lookup layer

    The hooks of wagmi ([useEnsAddress], [useEnsAvatar], [useEnsText],
    [useReadContract]) and the functions of viem ([isAddress], [normalize])
    are not part of this repository.  A render sees the current state of
    each query; calling a hook is an event of the render. *)

Module Effects.

(** The [ChainId] enum of [@pancakeswap/chains]: the four members the
    hooks name, and any other member by its number. *)
Inductive ChainId : Type :=
| ETHEREUM
| GOERLI
| BSC
| BSC_TESTNET
| OtherChain (id : N).

(** [a === b] on chain identifiers. *)
Definition sameChain (a b : ChainId) : bool :=
  match a, b with
  | ETHEREUM, ETHEREUM | GOERLI, GOERLI | BSC, BSC
  | BSC_TESTNET, BSC_TESTNET => true
  | OtherChain m, OtherChain n => (m =? n)%N
  | _, _ => false
  end.

(** What a query hook returns: [{ data, isLoading, isError }]. *)
Record Query (A : Type) : Type := mkQuery {
  data : js A;
  isLoading : bool;
  isError : bool
}.
Arguments mkQuery {A}.
Arguments data {A}.
Arguments isLoading {A}.
Arguments isError {A}.

(** A query that is not running and holds nothing. *)
Definition idle {A : Type} : Query A := mkQuery undefined false false.

(** A call of a query hook, with the parameters it was given. *)
Inductive Lookup : Type :=
| EnsAddress (name : js string) (chainId : ChainId) (enabled : bool)
| EnsAvatar (name : js string) (chainId : ChainId) (enabled : bool)
| EnsText (name : js string) (key : string) (chainId : ChainId) (enabled : bool)
| ReadContract (address : js string) (functionName : string)
    (chainId : ChainId) (enabled : bool) (retry staleTime : N).

Definition lookupEnabled (l : Lookup) : bool :=
  match l with
  | EnsAddress _ _ enabled
  | EnsAvatar _ _ enabled
  | EnsText _ _ _ enabled
  | ReadContract _ _ _ enabled _ _ => enabled
  end.

(** A lookup that goes to the name service (name, avatar, text record). *)
Definition isEnsLookup (l : Lookup) : bool :=
  match l with
  | ReadContract _ _ _ _ _ _ => false
  | _ => true
  end.

Definition JsError : Type := string.

Inductive Event : Type :=
| ConsoleWarn (message : string) (error : JsError)
| ConsoleError (message : string) (error : JsError)
| Issued (l : Lookup).

(** How a computation ends: with a value, or with a thrown error. *)
Inductive outcome (A : Type) : Type :=
| Returned (a : A)
| Thrown (e : JsError).
Arguments Returned {A} a.
Arguments Thrown {A} e.

(** A computation: the events it caused, in order, and its outcome. *)
Definition M (A : Type) : Type := list Event * outcome A.

Definition ret {A : Type} (a : A) : M A := ([], Returned a).

Definition bind {A B : Type} (m : M A) (f : A -> M B) : M B :=
  match m with
  | (evs, Returned a) => let (evs', r) := f a in ((evs ++ evs')%list, r)
  | (evs, Thrown e) => (evs, Thrown e)
  end.

Definition throw {A : Type} (e : JsError) : M A := ([], Thrown e).

(** [try { body } catch (error) { handler }] *)
Definition tryCatch {A : Type} (body : M A) (handler : JsError -> M A) : M A :=
  match body with
  | (evs, Thrown e) => let (evs', r) := handler e in ((evs ++ evs')%list, r)
  | (evs, Returned a) => (evs, Returned a)
  end.

Definition emit (ev : Event) : M unit := ([ev], Returned tt).

(** A call of a function that may throw. *)
Definition call {A : Type} (r : outcome A) : M A := ([], r).

Definition events {A : Type} (m : M A) : list Event := fst m.
Definition result {A : Type} (m : M A) : outcome A := snd m.

(** The functions of viem and the state of every query of wagmi, as one
    render sees them.  [normalize] throws on a name it rejects. *)
Record World : Type := mkWorld {
  isAddress : string -> bool;
  normalize : string -> outcome string;
  ensAddressQuery : js string -> ChainId -> bool -> Query string;
  ensAvatarQuery : js string -> ChainId -> bool -> Query string;
  ensTextQuery : js string -> string -> ChainId -> bool -> Query string;
  readContractQuery : js string -> string -> ChainId -> bool -> Query N
}.

Definition useEnsAddress (w : World) (name : js string) (chainId : ChainId)
    (enabled : bool) : M (Query string) :=
  bind (emit (Issued (EnsAddress name chainId enabled)))
       (fun _ => ret (ensAddressQuery w name chainId enabled)).

Definition useEnsAvatar (w : World) (name : js string) (chainId : ChainId)
    (enabled : bool) : M (Query string) :=
  bind (emit (Issued (EnsAvatar name chainId enabled)))
       (fun _ => ret (ensAvatarQuery w name chainId enabled)).

Definition useEnsText (w : World) (name : js string) (key : string)
    (chainId : ChainId) (enabled : bool) : M (Query string) :=
  bind (emit (Issued (EnsText name key chainId enabled)))
       (fun _ => ret (ensTextQuery w name key chainId enabled)).

Definition useReadContract (w : World) (address : js string)
    (functionName : string) (chainId : ChainId) (enabled : bool)
    (retry staleTime : N) : M (Query N) :=
  bind (emit (Issued (ReadContract address functionName chainId enabled retry
                        staleTime)))
       (fun _ => ret (readContractQuery w address functionName chainId enabled)).

(** The contract of the query hooks this development relies on: a query
    that is not enabled does not run and holds no data. *)
Definition disabledQueriesAreIdle (w : World) : Prop :=
  (forall name chainId, ensAddressQuery w name chainId false = idle) /\
  (forall name chainId, ensAvatarQuery w name chainId false = idle) /\
  (forall name key chainId, ensTextQuery w name key chainId false = idle) /\
  (forall address fn chainId, readContractQuery w address fn chainId false = idle).

(** The lookups among a list of events, and those a computation issued. *)
Definition lookupsOf (evs : list Event) : list Lookup :=
  flat_map (fun ev => match ev with Issued l => [l] | _ => [] end) evs.

Definition lookups {A : Type} (m : M A) : list Lookup := lookupsOf (events m).

(** The console output among a list of events, and that of a computation. *)
Definition consoleOf (evs : list Event) : list Event :=
  filter (fun ev => match ev with Issued _ => false | _ => true end) evs.

Definition consoleOutput {A : Type} (m : M A) : list Event :=
  consoleOf (events m).

End Effects.
Export Effects.

Declare Scope hook_scope.
Delimit Scope hook_scope with hook.
Notation "x <- m ;; k" := (bind m (fun x => k))
  (at level 61, m at next level, right associativity) : hook_scope.
Notation "m ;;; k" := (bind m (fun _ => k))
  (at level 61, right associativity) : hook_scope.
Local Open Scope hook_scope.

(** ** [useENSPreferences] *)

Module Preferences.

Definition SLIPPAGE : string := "com.pancakeswap.slippage".
Definition THEME : string := "com.pancakeswap.theme".
Definition EXPERT_MODE : string := "com.pancakeswap.expertMode".
Definition GAS_PRIORITY : string := "com.pancakeswap.gas".

(** The [preferences] memo: parse and validate the four text records. *)
Definition parsePreferences
    (slippageText themeText expertModeText gasText : js string) : Obj.object :=
  let prefs : Obj.object := [] in
  let prefs :=
    if truthy slippageText then
      let slippage := parseFloat (textOf slippageText) in
      if negb (isNaN slippage) && ge slippage zero && le slippage (ofN 50)
      then Obj.set prefs "slippage" (Obj.VString (textOf slippageText))
      else prefs
    else prefs in
  let prefs :=
    if truthy themeText &&
       ((textOf themeText =? "dark") || (textOf themeText =? "light"))
    then Obj.set prefs "theme" (Obj.VString (textOf themeText))
    else prefs in
  let prefs :=
    if truthy expertModeText
    then Obj.set prefs "expertMode"
           (Obj.VBoolean (toLowerCase (textOf expertModeText) =? "true"))
    else prefs in
  let prefs :=
    if truthy gasText &&
       arrayIncludes ["low"; "medium"; "high"] (toLowerCase (textOf gasText))
    then Obj.set prefs "gasPriority" (Obj.VString (toLowerCase (textOf gasText)))
    else prefs in
  prefs.

(** The [hasAnyPreferences] memo. *)
Definition hasAny (preferences : Obj.object) : bool :=
  (0 <? List.length (Obj.keys preferences))%nat.

Record Result : Type := mkResult {
  preferences : Obj.object;
  isLoading : bool;
  hasAnyPreferences : bool;
  ensName : js string
}.

(** One render.  [chainId] is what [useActiveChainId] gives and
    [domainName] what [useDomainNameForAddress(account ?? '')] gives. *)
Definition useENSPreferences (w : World) (chainId : ChainId)
    (domainName : js string) : M Result :=
  let ensChainId := if sameChain chainId GOERLI then GOERLI else ETHEREUM in
  slippageQ <- useEnsText w (nullish domainName undefined) SLIPPAGE ensChainId
                 (truthy domainName) ;;
  themeQ <- useEnsText w (nullish domainName undefined) THEME ensChainId
              (truthy domainName) ;;
  expertModeQ <- useEnsText w (nullish domainName undefined) EXPERT_MODE ensChainId
                   (truthy domainName) ;;
  gasQ <- useEnsText w (nullish domainName undefined) GAS_PRIORITY ensChainId
            (truthy domainName) ;;
  let isLoading :=
    Effects.isLoading slippageQ || Effects.isLoading themeQ ||
    Effects.isLoading expertModeQ || Effects.isLoading gasQ in
  let preferences :=
    parsePreferences (data slippageQ) (data themeQ) (data expertModeQ) (data gasQ) in
  let hasAnyPreferences := hasAny preferences in
  ret (mkResult preferences isLoading hasAnyPreferences domainName).

End Preferences.

(** ** [useENSProfile] and [useResolveAddressOrENS] *)

Module Profile.

Record SocialRecords : Type := mkSocialRecords {
  twitter : js string;
  github : js string;
  discord : js string;
  telegram : js string;
  email : js string;
  url : js string
}.

Record ENSProfile : Type := mkENSProfile {
  address : js string;
  avatar : js string;
  isLoading : bool;
  socialRecords : SocialRecords;
  isValid : bool
}.

(** The [normalizedName] memo of [useENSProfile]. *)
Definition normalizeName (w : World) (ensName : js string) : M (js string) :=
  if negb (truthy ensName) then ret undefined
  else
    tryCatch
      (if includes (textOf ensName) "."
       then normalized <- call (normalize w (textOf ensName)) ;; ret (val normalized)
       else ret undefined)
      (fun error =>
         emit (ConsoleError "Error normalizing ENS name:" error) ;;;
         ret undefined).

Definition useENSProfile (w : World) (chainId : ChainId) (ensName : js string)
    (enabled : bool) : M ENSProfile :=
  let isENSSupported :=
    negb (sameChain chainId BSC) && negb (sameChain chainId BSC_TESTNET) in
  normalizedName <- normalizeName w ensName ;;
  let shouldFetch := enabled && isENSSupported && truthy normalizedName in
  let ensChainId := if sameChain chainId GOERLI then GOERLI else ETHEREUM in
  addressQ <- useEnsAddress w normalizedName ensChainId shouldFetch ;;
  avatarQ <- useEnsAvatar w normalizedName ensChainId shouldFetch ;;
  let address := data addressQ in
  twitterQ <- useEnsText w normalizedName "com.twitter" ensChainId
                (shouldFetch && truthy address) ;;
  githubQ <- useEnsText w normalizedName "com.github" ensChainId
               (shouldFetch && truthy address) ;;
  discordQ <- useEnsText w normalizedName "com.discord" ensChainId
                (shouldFetch && truthy address) ;;
  telegramQ <- useEnsText w normalizedName "org.telegram" ensChainId
                 (shouldFetch && truthy address) ;;
  emailQ <- useEnsText w normalizedName "email" ensChainId
              (shouldFetch && truthy address) ;;
  urlQ <- useEnsText w normalizedName "url" ensChainId
            (shouldFetch && truthy address) ;;
  ret (mkENSProfile
         address
         (nullish (data avatarQ) undefined)
         (Effects.isLoading addressQ || Effects.isLoading avatarQ)
         (mkSocialRecords
            (nullish (data twitterQ) undefined)
            (nullish (data githubQ) undefined)
            (nullish (data discordQ) undefined)
            (nullish (data telegramQ) undefined)
            (nullish (data emailQ) undefined)
            (nullish (data urlQ) undefined))
         (truthy address)).

(** [/^0x[a-fA-F0-9]{40}$/.test(s)] *)
Definition addressPattern (s : string) : bool :=
  match s with
  | String "0" (String "x" digits) =>
      (String.length digits =? 40)%nat && allChars isHexDigit digits
  | _ => false
  end.

Record Resolved : Type := mkResolved {
  r_address : js string;
  r_isENSName : bool;
  r_ensName : js string;
  r_avatar : js string;
  r_socialRecords : js SocialRecords;
  r_isLoading : bool;
  r_isValid : bool
}.

(** The [isAddress] and [isENSName] memos of [useResolveAddressOrENS]. *)
Definition inputIsAddress (input : js string) : bool :=
  if negb (truthy input) then false
  else addressPattern (textOf input).

Definition inputIsENSName (input : js string) : bool :=
  if negb (truthy input) then false
  else includes (textOf input) "." && negb (inputIsAddress input).

Definition useResolveAddressOrENS (w : World) (chainId : ChainId)
    (input : js string) (enabled : bool) : M Resolved :=
  let isAddress := inputIsAddress input in
  let isENSName := inputIsENSName input in
  ensProfile <- useENSProfile w chainId (if isENSName then input else undefined)
                  (enabled && isENSName) ;;
  if isAddress then
    ret (mkResolved input false undefined undefined undefined false true)
  else if isENSName then
    ret (mkResolved (address ensProfile) true input (avatar ensProfile)
           (val (socialRecords ensProfile)) (isLoading ensProfile)
           (isValid ensProfile))
  else
    ret (mkResolved undefined false undefined undefined undefined false false).

(** The three outcomes of the classification the hook branches on. *)
Inductive InputClass : Type := Address | ENSName | Invalid.

Definition classify (input : js string) : InputClass :=
  if inputIsAddress input then Address
  else if inputIsENSName input then ENSName
  else Invalid.

End Profile.

(** ** [useENSTokenAddress], with the ERC-20 verification *)

Module TokenAddress.

Record Classified : Type := mkClassified {
  c_isENSName : bool;
  c_normalizedName : js string
}.

(** The first memo: is the input an ENS name, and its normalized form. *)
Definition classifyInput (w : World) (input : js string) : M Classified :=
  if negb (truthy input) || (trim (textOf input) =? "") then
    ret (mkClassified false null)
  else
    let trimmed := trim (textOf input) in
    if isAddress w trimmed then ret (mkClassified false null)
    else if includes trimmed "." then
      tryCatch
        (normalized <- call (normalize w trimmed) ;;
         ret (mkClassified true (val normalized)))
        (fun error =>
           emit (ConsoleWarn "Failed to normalize ENS name:" error) ;;;
           ret (mkClassified false null))
    else ret (mkClassified false null).

(** The [resolvedAddress] memo. *)
Definition resolveAddress (w : World) (input : js string) (isENSName : bool)
    (tokenTextRecord primaryAddress : js string) : js string :=
  if negb isENSName && truthy input && isAddress w (trim (textOf input)) then
    val (trim (textOf input))
  else if truthy tokenTextRecord && isAddress w (textOf tokenTextRecord) then
    tokenTextRecord
  else if truthy primaryAddress && isAddress w (textOf primaryAddress) then
    primaryAddress
  else null.

Record Result : Type := mkResult {
  address : js string;
  isENSName : bool;
  ensName : js string;
  isLoading : bool;
  isValid : bool;
  isERC20Token : bool;
  decimals : js N;
  hasTokenRecord : bool
}.

Definition useENSTokenAddress (w : World) (chainId : ChainId)
    (input : js string) (enabled : bool) : M Result :=
  c <- classifyInput w input ;;
  let isENSName := c_isENSName c in
  let normalizedName := c_normalizedName c in
  let ensChainId :=
    if sameChain chainId ETHEREUM || sameChain chainId GOERLI then chainId
    else ETHEREUM in
  primaryQ <- useEnsAddress w (nullish normalizedName undefined) ensChainId
                (isENSName && enabled && negb (isNull normalizedName)) ;;
  tokenQ <- useEnsText w (nullish normalizedName undefined) "token" ensChainId
              (isENSName && enabled && negb (isNull normalizedName)) ;;
  let primaryAddress := data primaryQ in
  let tokenTextRecord := data tokenQ in
  let resolvedAddress :=
    resolveAddress w input isENSName tokenTextRecord primaryAddress in
  verifyQ <- useReadContract w (nullish resolvedAddress undefined) "decimals"
               chainId (truthy resolvedAddress) 1 60000 ;;
  let decimals := data verifyQ in
  let isERC20Token :=
    truthy resolvedAddress && negb (isUndefined decimals) &&
    negb (isError verifyQ) in
  let isLoading :=
    isENSName &&
    (Effects.isLoading primaryQ || Effects.isLoading tokenQ ||
     Effects.isLoading verifyQ) in
  let isValid :=
    if negb (truthy input) || (trim (textOf input) =? "") then false
    else if isENSName then negb (isNull resolvedAddress) && isERC20Token
    else isAddress w (trim (textOf input)) && isERC20Token in
  ret (mkResult
         resolvedAddress
         isENSName
         (if isENSName then normalizedName else null)
         isLoading
         isValid
         isERC20Token
         decimals
         (truthy tokenTextRecord && isAddress w (textOf tokenTextRecord))).

End TokenAddress.

(** ** [useENSTokenAddress], the revision without the verification *)

Module TokenAddressBasic.

Record Result : Type := mkResult {
  address : js string;
  isENSName : bool;
  ensName : js string;
  isLoading : bool;
  isValid : bool;
  hasTokenRecord : bool
}.

(** The first memo; this revision tests [endsWith('.eth')] as well. *)
Definition classifyInput (w : World) (input : js string)
    : M TokenAddress.Classified :=
  if negb (truthy input) || (trim (textOf input) =? "") then
    ret (TokenAddress.mkClassified false null)
  else
    let trimmed := trim (textOf input) in
    if isAddress w trimmed then ret (TokenAddress.mkClassified false null)
    else if endsWith trimmed ".eth" || includes trimmed "." then
      tryCatch
        (normalized <- call (normalize w trimmed) ;;
         ret (TokenAddress.mkClassified true (val normalized)))
        (fun error =>
           emit (ConsoleWarn "Failed to normalize ENS name:" error) ;;;
           ret (TokenAddress.mkClassified false null))
    else ret (TokenAddress.mkClassified false null).

Definition useENSTokenAddress (w : World) (chainId : ChainId)
    (input : js string) (enabled : bool) : M Result :=
  c <- classifyInput w input ;;
  let isENSName := TokenAddress.c_isENSName c in
  let normalizedName := TokenAddress.c_normalizedName c in
  let ensChainId :=
    if sameChain chainId ETHEREUM || sameChain chainId GOERLI then chainId
    else ETHEREUM in
  primaryQ <- useEnsAddress w (nullish normalizedName undefined) ensChainId
                (isENSName && enabled && negb (isNull normalizedName)) ;;
  tokenQ <- useEnsText w (nullish normalizedName undefined) "token" ensChainId
              (isENSName && enabled && negb (isNull normalizedName)) ;;
  let primaryAddress := data primaryQ in
  let tokenTextRecord := data tokenQ in
  let resolvedAddress :=
    TokenAddress.resolveAddress w input isENSName tokenTextRecord primaryAddress in
  let isLoading :=
    isENSName && (Effects.isLoading primaryQ || Effects.isLoading tokenQ) in
  let isValid :=
    if negb (truthy input) || (trim (textOf input) =? "") then false
    else if isENSName then negb (isNull resolvedAddress)
    else isAddress w (trim (textOf input)) in
  ret (mkResult
         resolvedAddress
         isENSName
         (if isENSName then normalizedName else null)
         isLoading
         isValid
         (truthy tokenTextRecord && isAddress w (textOf tokenTextRecord))).

End TokenAddressBasic.

(** ** viem's [isAddress]

    viem is not part of this repository, and the statements about the
    hooks hold for any [isAddress].  For the concrete world the function
    is written out as version 2 of viem has it, the version the wagmi
    hooks used here belong to: the address pattern, and then either all
    letters in lower case or the text equal to its EIP-55 checksum, which
    takes the Keccak-256 hash of the forty hex digits in lower case. *)

Module Viem.

Definition mask64 : N := 18446744073709551615.

(** A 64-bit lane rotated to the left. *)
Definition rotl64 (x n : N) : N :=
  N.land (N.lor (N.shiftl x n) (N.shiftr x (64 - n))) mask64.

(** The state of Keccak-f[1600]: 25 lanes, lane (x, y) at x + 5 y. *)
Definition lane (a : list N) (x y : nat) : N := nth (x + 5 * y) a 0%N.

Definition rotationOffsets : list N :=
  [0; 1; 62; 28; 27;
   36; 44; 6; 55; 20;
   3; 10; 43; 25; 39;
   41; 45; 15; 21; 8;
   18; 2; 61; 56; 14]%N.

Definition roundConstants : list N :=
  [0x0000000000000001; 0x0000000000008082; 0x800000000000808a;
   0x8000000080008000; 0x000000000000808b; 0x0000000080000001;
   0x8000000080008081; 0x8000000000008009; 0x000000000000008a;
   0x0000000000000088; 0x0000000080008009; 0x000000008000000a;
   0x000000008000808b; 0x800000000000008b; 0x8000000000008089;
   0x8000000000008003; 0x8000000000008002; 0x8000000000000080;
   0x000000000000800a; 0x800000008000000a; 0x8000000080008081;
   0x8000000000008080; 0x0000000080000001; 0x8000000080008008]%N.

Definition theta (a : list N) : list N :=
  let c x :=
    N.lxor (lane a x 0)
      (N.lxor (lane a x 1)
         (N.lxor (lane a x 2) (N.lxor (lane a x 3) (lane a x 4)))) in
  let d x := N.lxor (c ((x + 4) mod 5)%nat) (rotl64 (c ((x + 1) mod 5)%nat) 1) in
  map (fun i => N.lxor (nth i a 0%N) (d (i mod 5)%nat)) (seq 0 25).

(** The lane that lands at (x, y) comes from ((x + 3 y) mod 5, x). *)
Definition rhoPi (a : list N) : list N :=
  map (fun i =>
         let x := (i mod 5)%nat in
         let y := (i / 5)%nat in
         let x0 := ((x + 3 * y) mod 5)%nat in
         rotl64 (lane a x0 x) (nth (x0 + 5 * x) rotationOffsets 0%N))
      (seq 0 25).

Definition chi (b : list N) : list N :=
  map (fun i =>
         let x := (i mod 5)%nat in
         let y := (i / 5)%nat in
         N.lxor (lane b x y)
           (N.ldiff (lane b ((x + 2) mod 5)%nat y) (lane b ((x + 1) mod 5)%nat y)))
      (seq 0 25).

Definition iota (rc : N) (a : list N) : list N :=
  match a with
  | a0 :: rest => N.lxor a0 rc :: rest
  | [] => []
  end.

Definition keccakF (a : list N) : list N :=
  fold_left (fun st rc => iota rc (chi (rhoPi (theta st)))) roundConstants a.

(** Eight bytes as a lane, the first byte lowest. *)
Fixpoint laneOfBytes (bs : list N) : N :=
  match bs with
  | b :: rest => (b + 256 * laneOfBytes rest)%N
  | [] => 0%N
  end.

Fixpoint bytesOfLane (n : nat) (l : N) : list N :=
  match n with
  | O => []
  | S n' => (l mod 256)%N :: bytesOfLane n' (l / 256)%N
  end.

(** The block of 136 bytes added to the first 17 lanes. *)
Definition absorbBlock (a block : list N) : list N :=
  map (fun i =>
         if (i <? 17)%nat
         then N.lxor (nth i a 0%N) (laneOfBytes (firstn 8 (skipn (8 * i) block)))
         else nth i a 0%N)
      (seq 0 25).

Fixpoint absorb (blocks : nat) (a message : list N) : list N :=
  match blocks with
  | O => a
  | S blocks' =>
      absorb blocks' (keccakF (absorbBlock a (firstn 136 message)))
        (skipn 136 message)
  end.

(** The padding of Keccak: a one bit, zero bits, a one bit. *)
Definition pad (message : list N) : list N :=
  let m := (message ++ [1%N])%list in
  let p := (m ++ repeat 0%N ((136 - List.length m mod 136) mod 136))%list in
  (removelast p ++ [N.lor (last p 0%N) 128])%list.

(** The 32 bytes of the hash of a list of bytes. *)
Definition keccak256 (message : list N) : list N :=
  let p := pad message in
  let a := absorb (List.length p / 136) (repeat 0%N 25) p in
  flat_map (bytesOfLane 8) (firstn 4 a).

(** [c.toUpperCase()] for a letter or a digit. *)
Definition upperLetter (c : ascii) : ascii :=
  let n := N_of_ascii c in
  if ((97 <=? n) && (n <=? 122))%N then ascii_of_N (n - 32) else c.

(** The hex digit at position [i] of the hash. *)
Definition nibble (hash : list N) (i : nat) : N :=
  let byte := nth (i / 2) hash 0%N in
  if Nat.even i then (byte / 16)%N else (byte mod 16)%N.

Fixpoint checksumFrom (hash : list N) (i : nat) (digits : string) : string :=
  match digits with
  | String c rest =>
      String (if (i <? 40)%nat && (8 <=? nibble hash i)%N
              then upperLetter c else c)
        (checksumFrom hash (S i) rest)
  | EmptyString => EmptyString
  end.

(** [checksumAddress(address)] without a chain id. *)
Definition checksumAddress (address : string) : string :=
  let hexAddress :=
    toLowerCase (substring 2 (String.length address - 2) address) in
  let hash := keccak256 (map N_of_ascii (list_ascii_of_string hexAddress)) in
  ("0x" ++ checksumFrom hash 0 hexAddress)%string.

(** [isAddress(address)], strict as it is by default. *)
Definition isAddress (address : string) : bool :=
  if negb (Profile.addressPattern address) then false
  else if toLowerCase address =? address then true
  else checksumAddress address =? address.

End Viem.

(** ** A concrete world

    viem's [isAddress] as written out above, a [normalize] that
    lower-cases and rejects spaces, and a name service that knows two
    names. *)

Module Sample.

Definition vitalik : string := "0xd8da6bf26964af9d7eed9e03e53415d37aa96045".
Definition cakeOwner : string := "0x73feaa1ee314f8c655e354234017be2193c9e24e".
Definition cakeToken : string := "0x0e09fabb73bd3ade0a17ecc321fd13a19e81ce82".

(** A string of the address pattern in upper case that is not its own
    checksum. *)
Definition upperCaseExample : string :=
  "0xABCDEF0123456789ABCDEF0123456789ABCDEF01".

Definition sampleNormalize (s : string) : outcome string :=
  if includes s " " then Thrown "Invalid label" else Returned (toLowerCase s).

Definition found {A : Type} (a : A) : Query A := mkQuery (val a) false false.
Definition notFound {A : Type} : Query A := mkQuery null false false.
Definition failed {A : Type} : Query A := mkQuery undefined false true.

Definition sampleEnsAddress (name : js string) (_ : ChainId) (enabled : bool)
    : Query string :=
  if negb enabled then idle
  else if textOf name =? "vitalik.eth" then found vitalik
  else if textOf name =? "cake.eth" then found cakeOwner
  else notFound.

Definition sampleEnsAvatar (name : js string) (_ : ChainId) (enabled : bool)
    : Query string :=
  if negb enabled then idle
  else if textOf name =? "cake.eth" then found "https://example.org/cake.png"
  else notFound.

Definition sampleEnsText (name : js string) (key : string) (_ : ChainId)
    (enabled : bool) : Query string :=
  if negb enabled then idle
  else if (textOf name =? "cake.eth") && (key =? "token") then found cakeToken
  else if (textOf name =? "cake.eth") && (key =? "com.twitter")
  then found "pancakeswap"
  else if (textOf name =? "cake.eth") && (key =? "com.pancakeswap.slippage")
  then found "0.5"
  else notFound.

Definition sampleReadContract (address : js string) (_ : string) (_ : ChainId)
    (enabled : bool) : Query N :=
  if negb enabled then idle
  else if textOf address =? cakeToken then found 18%N
  else failed.

Definition world : World :=
  mkWorld Viem.isAddress sampleNormalize
    sampleEnsAddress sampleEnsAvatar sampleEnsText sampleReadContract.

(** The same world with an avatar and social records for every name. *)
Definition decoratedWorld : World :=
  mkWorld Viem.isAddress sampleNormalize
    sampleEnsAddress
    (fun _ _ _ => found "https://example.org/avatar.png")
    (fun _ _ _ _ => found "someone")
    sampleReadContract.

End Sample.

(** ** Vocabulary of the statements *)

Module Vocabulary.

(** The test of the slippage branch, as the code writes it. *)
Definition slippageAccepted (text : string) : bool :=
  let slippage := parseFloat text in
  negb (isNaN slippage) && ge slippage zero && le slippage (ofN 50).

(** The object has the property [k]. *)
Definition present (o : Obj.object) (k : string) : bool :=
  match Obj.get o k with
  | Some _ => true
  | None => false
  end.

(** [x && isAddress(x)]: the value is a non-empty string that viem's
    [isAddress] accepts. *)
Definition validAddress (w : World) (x : js string) : bool :=
  truthy x && isAddress w (textOf x).

(** The input is neither missing nor blank: [!(!input || input.trim() === '')]. *)
Definition nonBlank (input : js string) : bool :=
  truthy input && negb (trim (textOf input) =? "").

(** The [decimals()] read of a query succeeded: it holds a value and no
    error. *)
Definition verified (q : Query N) : bool :=
  negb (isUndefined (data q)) && negb (isError q).

(** Every lookup in the list is disabled. *)
Definition allDisabled (ls : list Lookup) : Prop :=
  Forall (fun l => lookupEnabled l = false) ls.

(** Every name-service lookup in the list is disabled. *)
Definition ensDisabled (ls : list Lookup) : Prop :=
  Forall (fun l => isEnsLookup l = true -> lookupEnabled l = false) ls.

(** A render of the token hook returned [r] after issuing the two
    name-service lookups for [name] on chain [chain] with the flag [en],
    and then the [decimals()] read for the address it returns. *)
Definition tokenRender (run : M TokenAddress.Result) (chainId : ChainId)
    (r : TokenAddress.Result) (name : js string) (chain : ChainId)
    (en : bool) : Prop :=
  result run = Returned r /\
  lookups run =
    [EnsAddress name chain en;
     EnsText name "token" chain en;
     ReadContract (nullish (TokenAddress.address r) undefined) "decimals"
       chainId (truthy (TokenAddress.address r)) 1 60000].

(** The same for the revision without the verification. *)
Definition basicRender (run : M TokenAddressBasic.Result)
    (r : TokenAddressBasic.Result) (name : js string) (chain : ChainId)
    (en : bool) : Prop :=
  result run = Returned r /\
  lookups run = [EnsAddress name chain en; EnsText name "token" chain en].

(** The eight lookups of a render of [useENSProfile]. *)
Definition profileLookups (normalizedName : js string) (chain : ChainId)
    (shouldFetch records : bool) : list Lookup :=
  [EnsAddress normalizedName chain shouldFetch;
   EnsAvatar normalizedName chain shouldFetch;
   EnsText normalizedName "com.twitter" chain records;
   EnsText normalizedName "com.github" chain records;
   EnsText normalizedName "com.discord" chain records;
   EnsText normalizedName "org.telegram" chain records;
   EnsText normalizedName "email" chain records;
   EnsText normalizedName "url" chain records].

(** The chain the name-service lookups go to. *)
Definition ensChain (chainId : ChainId) : ChainId :=
  if sameChain chainId GOERLI then GOERLI else ETHEREUM.

(** The address the name service gives for a name: the [token] text
    record when it is a valid address, else the primary address when that
    is one, else none. *)
Definition candidate (w : World) (name : js string) (chain : ChainId)
    (en : bool) : js string :=
  let tokenTextRecord := data (ensTextQuery w name "token" chain en) in
  let primaryAddress := data (ensAddressQuery w name chain en) in
  if validAddress w tokenTextRecord then tokenTextRecord
  else if validAddress w primaryAddress then primaryAddress
  else null.

(** The [decimals()] read the token hook makes for an address. *)
Definition decimalsRead (w : World) (chainId : ChainId) (a : js string)
    : Query N :=
  readContractQuery w (nullish a undefined) "decimals" chainId (truthy a).

(** The case the memos of the token hook put an input in: an ENS name
    when the first memo says so, an address when the first branch of the
    [resolvedAddress] memo is taken, and neither otherwise. *)
Definition tokenClass (w : World) (input : js string)
    (c : TokenAddress.Classified) : Profile.InputClass :=
  if TokenAddress.c_isENSName c then Profile.ENSName
  else if truthy input && isAddress w (trim (textOf input))
       then Profile.Address
       else Profile.Invalid.

End Vocabulary.
Export Vocabulary.

(** ** More string built-ins *)

Module Text.

(** A position given to [slice], counted from the end when negative and
    clamped to the string. *)
Definition sliceIndex (len : nat) (i : Z) : nat :=
  if (i <? 0)%Z then Z.to_nat (Z.max (Z.of_nat len + i) 0)
  else Nat.min (Z.to_nat i) len.

(** [s.slice(start, end)] *)
Definition slice (s : string) (start end_ : Z) : string :=
  let from := sliceIndex (String.length s) start in
  let to := sliceIndex (String.length s) end_ in
  substring from (to - from) s.

(** [s.slice(start)] *)
Definition sliceFrom (s : string) (start : Z) : string :=
  let from := sliceIndex (String.length s) start in
  substring from (String.length s - from) s.




(** [s.replace(pattern, '')] for a string pattern: the first occurrence
    of the pattern is removed. *)
Fixpoint removeFirst (s pattern : string) : string :=
  if startsWith s pattern
  then substring (String.length pattern) (String.length s) s
  else match s with
       | String c rest => String c (removeFirst rest pattern)
       | EmptyString => EmptyString
       end.

End Text.

(** ** [ENSPreferencesIndicator]

    The banner that tells the user that preferences were loaded.  Of the
    element tree the model keeps whether the banner is rendered, its title
    and the text of the lines under it. *)

Module Indicator.

(** [Boolean(o[k])] for a property of the preferences. *)
Definition propTruthy (o : Obj.object) (k : string) : bool :=
  match Obj.get o k with
  | Some (Obj.VString s) => negb (s =? "")
  | Some (Obj.VBoolean b) => b
  | None => false
  end.

(** The text [{o[k]}] renders. *)
Definition propText (o : Obj.object) (k : string) : string :=
  match Obj.get o k with
  | Some (Obj.VString s) => s
  | _ => ""
  end.

Record Banner : Type := mkBanner {
  title : string;
  lines : list string
}.

(** The lines of the banner, in the order of the source. *)
Definition bannerLines (preferences : Obj.object) : list string :=
  ((if propTruthy preferences "slippage"
    then [("Slippage: " ++ propText preferences "slippage" ++ "%")%string] else []) ++
   (if propTruthy preferences "theme"
    then [("Theme: " ++ propText preferences "theme")%string] else []) ++
   (match Obj.get preferences "expertMode" with
    | Some _ =>
        [("Expert Mode: " ++
          (if propTruthy preferences "expertMode" then "On" else "Off"))%string]
    | None => []
    end) ++
   (if propTruthy preferences "gasPriority"
    then [("Gas: " ++ propText preferences "gasPriority")%string] else []))%list.

(** One render; [isDismissed] is the state the close button sets. *)
Definition ENSPreferencesIndicator (w : World) (chainId : ChainId)
    (domainName : js string) (isDismissed : bool) : M (option Banner) :=
  r <- Preferences.useENSPreferences w chainId domainName ;;
  if Preferences.isLoading r || negb (truthy (Preferences.ensName r)) ||
     negb (Preferences.hasAnyPreferences r) || isDismissed
  then ret None
  else
    ret (Some (mkBanner
                 ("ENS Settings Loaded (" ++ textOf (Preferences.ensName r) ++ ")")
                 (bannerLines (Preferences.preferences r)))).

End Indicator.

(** ** [AddressWithENS]

    What [useDomainNameForAddress] returns is a parameter.  Sizes and
    styles are left out of the model. *)

Module AddressDisplay.


(** What stands before the text: the avatar image with its source and
    alternative text, or the placeholder with its character. *)
Inductive Icon : Type :=
| AvatarImage (src alt : string)
| Placeholder (text : list N).

Record Row : Type := mkRow {
  icon : Icon;
  displayText : string;
  monospace : bool;
  title : js string
}.

Inductive View : Type :=
| Nothing
| Skeleton
| Shown (row : Row).

(** The text shown for the address. *)
Definition displayTextOf (domainName : js string) (showFullAddress : bool)
    (address : string) : string :=
  if truthy domainName then textOf domainName
  else if showFullAddress then address
  else Text.slice address 0 6 ++ "..." ++ Text.sliceFrom address (-4).



End AddressDisplay.

(** ** [ENSProfileDisplay]

    Of the card the model keeps whether it is rendered, the avatar or the
    initial, the name, the address and the badges of the records, each with
    its link and label. *)

Module ProfileCard.

Inductive Badge : Type :=
| Twitter (href label : string)
| Github (href label : string)
| Discord (label : string)
| Telegram (href label : string)
| Website (href : string).

Record Card : Type := mkCard {
  avatarSrc : js string;
  initial : list N;
  name : string;
  address : string;
  records : option (list Badge)
}.

Inductive View : Type :=
| Nothing
| Skeleton
| Shown (card : Card).


(** The badges of the records that are set, in the order of the source. *)
Definition badges (r : Profile.SocialRecords) : list Badge :=
  ((if truthy (Profile.twitter r)
    then [Twitter
            ("https://twitter.com/" ++
             Text.removeFirst (textOf (Profile.twitter r)) "@")%string
            ("@" ++ Text.removeFirst (textOf (Profile.twitter r)) "@")%string]
    else []) ++
   (if truthy (Profile.github r)
    then [Github ("https://github.com/" ++ textOf (Profile.github r))%string
            (textOf (Profile.github r))]
    else []) ++
   (if truthy (Profile.discord r)
    then [Discord (textOf (Profile.discord r))] else []) ++
   (if truthy (Profile.telegram r)
    then [Telegram
            ("https://t.me/" ++
             Text.removeFirst (textOf (Profile.telegram r)) "@")%string
            (textOf (Profile.telegram r))]
    else []) ++
   (if truthy (Profile.url r)
    then [Website (textOf (Profile.url r))] else []))%list.


End ProfileCard.

(** ** The search of [ManageTokens]

    [safeGetAddress] and [useTokenByChainId] are parameters, and so are
    the chain of the wallet, the chain given as a property and the typed
    and debounced text.  The component imports [useENSTokenAddress] from
    [hooks/useENSTokenAddress] and reads [address], [isENSName],
    [ensName], [isLoading] and [hasTokenRecord] of what it returns; both
    revisions of the hook return these, and the revision is a parameter
    of the model.  The model keeps what the search part of the component
    derives and which of its rows are rendered. *)

Module TokenSearch.

Inductive Revision : Type :=
| WithoutVerification
| WithVerification.

(** The fields the component takes from the result of the hook. *)
Record Resolution : Type := mkResolution {
  resolvedAddress : js string;
  isENSName : bool;
  ensName : js string;
  isResolvingENS : bool;
  hasTokenRecord : bool
}.

Definition useENSTokenAddress (revision : Revision) (w : World)
    (chainId : ChainId) (input : js string) (enabled : bool) : M Resolution :=
  match revision with
  | WithoutVerification =>
      r <- TokenAddressBasic.useENSTokenAddress w chainId input enabled ;;
      ret (mkResolution (TokenAddressBasic.address r)
             (TokenAddressBasic.isENSName r) (TokenAddressBasic.ensName r)
             (TokenAddressBasic.isLoading r) (TokenAddressBasic.hasTokenRecord r))
  | WithVerification =>
      r <- TokenAddress.useENSTokenAddress w chainId input enabled ;;
      ret (mkResolution (TokenAddress.address r)
             (TokenAddress.isENSName r) (TokenAddress.ensName r)
             (TokenAddress.isLoading r) (TokenAddress.hasTokenRecord r))
  end.

Record ResolvedRow : Type := mkResolvedRow {
  rowName : js string;
  rowAddress : string;
  rowTokenFound : bool
}.

Record Search (Token : Type) : Type := mkSearch {
  finalAddress : js string;
  searchToken : js Token;
  isAddressValid : bool;
  ensResolvedButNoToken : bool;
  inputWarning : bool;
  errorText : bool;
  resolvingRow : bool;
  resolvedRow : option ResolvedRow;
  importRow : js Token
}.
Arguments mkSearch {Token}.
Arguments finalAddress {Token}.
Arguments searchToken {Token}.
Arguments isAddressValid {Token}.
Arguments ensResolvedButNoToken {Token}.
Arguments inputWarning {Token}.
Arguments errorText {Token}.
Arguments resolvingRow {Token}.
Arguments resolvedRow {Token}.
Arguments importRow {Token}.

Definition tokenTruthy {Token : Type} (t : js Token) : bool :=
  match t with
  | val _ => true
  | _ => false
  end.

(** [chainIdProp || activeChainId] for the optional number given as a
    property: a missing chain and the number 0 give the chain of the
    wallet. *)
Definition chainOf (chainIdProp : js ChainId) (activeChainId : ChainId)
    : ChainId :=
  match chainIdProp with
  | val (OtherChain 0) => activeChainId
  | val c => c
  | _ => activeChainId
  end.

Definition ManageTokensSearch {Token : Type} (revision : Revision) (w : World)
    (safeGetAddress : string -> js string)
    (useTokenByChainId : js string -> ChainId -> js Token)
    (activeChainId : ChainId) (chainIdProp : js ChainId)
    (searchQuery debouncedSearchQuery : string) : M (Search Token) :=
  let chainId := chainOf chainIdProp activeChainId in
  let looksLikeENS := endsWith (trim searchQuery) ".eth" in
  hook <- useENSTokenAddress revision w activeChainId
            (val debouncedSearchQuery) true ;;
  let resolvedAddress := resolvedAddress hook in
  let isENSName := isENSName hook in
  let ensName := ensName hook in
  let isResolvingENS := isResolvingENS hook in
  let finalAddress :=
    if truthy resolvedAddress then resolvedAddress
    else if truthy (safeGetAddress debouncedSearchQuery)
         then val debouncedSearchQuery else undefined in
  let searchToken := useTokenByChainId finalAddress chainId in
  let isAddressValid :=
    (searchQuery =? "") || truthy (safeGetAddress searchQuery) || isENSName in
  let ensResolvedButNoToken :=
    isENSName && truthy resolvedAddress && negb isResolvingENS &&
    negb (tokenTruthy searchToken) in
  let warning :=
    negb isAddressValid && negb isResolvingENS &&
    negb (debouncedSearchQuery =? "") in
  ret (mkSearch
         finalAddress
         searchToken
         isAddressValid
         ensResolvedButNoToken
         warning
         warning
         (looksLikeENS && isResolvingENS)
         (if isENSName && truthy resolvedAddress && negb isResolvingENS
          then Some (mkResolvedRow ensName
                       (Text.slice (textOf resolvedAddress) 0 8 ++ "..." ++
                        Text.sliceFrom (textOf resolvedAddress) (-6))
                       (tokenTruthy searchToken))
          else None)
         (if tokenTruthy searchToken && negb isResolvingENS
          then searchToken else undefined)).

End TokenSearch.

(** ** Vocabulary of the further statements *)

Module Vocabulary2.

(** The text record that holds a decoded value again: a string as it is,
    a boolean as the words the file documents for the expert mode. *)
Definition recordOf (v : option Obj.value) : js string :=
  match v with
  | Some (Obj.VString s) => val s
  | Some (Obj.VBoolean true) => val "true"
  | Some (Obj.VBoolean false) => val "false"
  | None => undefined
  end.

(** The four property names, in the order the decoder assigns them. *)
Definition preferenceKeys : list string :=
  ["slippage"; "theme"; "expertMode"; "gasPriority"].

(** One of the two letters. *)
Definition oneOf (a b c : ascii) : Prop := c = a \/ c = b.

(** The text is the word true in some letter case. *)
Definition spellsTrue (s : string) : Prop :=
  exists c1 c2 c3 c4,
    s = String c1 (String c2 (String c3 (String c4 EmptyString))) /\
    oneOf "t" "T" c1 /\ oneOf "r" "R" c2 /\ oneOf "u" "U" c3 /\
    oneOf "e" "E" c4.

(** The code units of a string. *)
Definition units (s : string) : list N :=
  map N_of_ascii (list_ascii_of_string s).

(** A list with the property [k] when there is a value for it. *)
Definition entry (k : string) (v : option Obj.value) : Obj.object :=
  match v with
  | Some x => [(k, x)]
  | None => []
  end.

(** What each branch of the decoder stores for a record. *)
Definition slippageField (text : js string) : option Obj.value :=
  if truthy text && slippageAccepted (textOf text)
  then Some (Obj.VString (textOf text)) else None.

Definition themeField (text : js string) : option Obj.value :=
  if truthy text && ((textOf text =? "dark") || (textOf text =? "light"))
  then Some (Obj.VString (textOf text)) else None.

Definition expertModeField (text : js string) : option Obj.value :=
  if truthy text
  then Some (Obj.VBoolean (toLowerCase (textOf text) =? "true")) else None.

Definition gasPriorityField (text : js string) : option Obj.value :=
  if truthy text &&
     arrayIncludes ["low"; "medium"; "high"] (toLowerCase (textOf text))
  then Some (Obj.VString (toLowerCase (textOf text))) else None.

(** A value whose sign bit is [sx], or NaN. *)
Definition signed (sx : bool) (x : number) : Prop :=
  x = S754_nan \/ x = S754_zero sx \/ x = S754_infinity sx \/
  exists m e, x = S754_finite sx m e.


End Vocabulary2.
Export Vocabulary2.

(** * Properties *)

(** ** Strings *)

Section StringFacts.

Lemma allChars_impl (p q : ascii -> bool) (s : string) :
  (forall c, p c = true -> q c = true) ->
  allChars p s = true -> allChars q s = true.
Proof.
  intros Hpq. induction s as [|c s IH]; simpl; [reflexivity|].
  intros H. apply andb_true_iff in H as [Hc Hs].
  rewrite (Hpq _ Hc), (IH Hs). reflexivity.
Qed.

Lemma isHexDigit_not_dot (c : ascii) :
  isHexDigit c = true -> (c =? ".")%char = false.
Proof.
  destruct c as [[] [] [] [] [] [] [] []]; vm_compute; congruence.
Qed.

Lemma isHexDigit_not_space (c : ascii) :
  isHexDigit c = true -> isWhiteSpace c = false.
Proof.
  destruct c as [[] [] [] [] [] [] [] []]; vm_compute; congruence.
Qed.

Lemma startsWith_refl (s : string) : startsWith s s = true.
Proof.
  induction s as [|c s IH]; simpl; [reflexivity|].
  rewrite Ascii.eqb_refl. exact IH.
Qed.

Lemma includes_cons (c : ascii) (s sub : string) :
  includes (String c s) sub = startsWith (String c s) sub || includes s sub.
Proof. reflexivity. Qed.

Lemma startsWith_char (c d : ascii) (s : string) :
  startsWith (String c s) (String d "") = (d =? c)%char.
Proof.
  change (startsWith (String c s) (String d ""))
    with ((d =? c)%char && startsWith s "").
  destruct s; apply andb_true_r.
Qed.

Lemma includes_dot_free (s : string) :
  allChars (fun c => negb (c =? ".")%char) s = true -> includes s "." = false.
Proof.
  induction s as [|c s IH]; [reflexivity|].
  intros H.
  change (negb (c =? ".")%char &&
          allChars (fun c => negb (c =? ".")%char) s = true) in H.
  apply andb_true_iff in H as [Hc Hs].
  rewrite includes_cons, startsWith_char, (IH Hs).
  apply negb_true_iff in Hc.
  rewrite Ascii.eqb_sym, Hc. reflexivity.
Qed.

Lemma trimEnd_fixed (s : string) :
  allChars (fun c => negb (isWhiteSpace c)) s = true -> trimEnd s = s.
Proof.
  induction s as [|c s IH]; simpl; [reflexivity|].
  intros H. apply andb_true_iff in H as [Hc Hs].
  apply negb_true_iff in Hc. rewrite Hc, (IH Hs). reflexivity.
Qed.

Lemma endsWith_includes (s sub : string) :
  endsWith s sub = true -> includes s sub = true.
Proof.
  induction s as [|c s IH]; intros H.
  - change (("" =? sub) || false = true) in H.
    rewrite orb_false_r in H. apply String.eqb_eq in H. subst sub.
    reflexivity.
  - change ((String c s =? sub) || endsWith s sub = true) in H.
    rewrite includes_cons.
    apply orb_true_iff in H as [H|H].
    + apply String.eqb_eq in H. subst sub.
      rewrite startsWith_refl. reflexivity.
    + rewrite (IH H). apply orb_true_r.
Qed.

Lemma truthy_val (x : js string) :
  truthy x = true -> exists s, x = val s /\ s <> "".
Proof.
  destruct x as [| |s]; simpl; try discriminate.
  intros H. exists s. split; [reflexivity|].
  apply negb_true_iff, String.eqb_neq in H. exact H.
Qed.

Lemma truthy_iff (x : js string) :
  truthy x = true <-> exists s, x = val s /\ s <> "".
Proof.
  split; [apply truthy_val|].
  intros (s & -> & Hs). simpl. apply negb_true_iff, String.eqb_neq. exact Hs.
Qed.

Lemma toLowerCase_idem (s : string) :
  toLowerCase (toLowerCase s) = toLowerCase s.
Proof.
  induction s as [|c s IH]; [reflexivity|].
  change (String (toLowerChar (toLowerChar c)) (toLowerCase (toLowerCase s)) =
          String (toLowerChar c) (toLowerCase s)).
  rewrite IH. f_equal. clear.
  destruct c as [[] [] [] [] [] [] [] []]; reflexivity.
Qed.

End StringFacts.

(** ** The address pattern *)

Section AddressPattern.

Import Profile.

Lemma addressPattern_shape (s : string) :
  addressPattern s = true ->
  exists digits, s = String "0" (String "x" digits) /\
                 String.length digits = 40%nat /\
                 allChars isHexDigit digits = true.
Proof.
  unfold addressPattern.
  destruct s as [|c0 [|c1 digits]]; try discriminate.
  - destruct c0 as [[] [] [] [] [] [] [] []]; discriminate.
  - destruct (Ascii.eqb_spec c0 "0") as [->|H0].
    + destruct (Ascii.eqb_spec c1 "x") as [->|H1].
      * intros H. apply andb_true_iff in H as [Hl Hd].
        apply Nat.eqb_eq in Hl. exists digits. auto.
      * destruct c1 as [[] [] [] [] [] [] [] []];
          solve [discriminate | exfalso; apply H1; reflexivity].
    + destruct c0 as [[] [] [] [] [] [] [] []];
        solve [discriminate | exfalso; apply H0; reflexivity].
Qed.

Lemma addressPattern_no_dot (s : string) :
  addressPattern s = true -> includes s "." = false.
Proof.
  intros H. destruct (addressPattern_shape s H) as (digits & -> & _ & Hd).
  apply includes_dot_free. simpl.
  apply (allChars_impl isHexDigit); [|exact Hd].
  intros c Hc. rewrite (isHexDigit_not_dot c Hc). reflexivity.
Qed.

Lemma addressPattern_trim (s : string) :
  addressPattern s = true -> trim s = s.
Proof.
  intros H. destruct (addressPattern_shape s H) as (digits & -> & _ & Hd).
  unfold trim. simpl trimStart. apply trimEnd_fixed. simpl.
  apply (allChars_impl isHexDigit); [|exact Hd].
  intros c Hc. rewrite (isHexDigit_not_space c Hc). reflexivity.
Qed.

Lemma addressPattern_nonempty (s : string) :
  addressPattern s = true -> (s =? "") = false.
Proof.
  destruct s; [discriminate|reflexivity].
Qed.

End AddressPattern.

(** ** Preference decoding *)

Section PreferenceFacts.

Import Preferences.

(** Not NaN and between 0 and 50 is the same as finite and between 0 and
    50: neither infinity passes both comparisons. *)
Lemma in_range_finite (x : number) :
  negb (isNaN x) && ge x zero && le x (ofN 50) =
  isFinite x && ge x zero && le x (ofN 50).
Proof.
  destruct x as [s|s| |s m e]; try reflexivity.
  destruct s; reflexivity.
Qed.

Ltac split_branches :=
  repeat match goal with
         | |- context [if ?b then _ else _] => destruct b
         end.

Lemma get_slippage (s t e g : js string) :
  Obj.get (parsePreferences s t e g) "slippage" =
  if truthy s && slippageAccepted (textOf s)
  then Some (Obj.VString (textOf s)) else None.
Proof.
  unfold parsePreferences, slippageAccepted.
  destruct (truthy s); simpl andb;
    [destruct (negb (isNaN (parseFloat (textOf s))) &&
               ge (parseFloat (textOf s)) zero &&
               le (parseFloat (textOf s)) (ofN 50))|];
    split_branches; reflexivity.
Qed.

Lemma get_theme (s t e g : js string) :
  Obj.get (parsePreferences s t e g) "theme" =
  if truthy t && ((textOf t =? "dark") || (textOf t =? "light"))
  then Some (Obj.VString (textOf t)) else None.
Proof.
  unfold parsePreferences.
  destruct (truthy t && ((textOf t =? "dark") || (textOf t =? "light")));
    split_branches; reflexivity.
Qed.

Lemma get_expertMode (s t e g : js string) :
  Obj.get (parsePreferences s t e g) "expertMode" =
  if truthy e
  then Some (Obj.VBoolean (toLowerCase (textOf e) =? "true")) else None.
Proof.
  unfold parsePreferences.
  destruct (truthy e); split_branches; reflexivity.
Qed.

Lemma get_gasPriority (s t e g : js string) :
  Obj.get (parsePreferences s t e g) "gasPriority" =
  if truthy g &&
     arrayIncludes ["low"; "medium"; "high"] (toLowerCase (textOf g))
  then Some (Obj.VString (toLowerCase (textOf g))) else None.
Proof.
  unfold parsePreferences.
  destruct (truthy g &&
            arrayIncludes ["low"; "medium"; "high"] (toLowerCase (textOf g)));
    split_branches; reflexivity.
Qed.

Lemma hasAny_present (s t e g : js string) :
  let prefs := parsePreferences s t e g in
  hasAny prefs =
  present prefs "slippage" || present prefs "theme" ||
  present prefs "expertMode" || present prefs "gasPriority".
Proof.
  unfold parsePreferences.
  split_branches; reflexivity.
Qed.

Lemma present_true (o : Obj.object) (k : string) :
  present o k = true <-> Obj.get o k <> None.
Proof.
  unfold present. destruct (Obj.get o k); split; congruence.
Qed.

Lemma useENSPreferences_returns (w : World) (chainId : ChainId)
    (domainName : js string) :
  exists r slippageQ themeQ expertModeQ gasQ,
    result (useENSPreferences w chainId domainName) = Returned r /\
    preferences r =
      parsePreferences (data slippageQ) (data themeQ) (data expertModeQ)
        (data gasQ) /\
    hasAnyPreferences r = hasAny (preferences r) /\
    ensName r = domainName.
Proof.
  unfold useENSPreferences, useEnsText. cbn.
  do 5 eexists. repeat split.
Qed.

End PreferenceFacts.

Section PreferenceClaims.

Import Preferences.

(** C5.  The [slippage] field of the decoded preferences is present, and
    holds the text of the record unchanged, exactly when the record is a
    non-empty string that [parseFloat] reads as a finite number between 0
    and 50 inclusive.  Otherwise the field is absent.  Decoding always
    returns, and the slippage record has no influence on the three other
    fields.  The text 0.5 is kept, 75 and abc are dropped. *)
Theorem slippage_field_decoding :
  forall slippageText themeText expertModeText gasText : js string,
    let prefs := parsePreferences slippageText themeText expertModeText gasText in
    (forall text,
        Obj.get prefs "slippage" = Some (Obj.VString text) <->
        slippageText = val text /\ text <> "" /\
        isFinite (parseFloat text) = true /\
        ge (parseFloat text) zero = true /\
        le (parseFloat text) (ofN 50) = true) /\
    (Obj.get prefs "slippage" = None \/
     Obj.get prefs "slippage" = Some (Obj.VString (textOf slippageText))) /\
    (forall other : js string,
        let prefs' := parsePreferences other themeText expertModeText gasText in
        Obj.get prefs' "theme" = Obj.get prefs "theme" /\
        Obj.get prefs' "expertMode" = Obj.get prefs "expertMode" /\
        Obj.get prefs' "gasPriority" = Obj.get prefs "gasPriority") /\
    (forall w chainId domainName,
        exists r, result (useENSPreferences w chainId domainName) = Returned r) /\
    Obj.get (parsePreferences (val "0.5") themeText expertModeText gasText)
      "slippage" = Some (Obj.VString "0.5") /\
    Obj.get (parsePreferences (val "75") themeText expertModeText gasText)
      "slippage" = None /\
    Obj.get (parsePreferences (val "abc") themeText expertModeText gasText)
      "slippage" = None.
Proof.
  intros s t e g prefs. subst prefs.
  split; [|split; [|split; [|split; [|split; [|split]]]]].
  - intros text. split.
    + rewrite get_slippage. unfold slippageAccepted. rewrite in_range_finite.
      destruct (truthy s) eqn:Hs; [|discriminate].
      destruct (truthy_val s Hs) as (s0 & -> & Hs0). simpl textOf. simpl andb.
      destruct (isFinite (parseFloat s0) && ge (parseFloat s0) zero &&
                le (parseFloat s0) (ofN 50)) eqn:Hacc; [|discriminate].
      intros H. injection H as <-.
      apply andb_true_iff in Hacc as [Hacc Hle].
      apply andb_true_iff in Hacc as [Hfin Hge]. auto.
    + intros (-> & Hne & Hfin & Hge & Hle).
      rewrite get_slippage. unfold slippageAccepted. rewrite in_range_finite.
      simpl textOf. rewrite Hfin, Hge, Hle.
      replace (truthy (val text)) with true; [reflexivity|].
      symmetry. apply truthy_iff. exists text. auto.
  - rewrite get_slippage.
    destruct (truthy s && slippageAccepted (textOf s)); auto.
  - intros other prefs'. subst prefs'.
    rewrite !get_theme, !get_expertMode, !get_gasPriority. auto.
  - intros w chainId domainName.
    destruct (useENSPreferences_returns w chainId domainName)
      as (r & _ & _ & _ & _ & Hr & _).
    exists r. exact Hr.
  - rewrite get_slippage. reflexivity.
  - rewrite get_slippage. reflexivity.
  - rewrite get_slippage. reflexivity.
Qed.

(** C7.  [hasAnyPreferences] is true if and only if at least one of the
    four fields [slippage], [theme], [expertMode], [gasPriority] is
    present in the decoded preferences; when none is, it is false.  The
    hook returns the flag computed from the preferences it returns. *)
Theorem hasAnyPreferences_iff_some_field :
  forall slippageText themeText expertModeText gasText : js string,
    let prefs := parsePreferences slippageText themeText expertModeText gasText in
    (hasAny prefs = true <->
       Obj.get prefs "slippage" <> None \/
       Obj.get prefs "theme" <> None \/
       Obj.get prefs "expertMode" <> None \/
       Obj.get prefs "gasPriority" <> None) /\
    (hasAny prefs = false <->
       Obj.get prefs "slippage" = None /\
       Obj.get prefs "theme" = None /\
       Obj.get prefs "expertMode" = None /\
       Obj.get prefs "gasPriority" = None) /\
    (forall w chainId domainName,
        exists r slippageQ themeQ expertModeQ gasQ,
          result (useENSPreferences w chainId domainName) = Returned r /\
          preferences r =
            parsePreferences (data slippageQ) (data themeQ)
              (data expertModeQ) (data gasQ) /\
          hasAnyPreferences r = hasAny (preferences r)).
Proof.
  intros s t e g prefs.
  pose proof (hasAny_present s t e g) as H. fold prefs in H. cbv zeta in H.
  split; [|split].
  - rewrite H, !orb_true_iff, !present_true. tauto.
  - rewrite H, !orb_false_iff. unfold present.
    destruct (Obj.get prefs "slippage"), (Obj.get prefs "theme"),
      (Obj.get prefs "expertMode"), (Obj.get prefs "gasPriority");
      intuition congruence.
  - intros w chainId domainName.
    destruct (useENSPreferences_returns w chainId domainName)
      as (r & q1 & q2 & q3 & q4 & Hr & Hp & Hh & _).
    exists r, q1, q2, q3, q4. auto.
Qed.

End PreferenceClaims.

(** ** The token-address resolver *)

Section TokenFacts.

Import TokenAddress.

Variable w : World.

(** The three ways the first memo can go. *)
Lemma classifyInput_cases (input : js string) :
  let trimmed := trim (textOf input) in
  (nonBlank input = true /\ isAddress w trimmed = false /\
   includes trimmed "." = true /\
   exists n, normalize w trimmed = Returned n /\
             classifyInput w input = ([], Returned (mkClassified true (val n))))
  \/
  (nonBlank input = true /\ isAddress w trimmed = false /\
   includes trimmed "." = true /\
   exists e, normalize w trimmed = Thrown e /\
             classifyInput w input =
               ([ConsoleWarn "Failed to normalize ENS name:" e],
                Returned (mkClassified false null)))
  \/
  ((nonBlank input = false \/ isAddress w trimmed = true \/
    includes trimmed "." = false) /\
   classifyInput w input = ([], Returned (mkClassified false null))).
Proof.
  intros trimmed. subst trimmed. unfold classifyInput, nonBlank.
  destruct (truthy input); simpl negb; simpl orb; simpl andb; [|auto 6].
  destruct (trim (textOf input) =? ""); simpl negb; [auto 6|].
  destruct (isAddress w (trim (textOf input))); [auto 6|].
  destruct (includes (trim (textOf input)) "."); [|auto 6].
  destruct (normalize w (trim (textOf input))) as [n|e].
  - left. repeat split. exists n. split; reflexivity.
  - right. left. repeat split. exists e. split; reflexivity.
Qed.

Lemma classifyInput_returns (input : js string) :
  exists evs c, classifyInput w input = (evs, Returned c) /\
                (c_isENSName c = false -> c_normalizedName c = null) /\
                (c_isENSName c = true -> exists n, c_normalizedName c = val n) /\
                lookupsOf evs = [] /\ consoleOf evs = evs.
Proof.
  destruct (classifyInput_cases input)
    as [(_ & _ & _ & n & _ & H)|[(_ & _ & _ & e & _ & H)|(_ & H)]];
    rewrite H; do 2 eexists; (split; [reflexivity|]); simpl;
    (split; [|split; [|split]]); intros; try discriminate; eauto.
Qed.

(** A dotted input cannot be blank. *)
Lemma includes_nonBlank (input : js string) :
  includes (trim (textOf input)) "." = true -> nonBlank input = true.
Proof.
  unfold nonBlank. intros H.
  destruct (trim (textOf input)) as [|c t] eqn:Ht; [discriminate|].
  destruct input as [| |s]; try discriminate.
  simpl truthy. destruct s; [discriminate|reflexivity].
Qed.

(** The render, spelled out from the classification on. *)
Lemma useENSTokenAddress_run (chainId : ChainId) (input : js string)
    (enabled : bool) :
  exists evs c,
    classifyInput w input = (evs, Returned c) /\
    let name := nullish (c_normalizedName c) undefined in
    let chain :=
      if sameChain chainId ETHEREUM || sameChain chainId GOERLI then chainId
      else ETHEREUM in
    let en := c_isENSName c && enabled && negb (isNull (c_normalizedName c)) in
    let primaryQ := ensAddressQuery w name chain en in
    let tokenQ := ensTextQuery w name "token" chain en in
    let resolved :=
      resolveAddress w input (c_isENSName c) (data tokenQ) (data primaryQ) in
    let verifyQ :=
      readContractQuery w (nullish resolved undefined) "decimals" chainId
        (truthy resolved) in
    let erc20 :=
      truthy resolved && negb (isUndefined (data verifyQ)) &&
      negb (isError verifyQ) in
    useENSTokenAddress w chainId input enabled =
      ((evs ++
        [Issued (EnsAddress name chain en);
         Issued (EnsText name "token" chain en);
         Issued (ReadContract (nullish resolved undefined) "decimals" chainId
                   (truthy resolved) 1 60000)])%list,
       Returned
         (mkResult resolved (c_isENSName c)
            (if c_isENSName c then c_normalizedName c else null)
            (c_isENSName c &&
             (Effects.isLoading primaryQ || Effects.isLoading tokenQ ||
              Effects.isLoading verifyQ))
            (if negb (truthy input) || (trim (textOf input) =? "") then false
             else if c_isENSName c then negb (isNull resolved) && erc20
                  else isAddress w (trim (textOf input)) && erc20)
            erc20
            (data verifyQ)
            (validAddress w (data tokenQ)))).
Proof.
  destruct (classifyInput_returns input) as (evs & c & Hc & _).
  exists evs, c. split; [exact Hc|].
  unfold useENSTokenAddress. rewrite Hc. reflexivity.
Qed.

Lemma blank_test (input : js string) :
  negb (truthy input) || (trim (textOf input) =? "") = negb (nonBlank input).
Proof.
  unfold nonBlank. destruct (truthy input), (trim (textOf input) =? "");
    reflexivity.
Qed.

Lemma erc20_test (resolved : js string) (verifyQ : Query N) :
  truthy resolved && negb (isUndefined (data verifyQ)) && negb (isError verifyQ) =
  truthy resolved && verified verifyQ.
Proof.
  unfold verified. symmetry. apply andb_assoc.
Qed.

Lemma lookupsOf_app (evs evs' : list Event) :
  lookupsOf (evs ++ evs') = (lookupsOf evs ++ lookupsOf evs')%list.
Proof. apply flat_map_app. Qed.

Lemma consoleOf_app (evs evs' : list Event) :
  consoleOf (evs ++ evs') = (consoleOf evs ++ consoleOf evs')%list.
Proof. apply filter_app. Qed.

(** The render, field by field. *)
Lemma token_render (chainId : ChainId) (input : js string) (enabled : bool) :
  exists evs c r name chain en,
    classifyInput w input = (evs, Returned c) /\
    tokenRender (useENSTokenAddress w chainId input enabled) chainId r name
      chain en /\
    consoleOutput (useENSTokenAddress w chainId input enabled) = evs /\
    name = nullish (c_normalizedName c) undefined /\
    en = c_isENSName c && enabled && negb (isNull (c_normalizedName c)) /\
    isENSName r = c_isENSName c /\
    ensName r = (if c_isENSName c then c_normalizedName c else null) /\
    address r =
      resolveAddress w input (c_isENSName c)
        (data (ensTextQuery w name "token" chain en))
        (data (ensAddressQuery w name chain en)) /\
    isERC20Token r =
      truthy (address r) &&
      verified (readContractQuery w (nullish (address r) undefined) "decimals"
                  chainId (truthy (address r))) /\
    isValid r =
      nonBlank input &&
      (if c_isENSName c then negb (isNull (address r)) && isERC20Token r
       else isAddress w (trim (textOf input)) && isERC20Token r) /\
    (c_isENSName c = false -> isLoading r = false) /\
    hasTokenRecord r = validAddress w (data (ensTextQuery w name "token" chain en)).
Proof.
  destruct (useENSTokenAddress_run chainId input enabled) as (evs & c & Hc & Hrun).
  cbv zeta in Hrun.
  destruct (classifyInput_returns input) as (evs' & c' & Hc' & _ & _ & Hl & Hf).
  rewrite Hc in Hc'. injection Hc' as <- <-.
  do 6 eexists.
  split; [exact Hc|].
  rewrite Hrun. unfold tokenRender, consoleOutput, lookups, events, result.
  simpl fst. simpl snd. rewrite lookupsOf_app, consoleOf_app, Hl, Hf.
  cbn [app lookupsOf consoleOf flat_map filter address isENSName ensName
       isERC20Token isValid isLoading hasTokenRecord].
  rewrite blank_test, erc20_test, app_nil_r.
  repeat split; try reflexivity.
  - destruct (nonBlank input); reflexivity.
  - intros ->. reflexivity.
Qed.

(** The remaining fields of the render. *)
Lemma token_render_full (chainId : ChainId) (input : js string)
    (enabled : bool) :
  exists evs c r name chain en,
    classifyInput w input = (evs, Returned c) /\
    tokenRender (useENSTokenAddress w chainId input enabled) chainId r name
      chain en /\
    name = nullish (c_normalizedName c) undefined /\
    chain =
      (if sameChain chainId ETHEREUM || sameChain chainId GOERLI then chainId
       else ETHEREUM) /\
    en = c_isENSName c && enabled && negb (isNull (c_normalizedName c)) /\
    isENSName r = c_isENSName c /\
    ensName r = (if c_isENSName c then c_normalizedName c else null) /\
    address r =
      resolveAddress w input (c_isENSName c)
        (data (ensTextQuery w name "token" chain en))
        (data (ensAddressQuery w name chain en)) /\
    decimals r =
      data (readContractQuery w (nullish (address r) undefined) "decimals"
              chainId (truthy (address r))) /\
    isERC20Token r =
      truthy (address r) &&
      verified (readContractQuery w (nullish (address r) undefined) "decimals"
                  chainId (truthy (address r))) /\
    isLoading r =
      c_isENSName c &&
      (Effects.isLoading (ensAddressQuery w name chain en) ||
       Effects.isLoading (ensTextQuery w name "token" chain en) ||
       Effects.isLoading
         (readContractQuery w (nullish (address r) undefined) "decimals"
            chainId (truthy (address r)))) /\
    isValid r =
      nonBlank input &&
      (if c_isENSName c then negb (isNull (address r)) && isERC20Token r
       else isAddress w (trim (textOf input)) && isERC20Token r) /\
    hasTokenRecord r = validAddress w (data (ensTextQuery w name "token" chain en)).
Proof.
  destruct (useENSTokenAddress_run chainId input enabled)
    as (evs & c & Hc & Hrun).
  cbv zeta in Hrun.
  destruct (classifyInput_returns input) as (evs' & c' & Hc' & _ & _ & Hl & Hf).
  rewrite Hc in Hc'. injection Hc' as <- <-.
  do 6 eexists.
  split; [exact Hc|].
  rewrite Hrun. unfold tokenRender, lookups, events, result.
  simpl fst. simpl snd. rewrite lookupsOf_app, Hl.
  cbn [app lookupsOf flat_map address isENSName ensName decimals
       isERC20Token isValid isLoading hasTokenRecord].
  rewrite blank_test, !erc20_test.
  repeat split; try reflexivity.
  destruct (nonBlank input); reflexivity.
Qed.

Lemma token_render_inv (chainId : ChainId) (input : js string)
    (enabled : bool) (r : Result) (name : js string) (chain : ChainId)
    (en : bool) :
  tokenRender (useENSTokenAddress w chainId input enabled) chainId r name
    chain en ->
  exists evs c,
    classifyInput w input = (evs, Returned c) /\
    consoleOutput (useENSTokenAddress w chainId input enabled) = evs /\
    name = nullish (c_normalizedName c) undefined /\
    en = c_isENSName c && enabled && negb (isNull (c_normalizedName c)) /\
    isENSName r = c_isENSName c /\
    ensName r = (if c_isENSName c then c_normalizedName c else null) /\
    address r =
      resolveAddress w input (c_isENSName c)
        (data (ensTextQuery w name "token" chain en))
        (data (ensAddressQuery w name chain en)) /\
    isERC20Token r =
      truthy (address r) &&
      verified (readContractQuery w (nullish (address r) undefined) "decimals"
                  chainId (truthy (address r))) /\
    isValid r =
      nonBlank input &&
      (if c_isENSName c then negb (isNull (address r)) && isERC20Token r
       else isAddress w (trim (textOf input)) && isERC20Token r) /\
    (c_isENSName c = false -> isLoading r = false) /\
    hasTokenRecord r = validAddress w (data (ensTextQuery w name "token" chain en)).
Proof.
  intros [Hres Hlook].
  destruct (token_render chainId input enabled)
    as (evs & c & r0 & name0 & chain0 & en0 & Hc & [Hres0 Hlook0] & H).
  rewrite Hres0 in Hres. injection Hres as <-.
  rewrite Hlook0 in Hlook. injection Hlook as <- <- <-.
  exists evs, c. split; [exact Hc|exact H].
Qed.

(** What the first memo returns, read off the input. *)
Lemma classifyInput_spec (input : js string) (evs : list Event) (c : Classified) :
  classifyInput w input = (evs, Returned c) ->
  let trimmed := trim (textOf input) in
  (c_isENSName c = true <->
     nonBlank input = true /\ isAddress w trimmed = false /\
     includes trimmed "." = true /\
     exists n, normalize w trimmed = Returned n) /\
  (c_isENSName c = true ->
     exists n, normalize w trimmed = Returned n /\ c_normalizedName c = val n) /\
  (c_isENSName c = false -> c_normalizedName c = null).
Proof.
  intros Hc trimmed. subst trimmed.
  destruct (classifyInput_cases input)
    as [(Hb & Ha & Hd & n & Hn & H)|[(Hb & Ha & Hd & e & He & H)|(Hor & H)]];
    rewrite H in Hc; injection Hc as <- <-; simpl.
  - repeat split; try discriminate; eauto.
  - repeat split; try discriminate.
    intros (_ & _ & _ & n & Hn). congruence.
  - repeat split; try discriminate.
    intros (Hb & Ha & Hd & _). destruct Hor as [Hx|[Hx|Hx]]; congruence.
Qed.

(** The address test comes first. *)
Lemma classifyInput_address (input : js string) :
  nonBlank input = true ->
  isAddress w (trim (textOf input)) = true ->
  classifyInput w input = ([], Returned (mkClassified false null)) /\
  forall tokenTextRecord primaryAddress,
    resolveAddress w input false tokenTextRecord primaryAddress =
    val (trim (textOf input)).
Proof.
  intros Hb Ha. split.
  - unfold classifyInput. rewrite blank_test, Hb, Ha. reflexivity.
  - intros t p. unfold resolveAddress.
    unfold nonBlank in Hb. apply andb_true_iff in Hb as [-> _].
    rewrite Ha. reflexivity.
Qed.

Lemma isNull_false (x : js string) : isNull x = false <-> x <> null.
Proof.
  destruct x; simpl; split; congruence.
Qed.

(** The [resolvedAddress] memo for an input that is an ENS name. *)
Lemma resolveAddress_ens (input tokenTextRecord primaryAddress : js string) :
  resolveAddress w input true tokenTextRecord primaryAddress =
  if validAddress w tokenTextRecord then tokenTextRecord
  else if validAddress w primaryAddress then primaryAddress
  else null.
Proof. reflexivity. Qed.

End TokenFacts.

(** ** The revision without the verification *)

Section BasicFacts.

Variable w : World.

Lemma endsWith_eth_dot (s : string) :
  endsWith s ".eth" = true -> includes s "." = true.
Proof.
  induction s as [|c s IH]; intros H.
  - discriminate.
  - change ((String c s =? ".eth") || endsWith s ".eth" = true) in H.
    apply orb_true_iff in H as [H|H].
    + apply String.eqb_eq in H. rewrite H. reflexivity.
    + rewrite includes_cons, (IH H). apply orb_true_r.
Qed.

(** The extra [endsWith('.eth')] test changes nothing: the first memo of
    the two revisions is the same function. *)
Lemma basic_classifyInput (input : js string) :
  TokenAddressBasic.classifyInput w input = TokenAddress.classifyInput w input.
Proof.
  unfold TokenAddressBasic.classifyInput, TokenAddress.classifyInput.
  destruct (includes (trim (textOf input)) ".") eqn:Hdot.
  - rewrite orb_true_r. reflexivity.
  - destruct (endsWith (trim (textOf input)) ".eth") eqn:Heth.
    + apply endsWith_eth_dot in Heth. congruence.
    + reflexivity.
Qed.

(** The render of this revision next to the render of the other: the same
    two name-service lookups, the same address, flags and name. *)
Lemma basic_render (chainId : ChainId) (input : js string) (enabled : bool)
    (r : TokenAddress.Result) (name : js string) (chain : ChainId) (en : bool) :
  tokenRender (TokenAddress.useENSTokenAddress w chainId input enabled) chainId
    r name chain en ->
  exists r',
    basicRender (TokenAddressBasic.useENSTokenAddress w chainId input enabled)
      r' name chain en /\
    consoleOutput (TokenAddressBasic.useENSTokenAddress w chainId input enabled) =
      consoleOutput (TokenAddress.useENSTokenAddress w chainId input enabled) /\
    TokenAddressBasic.address r' = TokenAddress.address r /\
    TokenAddressBasic.isENSName r' = TokenAddress.isENSName r /\
    TokenAddressBasic.ensName r' = TokenAddress.ensName r /\
    TokenAddressBasic.hasTokenRecord r' = TokenAddress.hasTokenRecord r /\
    TokenAddressBasic.isValid r' =
      nonBlank input &&
      (if TokenAddress.isENSName r then negb (isNull (TokenAddress.address r))
       else isAddress w (trim (textOf input))).
Proof.
  intros [Hres Hlook].
  destruct (useENSTokenAddress_run w chainId input enabled)
    as (evs & c & Hc & Hrun).
  cbv zeta in Hrun.
  destruct (classifyInput_returns w input) as (evs' & c' & Hc' & _ & _ & Hl & Hf).
  rewrite Hc in Hc'. injection Hc' as <- <-.
  rewrite Hrun in Hres, Hlook |- *.
  unfold result in Hres. simpl snd in Hres. injection Hres as <-.
  unfold lookups, events in Hlook. simpl fst in Hlook.
  rewrite lookupsOf_app, Hl in Hlook. simpl in Hlook.
  injection Hlook as <- <- <-.
  unfold TokenAddressBasic.useENSTokenAddress.
  rewrite basic_classifyInput, Hc.
  eexists. unfold basicRender, consoleOutput, lookups, events, result.
  cbn [bind useEnsAddress useEnsText emit ret fst snd app].
  rewrite !lookupsOf_app, !consoleOf_app, Hl, Hf.
  cbn [app lookupsOf consoleOf flat_map filter
       TokenAddressBasic.address TokenAddressBasic.isENSName
       TokenAddressBasic.ensName TokenAddressBasic.hasTokenRecord
       TokenAddressBasic.isValid TokenAddress.address TokenAddress.isENSName
       TokenAddress.ensName TokenAddress.hasTokenRecord].
  rewrite blank_test.
  repeat split; try reflexivity.
  destruct (nonBlank input); reflexivity.
Qed.

End BasicFacts.

(** ** The cases of a render of the token-address resolver *)

Section TokenCases.

Import TokenAddress.

Variable w : World.

Lemma ensChain_token (chainId : ChainId) :
  (if sameChain chainId ETHEREUM || sameChain chainId GOERLI then chainId
   else ETHEREUM) = ensChain chainId.
Proof. destruct chainId; reflexivity. Qed.

Lemma nonBlank_trimmed (input : js string) :
  nonBlank input = true ->
  truthy input = true /\ truthy (val (trim (textOf input))) = true.
Proof.
  unfold nonBlank. intros H. apply andb_true_iff in H as [Ht Hn].
  split; [exact Ht|exact Hn].
Qed.

(** What the name service gives is null or a non-empty string that viem
    accepted. *)
Lemma candidate_accepted (name : js string) (chain : ChainId) (en : bool) :
  let a := candidate w name chain en in
  (a = null /\ truthy a = false) \/
  (exists s, a = val s /\ truthy a = true /\ isAddress w s = true).
Proof.
  unfold candidate, validAddress.
  destruct (truthy (data (ensTextQuery w name "token" chain en)) &&
            isAddress w (textOf (data (ensTextQuery w name "token" chain en))))
    eqn:Ht.
  - right. apply andb_true_iff in Ht as [Ht Ha].
    destruct (data (ensTextQuery w name "token" chain en)) as [| |s];
      try discriminate. eauto.
  - destruct (truthy (data (ensAddressQuery w name chain en)) &&
              isAddress w (textOf (data (ensAddressQuery w name chain en))))
      eqn:Hp; [|left; split; reflexivity].
    right. apply andb_true_iff in Hp as [Hp Ha].
    destruct (data (ensAddressQuery w name chain en)) as [| |s];
      try discriminate. eauto.
Qed.

Lemma candidate_truthy (name : js string) (chain : ChainId) (en : bool) :
  truthy (candidate w name chain en) = true <->
  candidate w name chain en <> null.
Proof.
  destruct (candidate_accepted name chain en) as [[Hn Ht]|(s & Hs & Ht & _)];
    rewrite Ht; split; congruence.
Qed.

(** A render, with every field read off the input and the lookup layer:
    the three cases of the classification. *)
Lemma token_render_cases (chainId : ChainId) (input : js string)
    (enabled : bool) :
  let trimmed := trim (textOf input) in
  exists r name en,
    tokenRender (useENSTokenAddress w chainId input enabled) chainId r name
      (ensChain chainId) en /\
    isERC20Token r =
      truthy (address r) && verified (decimalsRead w chainId (address r)) /\
    ((nonBlank input = true /\ isAddress w trimmed = true /\
      isENSName r = false /\ name = undefined /\ en = false /\
      address r = val trimmed /\ truthy (address r) = true /\
      isLoading r = false /\ isValid r = isERC20Token r)
     \/
     (nonBlank input = true /\ isAddress w trimmed = false /\
      includes trimmed "." = true /\
      exists n, normalize w trimmed = Returned n /\
        isENSName r = true /\ name = val n /\ en = enabled /\
        ensName r = val n /\
        address r = candidate w (val n) (ensChain chainId) enabled /\
        isValid r = isERC20Token r)
     \/
     ((nonBlank input = false \/
       (isAddress w trimmed = false /\
        (includes trimmed "." = false \/
         exists e, normalize w trimmed = Thrown e))) /\
      isENSName r = false /\ name = undefined /\ en = false /\
      isLoading r = false /\ isValid r = false)).
Proof.
  intros trimmed. subst trimmed.
  destruct (token_render_full w chainId input enabled)
    as (evs & c & r & name & chain & en & Hc & Hrender & Hname & Hchain & Hen &
        Hens & Hn & Haddr & _ & Herc & Hload & Hvalid & _).
  rewrite ensChain_token in Hchain. subst chain.
  exists r, name, en. split; [exact Hrender|].
  split; [exact Herc|].
  destruct (classifyInput_cases w input)
    as [(Hb & Ha & Hd & n & Hnorm & H)|[(Hb & Ha & Hd & e & He & H)|(Hor & H)]];
    rewrite H in Hc; injection Hc as <- <-;
    cbn [c_isENSName c_normalizedName nullish isNull negb andb] in *.
  - (* an ENS name *)
    right. left.
    rewrite andb_true_r in Hen. subst en name.
    split; [exact Hb|]. split; [exact Ha|]. split; [exact Hd|].
    exists n. split; [exact Hnorm|].
    split; [exact Hens|]. split; [reflexivity|]. split; [reflexivity|].
    split; [exact Hn|].
    assert (Hcand : address r = candidate w (val n) (ensChain chainId) enabled)
      by exact Haddr.
    split; [exact Hcand|].
    rewrite Hvalid, Hb, Herc. cbn [andb].
    destruct (candidate_accepted (val n) (ensChain chainId) enabled)
      as [[Hnull Ht]|(s & Hs & Ht & _)]; rewrite <- Hcand in *.
    + rewrite Ht, Hnull. reflexivity.
    + rewrite Hs. reflexivity.
  - (* a name that normalize rejects *)
    right. right. subst en name.
    split; [right; split; [exact Ha|right; eauto]|].
    split; [exact Hens|]. split; [reflexivity|]. split; [reflexivity|].
    split; [rewrite Hload; reflexivity|].
    rewrite Hvalid, Ha. cbn [andb]. apply andb_false_r.
  - subst en name.
    destruct (nonBlank input) eqn:Hb.
    + destruct (isAddress w (trim (textOf input))) eqn:Ha.
      * (* an address *)
        left.
        destruct (classifyInput_address w input Hb Ha) as [_ Hres].
        rewrite Hres in Haddr.
        destruct (nonBlank_trimmed input Hb) as [_ Ht].
        split; [reflexivity|]. split; [reflexivity|].
        split; [exact Hens|]. split; [reflexivity|]. split; [reflexivity|].
        split; [exact Haddr|]. split; [rewrite Haddr; exact Ht|].
        split; [rewrite Hload; reflexivity|].
        rewrite Hvalid. reflexivity.
      * right. right.
        split.
        { right. split; [reflexivity|].
          destruct Hor as [Hx|[Hx|Hx]]; try discriminate. left. exact Hx. }
        split; [exact Hens|]. split; [reflexivity|]. split; [reflexivity|].
        split; [rewrite Hload; reflexivity|].
        rewrite Hvalid. reflexivity.
    + right. right.
      split; [left; reflexivity|].
      split; [exact Hens|]. split; [reflexivity|]. split; [reflexivity|].
      split; [rewrite Hload; reflexivity|].
      rewrite Hvalid. reflexivity.
Qed.

End TokenCases.

Section TokenClaims.

Import TokenAddress.

(** C1.  Every render of the token-address resolver returns.  In the
    revision that verifies [decimals()], [isValid] is true exactly when
    the input is not blank and either its trimmed text is an address for
    viem and the [decimals()] read for that text succeeded, or the trimmed
    text is no address, contains a dot and is normalized to a name for
    which the name service gives an address whose [decimals()] read
    succeeded.  The name service gives the [token] text record when it is
    a valid address, else the primary address when that is one.  The read
    succeeded when it holds a value and no error.  In the revision without
    the verification [isValid] is true under the same condition without
    the read.  So an ENS name that resolves to an address whose
    [decimals()] read did not succeed is not valid in the first revision
    and valid in the second. *)
Theorem token_isValid_iff :
  forall (w : World) (chainId : ChainId) (input : js string) (enabled : bool),
    let trimmed := trim (textOf input) in
    let resolved n := candidate w (val n) (ensChain chainId) enabled in
    exists r r',
      result (useENSTokenAddress w chainId input enabled) = Returned r /\
      result (TokenAddressBasic.useENSTokenAddress w chainId input enabled) =
        Returned r' /\
      (isENSName r = true <->
         nonBlank input = true /\ isAddress w trimmed = false /\
         includes trimmed "." = true /\
         exists n, normalize w trimmed = Returned n) /\
      (nonBlank input = true -> isAddress w trimmed = true ->
       address r = val trimmed /\
       isERC20Token r = verified (decimalsRead w chainId (val trimmed))) /\
      (forall n, isENSName r = true -> normalize w trimmed = Returned n ->
         address r = resolved n /\
         isERC20Token r =
           truthy (resolved n) && verified (decimalsRead w chainId (resolved n))) /\
      (isValid r = true <->
         nonBlank input = true /\
         ((isAddress w trimmed = true /\
           verified (decimalsRead w chainId (val trimmed)) = true) \/
          (isAddress w trimmed = false /\ includes trimmed "." = true /\
           exists n, normalize w trimmed = Returned n /\
             resolved n <> null /\
             verified (decimalsRead w chainId (resolved n)) = true))) /\
      (TokenAddressBasic.isValid r' = true <->
         nonBlank input = true /\
         (isAddress w trimmed = true \/
          (isAddress w trimmed = false /\ includes trimmed "." = true /\
           exists n, normalize w trimmed = Returned n /\ resolved n <> null))) /\
      (isENSName r = true -> address r <> null ->
       verified (decimalsRead w chainId (address r)) = false ->
       isValid r = false /\ TokenAddressBasic.isValid r' = true).
Proof.
  intros w chainId input enabled trimmed resolved. subst trimmed resolved.
  destruct (token_render_cases w chainId input enabled)
    as (r & name & en & Hrender & Herc & Hcases).
  destruct (basic_render w chainId input enabled r name (ensChain chainId) en
              Hrender)
    as (r' & [Hres' _] & _ & _ & _ & _ & _ & Hv').
  cbv zeta in Hcases.
  exists r, r'. split; [exact (proj1 Hrender)|]. split; [exact Hres'|].
  rewrite Hv'. clear Hv' Hres' Hrender.
  destruct Hcases
    as [(Hb & Ha & Hens & _ & _ & Haddr & Ht & _ & Hvalid)
       |[(Hb & Ha & Hd & n & Hnorm & Hens & _ & _ & _ & Haddr & Hvalid)
        |(Hor & Hens & _ & _ & _ & Hvalid)]].
  - (* an address *)
    rewrite Hvalid, Herc, Ht, Hens, Hb, Ha, Haddr. cbn [andb].
    split.
    { split; [discriminate|]. intros (_ & Hx & _). discriminate. }
    split; [auto|].
    split; [discriminate|].
    split.
    { split.
      - intros Hv. split; [reflexivity|]. left. split; [reflexivity|exact Hv].
      - intros (_ & [[_ Hv]|(Hx & _)]); [exact Hv|discriminate]. }
    split.
    { split; [auto|reflexivity]. }
    discriminate.
  - (* an ENS name *)
    rewrite Hvalid, Herc, Hens, Hb, Ha, Hd, Haddr. cbn [andb].
    assert (Hsame : forall n', Returned (A := string) n = Returned n' -> n' = n)
      by (intros n' Hx; injection Hx; auto).
    rewrite Hnorm.
    pose proof (candidate_truthy w (val n) (ensChain chainId) enabled) as Htr.
    split.
    { split; [|reflexivity]. intros _. repeat split. eauto. }
    split; [discriminate|].
    split.
    { intros n' _ Hn'. rewrite (Hsame n' Hn'). split; reflexivity. }
    split.
    { rewrite andb_true_iff, Htr. split.
      - intros [Hnn Hv]. split; [reflexivity|]. right.
        split; [reflexivity|]. split; [reflexivity|]. exists n. auto.
      - intros (_ & [[Hx _]|(_ & _ & n' & Hn' & Hnn & Hv)]); [discriminate|].
        rewrite (Hsame n' Hn') in Hnn, Hv. auto. }
    split.
    { rewrite negb_true_iff, isNull_false. split.
      - intros Hnn. split; [reflexivity|]. right.
        split; [reflexivity|]. split; [reflexivity|]. exists n. auto.
      - intros (_ & [Hx|(_ & _ & n' & Hn' & Hnn)]); [discriminate|].
        rewrite (Hsame n' Hn') in Hnn. exact Hnn. }
    intros _ Hnn Hv. rewrite Hv, andb_false_r.
    split; [reflexivity|]. apply negb_true_iff, isNull_false. exact Hnn.
  - (* neither *)
    rewrite Hvalid, Hens.
    assert (Hno : ~ (nonBlank input = true /\
                     isAddress w (trim (textOf input)) = false /\
                     includes (trim (textOf input)) "." = true /\
                     exists n, normalize w (trim (textOf input)) = Returned n)).
    { intros (Hb & Ha & Hd & n & Hn).
      destruct Hor as [Hx|(_ & [Hx|(e & He)])]; congruence. }
    assert (Hna : nonBlank input = true ->
                  isAddress w (trim (textOf input)) = true -> False).
    { intros Hb Ha. destruct Hor as [Hx|(Hx & _)]; congruence. }
    split.
    { split; [discriminate|]. intros H. destruct (Hno H). }
    split; [intros Hb Ha; destruct (Hna Hb Ha)|].
    split; [discriminate|].
    split.
    { split; [discriminate|].
      intros (Hb & [[Ha _]|(Ha & Hd & n & Hn & _)]);
        [destruct (Hna Hb Ha)|destruct Hno; eauto 6]. }
    split; [|discriminate].
    split.
    { intros H. apply andb_true_iff in H as [Hb Ha]. destruct (Hna Hb Ha). }
    intros (Hb & [Ha|(Ha & Hd & n & Hn & _)]);
      [destruct (Hna Hb Ha)|destruct Hno; eauto 6].
Qed.

(** C2.  Every render returns, and for an input that is an ENS name: when
    the [token] text record is a non-empty string that viem takes for an
    address, the resolved address is that record, whatever the primary
    address is; when it is not and the primary address is such a string,
    the resolved address is the primary address; when neither is, the
    resolved address is null.  The revision without the verification
    resolves the same address. *)
Theorem token_record_precedence :
  forall (w : World) (chainId : ChainId) (input : js string) (enabled : bool),
  exists r name chain en,
    tokenRender (useENSTokenAddress w chainId input enabled) chainId r name
      chain en /\
    let tokenTextRecord := data (ensTextQuery w name "token" chain en) in
    let primaryAddress := data (ensAddressQuery w name chain en) in
    (isENSName r = true ->
       (validAddress w tokenTextRecord = true -> address r = tokenTextRecord) /\
       (validAddress w tokenTextRecord = false ->
        validAddress w primaryAddress = true -> address r = primaryAddress) /\
       (validAddress w tokenTextRecord = false ->
        validAddress w primaryAddress = false -> address r = null)) /\
    (exists r',
        basicRender (TokenAddressBasic.useENSTokenAddress w chainId input enabled)
          r' name chain en /\
        TokenAddressBasic.isENSName r' = isENSName r /\
        TokenAddressBasic.address r' = address r).
Proof.
  intros w chainId input enabled.
  destruct (token_render w chainId input enabled)
    as (evs & c & r & name & chain & en & Hc & Hrender & _ & _ & _ & Hens &
        _ & Haddr & _).
  exists r, name, chain, en. split; [exact Hrender|]. cbv zeta. split.
  - rewrite Hens, Haddr. intros ->. rewrite resolveAddress_ens.
    repeat split.
    + intros ->. reflexivity.
    + intros -> ->. reflexivity.
    + intros -> ->. reflexivity.
  - destruct (basic_render w chainId input enabled r name chain en Hrender)
      as (r' & Hb & _ & Ha & He & _).
    exists r'. auto.
Qed.

(** C9.  When disabled queries hold no data: every render returns; if
    [hasTokenRecord] is true the returned address is the value of the
    [token] text record; and for an input that is not an ENS name, a raw
    address in particular, the text-record lookup is not enabled and
    [hasTokenRecord] is false.  The revision without the verification
    returns the same address and flag. *)
Theorem token_record_invariant :
  forall (w : World) (chainId : ChainId) (input : js string) (enabled : bool),
    disabledQueriesAreIdle w ->
    exists r name chain en,
      tokenRender (useENSTokenAddress w chainId input enabled) chainId r name
        chain en /\
      (hasTokenRecord r = true ->
         address r = data (ensTextQuery w name "token" chain en)) /\
      (isENSName r = false -> en = false /\ hasTokenRecord r = false) /\
      (nonBlank input = true -> isAddress w (trim (textOf input)) = true ->
         isENSName r = false /\ en = false /\ hasTokenRecord r = false /\
         address r = val (trim (textOf input))) /\
      (exists r',
          basicRender (TokenAddressBasic.useENSTokenAddress w chainId input enabled)
            r' name chain en /\
          TokenAddressBasic.address r' = address r /\
          TokenAddressBasic.hasTokenRecord r' = hasTokenRecord r).
Proof.
  intros w chainId input enabled (_ & _ & Hidle & _).
  destruct (token_render w chainId input enabled)
    as (evs & c & r & name & chain & en & Hc & Hrender & _ & _ & Hen & Hens &
        _ & Haddr & _ & _ & _ & Htok).
  exists r, name, chain, en. split; [exact Hrender|].
  assert (Hoff : c_isENSName c = false -> en = false /\ hasTokenRecord r = false).
  { intros Hf. rewrite Hf in Hen. simpl in Hen. subst en.
    rewrite Htok, Hidle. auto. }
  destruct (classifyInput_spec w input evs c Hc) as (Hiff & _ & _).
  cbv zeta in Hiff.
  split; [|split; [|split]].
  - rewrite Htok, Haddr. intros Hv.
    destruct (c_isENSName c) eqn:Hcn.
    + rewrite resolveAddress_ens, Hv. reflexivity.
    + destruct (Hoff eq_refl) as [_ Hno]. rewrite Htok in Hno. congruence.
  - rewrite Hens. exact Hoff.
  - intros Hb Ha.
    assert (Hcn : c_isENSName c = false).
    { destruct (c_isENSName c); [|reflexivity].
      destruct (proj1 Hiff eq_refl) as (_ & Hna & _). congruence. }
    destruct (Hoff Hcn) as [Hen' Hno].
    rewrite Hens, Haddr. repeat split; try assumption.
    unfold resolveAddress. rewrite Hcn.
    unfold nonBlank in Hb. apply andb_true_iff in Hb as [-> _].
    rewrite Ha. reflexivity.
  - destruct (basic_render w chainId input enabled r name chain en Hrender)
      as (r' & Hb & _ & Ha & _ & _ & Hh & _).
    exists r'. auto.
Qed.

(** C10.  Every render returns.  When the input is an ENS name, which is
    when it is not blank, its trimmed text is not an address for viem,
    contains a dot and is accepted by [normalize], the returned [ensName]
    is what [normalize] returned for the trimmed text.  It is null when the
    input is blank, when its trimmed text is an address, when it has no
    dot, and when [normalize] throws.  The revision without the
    verification returns the same name. *)
Theorem ensName_is_normalized_name :
  forall (w : World) (chainId : ChainId) (input : js string) (enabled : bool),
  exists r name chain en,
    tokenRender (useENSTokenAddress w chainId input enabled) chainId r name
      chain en /\
    let trimmed := trim (textOf input) in
    (isENSName r = true <->
       nonBlank input = true /\ isAddress w trimmed = false /\
       includes trimmed "." = true /\
       exists n, normalize w trimmed = Returned n) /\
    (isENSName r = true ->
       exists n, normalize w trimmed = Returned n /\ ensName r = val n /\
                 name = val n) /\
    (isENSName r = false -> ensName r = null) /\
    (nonBlank input = false -> ensName r = null) /\
    (isAddress w trimmed = true -> ensName r = null) /\
    (includes trimmed "." = false -> ensName r = null) /\
    (forall e, normalize w trimmed = Thrown e -> ensName r = null) /\
    (exists r',
        basicRender (TokenAddressBasic.useENSTokenAddress w chainId input enabled)
          r' name chain en /\
        TokenAddressBasic.ensName r' = ensName r).
Proof.
  intros w chainId input enabled.
  destruct (token_render w chainId input enabled)
    as (evs & c & r & name & chain & en & Hc & Hrender & _ & Hname & _ & Hens &
        Hn & _).
  exists r, name, chain, en. split; [exact Hrender|].
  destruct (classifyInput_spec w input evs c Hc) as (Hiff & Hnorm & Hnull).
  cbv zeta in Hiff, Hnorm |- *.
  rewrite Hens, Hn.
  assert (Hoff : c_isENSName c = false ->
                 (if c_isENSName c then c_normalizedName c else null) = null).
  { intros ->. reflexivity. }
  assert (Hnot : forall P : Prop,
             (c_isENSName c = true -> ~ P) -> P -> c_isENSName c = false).
  { intros P HP p. destruct (c_isENSName c); [|reflexivity].
    exfalso. exact (HP eq_refl p). }
  split; [exact Hiff|].
  split; [|split; [|split; [|split; [|split; [|split]]]]].
  - intros Ht. destruct (Hnorm Ht) as (n & Hr & Hv). exists n.
    rewrite Ht, Hname, Hv. auto.
  - exact Hoff.
  - intros Hb. apply Hoff.
    apply (Hnot (nonBlank input = false)); [|exact Hb].
    intros Ht. destruct (proj1 Hiff Ht) as (Hnb & _). congruence.
  - intros Ha. apply Hoff.
    apply (Hnot (isAddress w (trim (textOf input)) = true)); [|exact Ha].
    intros Ht. destruct (proj1 Hiff Ht) as (_ & Hna & _). congruence.
  - intros Hd. apply Hoff.
    apply (Hnot (includes (trim (textOf input)) "." = false)); [|exact Hd].
    intros Ht. destruct (proj1 Hiff Ht) as (_ & _ & Hdd & _). congruence.
  - intros e He. apply Hoff.
    apply (Hnot (normalize w (trim (textOf input)) = Thrown e)); [|exact He].
    intros Ht. destruct (proj1 Hiff Ht) as (_ & _ & _ & n & Hr). congruence.
  - destruct (basic_render w chainId input enabled r name chain en Hrender)
      as (r' & Hb & _ & _ & _ & He & _).
    exists r'. split; [exact Hb|]. rewrite He. exact Hn.
Qed.

End TokenClaims.

(** ** The name resolver *)

Section ProfileFacts.

Import Profile.

Variable w : World.

(** The three ways the [normalizedName] memo can go. *)
Lemma normalizeName_cases (ensName : js string) :
  (truthy ensName = true /\ includes (textOf ensName) "." = true /\
   exists n, normalize w (textOf ensName) = Returned n /\
             normalizeName w ensName = ([], Returned (val n)))
  \/
  (truthy ensName = true /\ includes (textOf ensName) "." = true /\
   exists e, normalize w (textOf ensName) = Thrown e /\
             normalizeName w ensName =
               ([ConsoleError "Error normalizing ENS name:" e],
                Returned undefined))
  \/
  ((truthy ensName = false \/ includes (textOf ensName) "." = false) /\
   normalizeName w ensName = ([], Returned undefined)).
Proof.
  unfold normalizeName.
  destruct (truthy ensName); simpl negb; [|auto 6].
  destruct (includes (textOf ensName) "."); [|auto 6].
  destruct (normalize w (textOf ensName)) as [n|e].
  - left. repeat split. exists n. split; reflexivity.
  - right. left. repeat split. exists e. split; reflexivity.
Qed.

Lemma normalizeName_returns (ensName : js string) :
  exists evs normalizedName,
    normalizeName w ensName = (evs, Returned normalizedName) /\
    lookupsOf evs = [] /\ consoleOf evs = evs.
Proof.
  destruct (normalizeName_cases ensName)
    as [(_ & _ & n & _ & H)|[(_ & _ & e & _ & H)|(_ & H)]];
    rewrite H; do 2 eexists; (split; [reflexivity|]); split; reflexivity.
Qed.

(** The render, field by field. *)
Lemma profile_render (chainId : ChainId) (ensName : js string) (enabled : bool) :
  exists evs normalizedName p,
    normalizeName w ensName = (evs, Returned normalizedName) /\
    result (useENSProfile w chainId ensName enabled) = Returned p /\
    consoleOutput (useENSProfile w chainId ensName enabled) = evs /\
    let chain := if sameChain chainId GOERLI then GOERLI else ETHEREUM in
    let shouldFetch :=
      enabled &&
      (negb (sameChain chainId BSC) && negb (sameChain chainId BSC_TESTNET)) &&
      truthy normalizedName in
    let addressQ := ensAddressQuery w normalizedName chain shouldFetch in
    let avatarQ := ensAvatarQuery w normalizedName chain shouldFetch in
    lookups (useENSProfile w chainId ensName enabled) =
      profileLookups normalizedName chain shouldFetch
        (shouldFetch && truthy (data addressQ)) /\
    address p = data addressQ /\
    avatar p = nullish (data avatarQ) undefined /\
    isLoading p = Effects.isLoading addressQ || Effects.isLoading avatarQ /\
    isValid p = truthy (data addressQ).
Proof.
  destruct (normalizeName_returns ensName) as (evs & nn & Hn & Hl & Hf).
  exists evs, nn. unfold useENSProfile. rewrite Hn.
  eexists. split; [reflexivity|].
  unfold consoleOutput, lookups, events, result.
  cbn [bind useEnsAddress useEnsAvatar useEnsText emit ret fst snd app].
  rewrite !lookupsOf_app, !consoleOf_app, Hl, Hf.
  repeat split. apply app_nil_r.
Qed.

(** A render of [useResolveAddressOrENS] on an input of the address
    pattern. *)
Lemma resolve_address_run (chainId : ChainId) (input : js string)
    (enabled : bool) :
  inputIsAddress input = true ->
  useResolveAddressOrENS w chainId input enabled =
    (map Issued
       (profileLookups undefined
          (if sameChain chainId GOERLI then GOERLI else ETHEREUM) false false),
     Returned (mkResolved input false undefined undefined undefined false true)).
Proof.
  intros Ha. unfold useResolveAddressOrENS, inputIsENSName. rewrite Ha.
  simpl negb. rewrite andb_false_r.
  replace (if negb (truthy input) then false else false) with false
    by (destruct (truthy input); reflexivity).
  rewrite andb_false_r. unfold useENSProfile.
  cbn [normalizeName truthy negb bind ret fst snd app].
  rewrite !andb_false_r. reflexivity.
Qed.

Lemma inputIsAddress_pattern (input : js string) :
  inputIsAddress input = true <->
  exists s, input = val s /\ addressPattern s = true.
Proof.
  unfold inputIsAddress. split.
  - destruct input as [| |s]; simpl; try discriminate.
    destruct s; simpl; [discriminate|]. eauto.
  - intros (s & -> & Hs). simpl.
    rewrite (addressPattern_nonempty s Hs). exact Hs.
Qed.

Lemma classify_Address (input : js string) :
  classify input = Address <-> inputIsAddress input = true.
Proof.
  unfold classify. destruct (inputIsAddress input).
  - tauto.
  - destruct (inputIsENSName input); split; discriminate.
Qed.

End ProfileFacts.

Section ProfileClaims.

Import Profile.

(** C4.  Every render of [useENSProfile] returns.  Its address lookup is
    for the normalized name, which is what [normalize] returned for a
    name with a dot and undefined otherwise, on Goerli when the wallet is
    there and on mainnet otherwise, and is enabled when the hook is
    enabled, the wallet is not on BSC or its test network and the
    normalized name is not empty.  [isValid] is true exactly when that
    lookup holds a non-empty address.  A second render in a world that
    differs only in what the avatar and text-record lookups (and the
    contract reads) answer issues the same lookups and returns the same
    [address] and the same [isValid].  In particular, for a name with a
    dot that is normalized to a non-empty name, with the hook enabled on
    a chain with the name service, when the address lookup for the
    normalized name holds a non-empty address and the avatar lookup holds
    nothing, the profile is valid, has that address and its avatar is
    undefined. *)
Theorem profile_isValid_independent :
  forall (w : World)
         (avatarQuery' : js string -> ChainId -> bool -> Query string)
         (textQuery' : js string -> string -> ChainId -> bool -> Query string)
         (readQuery' : js string -> string -> ChainId -> bool -> Query N)
         (chainId : ChainId) (ensName : js string) (enabled : bool),
    let w' :=
      mkWorld (isAddress w) (normalize w) (ensAddressQuery w) avatarQuery'
        textQuery' readQuery' in
    let chain := ensChain chainId in
    let supported :=
      negb (sameChain chainId BSC) && negb (sameChain chainId BSC_TESTNET) in
    exists p p' normalizedName,
      result (useENSProfile w chainId ensName enabled) = Returned p /\
      result (useENSProfile w' chainId ensName enabled) = Returned p' /\
      (forall n, normalizedName = val n <->
         truthy ensName = true /\ includes (textOf ensName) "." = true /\
         normalize w (textOf ensName) = Returned n) /\
      (normalizedName = undefined \/ exists n, normalizedName = val n) /\
      let shouldFetch := enabled && supported && truthy normalizedName in
      let addressQ := ensAddressQuery w normalizedName chain shouldFetch in
      let avatarQ := ensAvatarQuery w normalizedName chain shouldFetch in
      lookups (useENSProfile w chainId ensName enabled) =
        profileLookups normalizedName chain shouldFetch
          (shouldFetch && truthy (data addressQ)) /\
      lookups (useENSProfile w' chainId ensName enabled) =
        lookups (useENSProfile w chainId ensName enabled) /\
      address p = data addressQ /\
      address p' = address p /\
      isValid p' = isValid p /\
      (isValid p = true <-> exists a, address p = val a /\ a <> "") /\
      avatar p = nullish (data avatarQ) undefined /\
      (isValid p = true ->
       isUndefined (data avatarQ) || isNull (data avatarQ) = true ->
       avatar p = undefined) /\
      (forall s n a,
         ensName = val s -> includes s "." = true ->
         normalize w s = Returned n -> n <> "" ->
         enabled = true -> supported = true ->
         data (ensAddressQuery w (val n) chain true) = val a -> a <> "" ->
         isUndefined (data (ensAvatarQuery w (val n) chain true)) ||
         isNull (data (ensAvatarQuery w (val n) chain true)) = true ->
         isValid p = true /\ address p = val a /\ avatar p = undefined /\
         isValid p' = true /\ address p' = val a).
Proof.
  intros w avatarQuery' textQuery' readQuery' chainId ensName enabled w'
    chain supported. subst chain supported. unfold ensChain.
  destruct (profile_render w chainId ensName enabled)
    as (evs & nn & p & Hn & Hres & _ & Hlook & Haddr & Hav & _ & Hvalid).
  destruct (profile_render w' chainId ensName enabled)
    as (evs' & nn' & p' & Hn' & Hres' & _ & Hlook' & Haddr' & _ & _ & Hvalid').
  cbv zeta in Hlook, Haddr, Hav, Hvalid, Hlook', Haddr', Hvalid'.
  change (normalizeName w ensName = (evs', Returned nn')) in Hn'.
  rewrite Hn in Hn'. injection Hn' as <- <-.
  change (ensAddressQuery w') with (ensAddressQuery w) in *.
  assert (Hpin : (forall n, nn = val n <->
                    truthy ensName = true /\
                    includes (textOf ensName) "." = true /\
                    normalize w (textOf ensName) = Returned n) /\
                 (nn = undefined \/ exists n, nn = val n)).
  { destruct (normalizeName_cases w ensName)
      as [(Ht & Hd & n & Hnorm & H)|[(Ht & Hd & e & He & H)|(Hor & H)]];
      rewrite H in Hn; injection Hn as <- <-.
    - split; [|eauto]. intros n'. split.
      + intros Hx. injection Hx as <-. auto.
      + intros (_ & _ & Hx). congruence.
    - split; [|auto]. intros n'. split; [discriminate|].
      intros (_ & _ & Hx). congruence.
    - split; [|auto]. intros n'. split; [discriminate|].
      intros (Ht & Hd & _). destruct Hor; congruence. }
  destruct Hpin as [Hiff Hshape].
  exists p, p', nn.
  split; [exact Hres|]. split; [exact Hres'|].
  split; [exact Hiff|]. split; [exact Hshape|].
  cbv zeta.
  rewrite Hlook, Hlook', Haddr, Haddr', Hvalid, Hvalid', Hav.
  do 5 (split; [reflexivity|]).
  split; [apply truthy_iff|].
  split; [reflexivity|].
  split.
  { intros _ H.
    destruct (data (ensAvatarQuery w nn
                (if sameChain chainId GOERLI then GOERLI else ETHEREUM)
                (enabled &&
                 (negb (sameChain chainId BSC) &&
                  negb (sameChain chainId BSC_TESTNET)) &&
                 truthy nn))); try reflexivity; discriminate. }
  intros s n a -> Hd Hnorm Hne -> Hsup Ha Hane Hnone.
  assert (Hnn : nn = val n).
  { apply Hiff. cbn [textOf truthy]. split; [|auto].
    destruct s; [discriminate|reflexivity]. }
  subst nn. rewrite Hsup.
  assert (Htn : truthy (val n) = true).
  { apply truthy_iff. eauto. }
  rewrite Htn. cbn [andb]. rewrite Ha.
  assert (Hta : truthy (val a) = true).
  { apply truthy_iff. eauto. }
  split; [exact Hta|]. split; [reflexivity|].
  split; [|split; [exact Hta|reflexivity]].
  destruct (data (ensAvatarQuery w (val n)
              (if sameChain chainId GOERLI then GOERLI else ETHEREUM) true));
    try reflexivity; discriminate.
Qed.

End ProfileClaims.

(** ** Classification of the input *)

Section ClassificationClaims.

Import Profile.

(** C3.  A string of the address pattern, in whatever letter case its hex
    digits are, is classified as an address by [useResolveAddressOrENS]
    and not as an ENS name.  Such a string is its own trimmed form and
    contains no dot.  The token-address resolver tests with viem's
    [isAddress] instead of the pattern, and before the dot test: an input
    is handled as an address exactly when it is given and viem accepts
    its trimmed text, also if the text contains a dot; then [normalize]
    is not called and the resolved address is the trimmed text.  A string
    of the address pattern is never an ENS name there; it is an address
    when viem accepts it and neither an address nor a name when viem does
    not.  viem accepts a string of the pattern exactly when it is in lower
    case or is its own checksum, so in lower case every string of the
    pattern is an address for both hooks. *)
Theorem address_pattern_takes_precedence :
  forall s : string,
    addressPattern s = true ->
    classify (val s) = Address /\
    inputIsENSName (val s) = false /\
    addressPattern (toLowerCase s) = true /\
    trim s = s /\
    includes s "." = false /\
    (forall input, inputIsAddress input = true ->
       classify input = Address /\ inputIsENSName input = false) /\
    (forall w : World,
       TokenAddress.classifyInput w (val s) =
         ([], Returned (TokenAddress.mkClassified false null))) /\
    (forall (w : World) (input : js string),
       nonBlank input = true ->
       isAddress w (trim (textOf input)) = true ->
       TokenAddress.classifyInput w input =
         ([], Returned (TokenAddress.mkClassified false null)) /\
       forall tokenTextRecord primaryAddress,
         TokenAddress.resolveAddress w input false tokenTextRecord
           primaryAddress = val (trim (textOf input))) /\
    (forall (w : World) (evs : list Event) (c : TokenAddress.Classified),
       TokenAddress.classifyInput w (val s) = (evs, Returned c) ->
       tokenClass w (val s) c = (if isAddress w s then Address else Invalid)) /\
    (forall (w : World) (input : js string) (evs : list Event)
            (c : TokenAddress.Classified),
       TokenAddress.classifyInput w input = (evs, Returned c) ->
       (tokenClass w input c = Address <->
        truthy input = true /\ isAddress w (trim (textOf input)) = true)) /\
    (Viem.isAddress s = true <->
     toLowerCase s = s \/ Viem.checksumAddress s = s) /\
    Viem.isAddress (toLowerCase s) = true.
Proof.
  intros s Hs.
  assert (Hin : inputIsAddress (val s) = true).
  { apply inputIsAddress_pattern. eauto. }
  assert (Hgen : forall input, inputIsAddress input = true ->
                   classify input = Address /\ inputIsENSName input = false).
  { intros input Hi. split; [apply classify_Address; exact Hi|].
    unfold inputIsENSName. rewrite Hi. simpl negb. rewrite andb_false_r.
    destruct (truthy input); reflexivity. }
  assert (Hlower : addressPattern (toLowerCase s) = true).
  { destruct (addressPattern_shape s Hs) as (digits & -> & Hl & Hd).
    unfold addressPattern.
    change (toLowerCase (String "0" (String "x" digits)))
      with (String "0" (String "x" (toLowerCase digits))).
    assert (Hlow : forall t, String.length (toLowerCase t) = String.length t /\
                             (allChars isHexDigit t = true ->
                              allChars isHexDigit (toLowerCase t) = true)).
    { induction t as [|c t [IHl IHd]]; [split; reflexivity|].
      split; [simpl; rewrite IHl; reflexivity|].
      intros H.
      change (isHexDigit c && allChars isHexDigit t = true) in H.
      apply andb_true_iff in H as [Hc Ht].
      change (isHexDigit (toLowerChar c) &&
              allChars isHexDigit (toLowerCase t) = true).
      rewrite (IHd Ht), andb_true_r. clear - Hc.
      destruct c as [[] [] [] [] [] [] [] []]; vm_compute in Hc |- *;
        congruence. }
    destruct (Hlow digits) as [Hl' Hd'].
    rewrite Hl', Hl, (Hd' Hd). reflexivity. }
  assert (Hcls : forall w : World,
             TokenAddress.classifyInput w (val s) =
             ([], Returned (TokenAddress.mkClassified false null))).
  { intros w. unfold TokenAddress.classifyInput. simpl textOf. simpl truthy.
    rewrite (addressPattern_trim s Hs), (addressPattern_nonempty s Hs),
      (addressPattern_no_dot s Hs).
    destruct (isAddress w s); reflexivity. }
  split; [apply Hgen; exact Hin|].
  split; [apply Hgen; exact Hin|].
  split; [exact Hlower|].
  split; [apply addressPattern_trim; exact Hs|].
  split; [apply addressPattern_no_dot; exact Hs|].
  split; [exact Hgen|].
  split; [exact Hcls|].
  split; [intros w input Hb Ha; apply classifyInput_address; assumption|].
  split.
  { intros w evs c Hc. rewrite Hcls in Hc. injection Hc as <- <-.
    unfold tokenClass. cbn [TokenAddress.c_isENSName textOf truthy].
    rewrite (addressPattern_trim s Hs), (addressPattern_nonempty s Hs).
    reflexivity. }
  split.
  { intros w input evs c Hc. unfold tokenClass.
    destruct (classifyInput_spec w input evs c Hc) as (Hiff & _).
    destruct (TokenAddress.c_isENSName c).
    - destruct (proj1 Hiff eq_refl) as (_ & Ha & _). rewrite Ha.
      split; [discriminate|]. intros [_ Hx]. discriminate.
    - destruct (truthy input && isAddress w (trim (textOf input))) eqn:Ht.
      + apply andb_true_iff in Ht. tauto.
      + split; [discriminate|]. intros [H1 H2]. rewrite H1, H2 in Ht.
        discriminate. }
  split.
  { unfold Viem.isAddress. rewrite Hs. cbn [negb].
    destruct (toLowerCase s =? s) eqn:Hl.
    - apply String.eqb_eq in Hl. tauto.
    - apply String.eqb_neq in Hl. rewrite String.eqb_eq. tauto. }
  unfold Viem.isAddress. rewrite Hlower, toLowerCase_idem, String.eqb_refl.
  reflexivity.
Qed.

(** C6.  For an input whose trimmed text contains a dot, is not an address
    for viem and makes [normalize] throw, the token-address resolver
    catches the error and logs it with [console.warn]; the render returns,
    the input is not an ENS name, the name is null, and the two
    name-service lookups are disabled.  If disabled queries hold no data,
    no lookup at all is enabled and the result is not valid.  In
    [useENSProfile], for a name that contains a dot and makes [normalize]
    throw, the error is caught and logged with [console.error], the
    normalized name is undefined, the render returns, and its eight
    lookups are disabled. *)
Theorem normalization_failure_is_absorbed :
  forall (w : World) (chainId : ChainId) (input : js string) (enabled : bool)
         (e : JsError),
    (includes (trim (textOf input)) "." = true ->
     isAddress w (trim (textOf input)) = false ->
     normalize w (trim (textOf input)) = Thrown e ->
     TokenAddress.classifyInput w input =
       ([ConsoleWarn "Failed to normalize ENS name:" e],
        Returned (TokenAddress.mkClassified false null)) /\
     exists r name chain,
       tokenRender (TokenAddress.useENSTokenAddress w chainId input enabled)
         chainId r name chain false /\
       consoleOutput (TokenAddress.useENSTokenAddress w chainId input enabled) =
         [ConsoleWarn "Failed to normalize ENS name:" e] /\
       TokenAddress.isENSName r = false /\
       TokenAddress.ensName r = null /\
       TokenAddress.isLoading r = false /\
       ensDisabled
         (lookups (TokenAddress.useENSTokenAddress w chainId input enabled)) /\
       (disabledQueriesAreIdle w ->
        allDisabled
          (lookups (TokenAddress.useENSTokenAddress w chainId input enabled)) /\
        TokenAddress.address r = null /\
        TokenAddress.isValid r = false)) /\
    (includes (textOf input) "." = true ->
     normalize w (textOf input) = Thrown e ->
     normalizeName w input =
       ([ConsoleError "Error normalizing ENS name:" e], Returned undefined) /\
     exists p,
       result (useENSProfile w chainId input enabled) = Returned p /\
       consoleOutput (useENSProfile w chainId input enabled) =
         [ConsoleError "Error normalizing ENS name:" e] /\
       allDisabled (lookups (useENSProfile w chainId input enabled)) /\
       (disabledQueriesAreIdle w ->
        address p = undefined /\ isValid p = false)).
Proof.
  intros w chainId input enabled e. split.
  - intros Hd Ha He.
    assert (Hcls : TokenAddress.classifyInput w input =
                   ([ConsoleWarn "Failed to normalize ENS name:" e],
                    Returned (TokenAddress.mkClassified false null))).
    { destruct (classifyInput_cases w input)
        as [(_ & _ & _ & n & Hn & _)|[(_ & _ & _ & e' & He' & H)|(Hor & _)]].
      - congruence.
      - rewrite He in He'. injection He' as <-. exact H.
      - pose proof (includes_nonBlank input Hd).
        destruct Hor as [Hx|[Hx|Hx]]; congruence. }
    split; [exact Hcls|].
    destruct (token_render w chainId input enabled)
      as (evs & c & r & name & chain & en & Hc & Hrender & Hcon & Hname & Hen &
          Hens & Hn & Haddr & Herc & Hvalid & Hload & Htok).
    rewrite Hcls in Hc. injection Hc as <- <-.
    simpl in Hen, Hens, Hn, Haddr, Hload, Hname. subst en name.
    exists r, undefined, chain.
    split; [exact Hrender|]. split; [exact Hcon|].
    split; [exact Hens|]. split; [exact Hn|]. split; [auto|].
    destruct Hrender as [_ Hlook]. rewrite Hlook.
    split.
    + repeat constructor; discriminate.
    + intros (Hia & _ & Hit & _).
      rewrite Hia, Hit in Haddr.
      assert (Hnull : TokenAddress.address r = null).
      { rewrite Haddr. unfold TokenAddress.resolveAddress.
        pose proof (includes_nonBlank input Hd) as Hb.
        unfold nonBlank in Hb. apply andb_true_iff in Hb as [-> _].
        rewrite Ha. reflexivity. }
      rewrite Hvalid, Hnull, Ha. simpl.
      split; [repeat constructor|]. split; [reflexivity|].
      apply andb_false_r.
  - intros Hd He.
    assert (Hnn : normalizeName w input =
                  ([ConsoleError "Error normalizing ENS name:" e],
                   Returned undefined)).
    { destruct (normalizeName_cases w input)
        as [(_ & _ & n & Hn & _)|[(_ & _ & e' & He' & H)|(Hor & _)]].
      - congruence.
      - rewrite He in He'. injection He' as <-. exact H.
      - destruct Hor as [Hx|Hx]; [|congruence].
        destruct input as [| |s]; try discriminate.
        destruct s; discriminate. }
    split; [exact Hnn|].
    destruct (profile_render w chainId input enabled)
      as (evs & nn & p & Hn & Hres & Hcon & Hlook & Haddr & _ & _ & Hvalid).
    rewrite Hnn in Hn. injection Hn as <- <-.
    cbv zeta in Hlook, Haddr, Hvalid. simpl truthy in Hlook, Haddr, Hvalid.
    rewrite !andb_false_r in Hlook, Haddr, Hvalid.
    exists p. split; [exact Hres|]. split; [exact Hcon|].
    rewrite Hlook. split; [repeat constructor|].
    intros (Hia & _). rewrite Hia in Haddr, Hvalid. auto.
Qed.

(** C8.  For an input that [useResolveAddressOrENS] classifies as an
    address, the render returns the input itself as the address, with
    [isENSName] false, [isLoading] false and [isValid] true, whatever the
    state of the lookup layer, and none of the name, avatar and text-record
    lookups is enabled.  For an input whose trimmed text viem takes for an
    address, the token-address resolver returns the trimmed text as the
    address, with [isENSName] false and [isLoading] false whatever the
    state of the lookup layer; its two name-service lookups are disabled
    and the one lookup it makes is the [decimals()] read for that address
    on the chain of the wallet; [isValid] is true exactly when that read
    succeeded.  The revision without the verification returns the same
    address and reports it valid. *)
Theorem address_input_resolves_immediately :
  forall (w : World) (chainId : ChainId) (input : js string) (enabled : bool),
    (classify input = Address ->
     exists r,
       result (useResolveAddressOrENS w chainId input enabled) = Returned r /\
       r_address r = input /\
       r_isENSName r = false /\
       r_ensName r = undefined /\
       r_isLoading r = false /\
       r_isValid r = true /\
       allDisabled (lookups (useResolveAddressOrENS w chainId input enabled)) /\
       consoleOutput (useResolveAddressOrENS w chainId input enabled) = []) /\
    (nonBlank input = true ->
     isAddress w (trim (textOf input)) = true ->
     exists r name chain,
       tokenRender (TokenAddress.useENSTokenAddress w chainId input enabled)
         chainId r name chain false /\
       TokenAddress.address r = val (trim (textOf input)) /\
       TokenAddress.isENSName r = false /\
       TokenAddress.ensName r = null /\
       TokenAddress.isLoading r = false /\
       ensDisabled
         (lookups (TokenAddress.useENSTokenAddress w chainId input enabled)) /\
       consoleOutput (TokenAddress.useENSTokenAddress w chainId input enabled) = [] /\
       lookups (TokenAddress.useENSTokenAddress w chainId input enabled) =
         [EnsAddress undefined (ensChain chainId) false;
          EnsText undefined "token" (ensChain chainId) false;
          ReadContract (val (trim (textOf input))) "decimals" chainId true 1
            60000] /\
       TokenAddress.isERC20Token r =
         verified (decimalsRead w chainId (val (trim (textOf input)))) /\
       TokenAddress.isValid r =
         verified (decimalsRead w chainId (val (trim (textOf input)))) /\
       exists r',
         basicRender
           (TokenAddressBasic.useENSTokenAddress w chainId input enabled) r'
           undefined (ensChain chainId) false /\
         TokenAddressBasic.address r' = val (trim (textOf input)) /\
         TokenAddressBasic.isENSName r' = false /\
         TokenAddressBasic.isValid r' = true).
Proof.
  intros w chainId input enabled. split.
  - intros Hc. apply classify_Address in Hc.
    rewrite (resolve_address_run w chainId input enabled Hc).
    eexists. split; [reflexivity|].
    repeat split. repeat constructor.
  - intros Hb Ha.
    destruct (classifyInput_address w input Hb Ha) as [Hcls _].
    assert (Hcon : consoleOutput
                     (TokenAddress.useENSTokenAddress w chainId input enabled) =
                   []).
    { destruct (token_render w chainId input enabled)
        as (evs & c & r & name & chain & en & Hc & _ & Hcon & _).
      rewrite Hcls in Hc. injection Hc as <- <-. exact Hcon. }
    destruct (token_render_cases w chainId input enabled)
      as (r & name & en & Hrender & Herc &
          [(_ & _ & Hens & -> & -> & Haddr & Ht & Hload & Hvalid)
          |[(_ & Hx & _)|([Hx|(Hx & _)] & _)]]); try congruence.
    destruct (token_render_full w chainId input enabled)
      as (evs & c & r0 & name0 & chain0 & en0 & Hc & [Hres0 _] & _ & _ & _ &
          _ & Hn & _).
    rewrite Hcls in Hc. injection Hc as <- <-.
    rewrite (proj1 Hrender) in Hres0. injection Hres0 as <-.
    cbn [TokenAddress.c_isENSName] in Hn.
    destruct (basic_render w chainId input enabled r undefined
                (ensChain chainId) false Hrender)
      as (r' & Hb' & _ & Ha' & He' & _ & _ & Hv').
    exists r, undefined, (ensChain chainId).
    split; [exact Hrender|]. split; [exact Haddr|].
    split; [exact Hens|]. split; [exact Hn|]. split; [exact Hload|].
    destruct Hrender as [_ Hlook]. rewrite Hlook.
    split; [repeat constructor; discriminate|].
    split; [exact Hcon|].
    rewrite Haddr. cbn [nullish].
    rewrite Haddr in Ht. rewrite Ht.
    split; [reflexivity|].
    rewrite Hvalid, Herc, Haddr, Ht.
    split; [reflexivity|]. split; [reflexivity|].
    exists r'. split; [exact Hb'|].
    split; [rewrite Ha'; exact Haddr|].
    split; [rewrite He'; exact Hens|].
    rewrite Hv', Hb, Hens, Ha. reflexivity.
Qed.

End ClassificationClaims.

(** ** Renders in the concrete world *)

Section SampleRenders.

Import Sample.

Lemma sample_world_idle : disabledQueriesAreIdle world.
Proof.
  unfold disabledQueriesAreIdle. repeat split; intros; reflexivity.
Qed.

(** A name with a [token] record: the record wins over the primary
    address, and the name returned is the normalized one. *)
Example token_render_cake :
  TokenAddress.useENSTokenAddress world ETHEREUM (val " Cake.ETH ") true =
  ([Issued (EnsAddress (val "cake.eth") ETHEREUM true);
    Issued (EnsText (val "cake.eth") "token" ETHEREUM true);
    Issued (ReadContract (val cakeToken) "decimals" ETHEREUM true 1 60000)],
   Returned
     (TokenAddress.mkResult (val cakeToken) true (val "cake.eth") false true
        true (val 18%N) true)).
Proof. vm_compute. reflexivity. Qed.

(** A name that resolves to an address that is not a token: the revision
    with the verification reports it invalid, the one without valid. *)
Example token_render_vitalik :
  TokenAddress.useENSTokenAddress world ETHEREUM (val "vitalik.eth") true =
  ([Issued (EnsAddress (val "vitalik.eth") ETHEREUM true);
    Issued (EnsText (val "vitalik.eth") "token" ETHEREUM true);
    Issued (ReadContract (val vitalik) "decimals" ETHEREUM true 1 60000)],
   Returned
     (TokenAddress.mkResult (val vitalik) true (val "vitalik.eth") false false
        false undefined false)) /\
  TokenAddressBasic.useENSTokenAddress world ETHEREUM (val "vitalik.eth") true =
  ([Issued (EnsAddress (val "vitalik.eth") ETHEREUM true);
    Issued (EnsText (val "vitalik.eth") "token" ETHEREUM true)],
   Returned
     (TokenAddressBasic.mkResult (val vitalik) true (val "vitalik.eth") false
        true false)).
Proof. split; vm_compute; reflexivity. Qed.

(** A raw address that is not a token, in the two revisions. *)
Example token_render_address :
  TokenAddress.useENSTokenAddress world BSC (val vitalik) true =
  ([Issued (EnsAddress undefined ETHEREUM false);
    Issued (EnsText undefined "token" ETHEREUM false);
    Issued (ReadContract (val vitalik) "decimals" BSC true 1 60000)],
   Returned
     (TokenAddress.mkResult (val vitalik) false null false false false
        undefined false)) /\
  TokenAddressBasic.useENSTokenAddress world BSC (val vitalik) true =
  ([Issued (EnsAddress undefined ETHEREUM false);
    Issued (EnsText undefined "token" ETHEREUM false)],
   Returned (TokenAddressBasic.mkResult (val vitalik) false null false true false)).
Proof. split; vm_compute; reflexivity. Qed.

(** The name resolver on a name with an address and no avatar. *)
Example profile_render_vitalik :
  result (Profile.useENSProfile world ETHEREUM (val "vitalik.eth") true) =
  Returned
    (Profile.mkENSProfile (val vitalik) undefined false
       (Profile.mkSocialRecords undefined undefined undefined undefined
          undefined undefined)
       true) /\
  result (Profile.useENSProfile decoratedWorld ETHEREUM (val "vitalik.eth") true) =
  Returned
    (Profile.mkENSProfile (val vitalik)
       (val "https://example.org/avatar.png") false
       (Profile.mkSocialRecords (val "someone") (val "someone") (val "someone")
          (val "someone") (val "someone") (val "someone"))
       true).
Proof. split; vm_compute; reflexivity. Qed.

(** [useResolveAddressOrENS] does not normalize by itself: for a dotted
    input that [normalize] rejects it still reports [isENSName] with the
    raw input as the name, and the profile inside it is not valid. *)
Example resolve_render_rejected_name :
  Profile.useResolveAddressOrENS world ETHEREUM (val "bad name.eth") true =
  ((ConsoleError "Error normalizing ENS name:" "Invalid label"
    :: map Issued (profileLookups undefined ETHEREUM false false))%list,
   Returned
     (Profile.mkResolved undefined true (val "bad name.eth") undefined
        (val (Profile.mkSocialRecords undefined undefined undefined undefined
                undefined undefined))
        false false)).
Proof. vm_compute. reflexivity. Qed.

(** The preferences of a name whose slippage record is 0.5. *)
Example preferences_render_cake :
  result (Preferences.useENSPreferences world BSC (val "cake.eth")) =
  Returned
    (Preferences.mkResult [("slippage", Obj.VString "0.5")] false true
       (val "cake.eth")).
Proof. vm_compute. reflexivity. Qed.

(** Slippage records at and around the bounds.  [parseFloat] reads the
    longest numeric prefix and skips leading white space; the field keeps
    the text as it is. *)
Example slippage_samples :
  map slippageAccepted
    ["0"; "50"; "50.0"; "5e1"; "-0"; " 7"; "0.5abc"; "50.000000000000001";
     "50.1"; "-0.1"; "75"; "abc"; "Infinity"; "NaN"; "."; "1e400"] =
  [true; true; true; true; true; true; true; true;
   false; false; false; false; false; false; false; false].
Proof. vm_compute. reflexivity. Qed.

End SampleRenders.

(** ** The statements at concrete inputs *)

Section Witnesses.

Import Sample.

Lemma address_pattern_takes_precedence_witness :
  Profile.addressPattern "0xABCDEF0123456789ABCDEF0123456789ABCDEF01" = true /\
  Profile.classify (val "0xABCDEF0123456789ABCDEF0123456789ABCDEF01") =
    Profile.Address.
Proof.
  split; [reflexivity|].
  exact (proj1 (address_pattern_takes_precedence
                  "0xABCDEF0123456789ABCDEF0123456789ABCDEF01" eq_refl)).
Defined.

Lemma normalization_failure_is_absorbed_witness :
  includes (trim "bad name.eth") "." = true /\
  isAddress world (trim "bad name.eth") = false /\
  normalize world (trim "bad name.eth") = Thrown "Invalid label" /\
  TokenAddress.classifyInput world (val "bad name.eth") =
    ([ConsoleWarn "Failed to normalize ENS name:" "Invalid label"],
     Returned (TokenAddress.mkClassified false null)) /\
  Profile.normalizeName world (val "bad name.eth") =
    ([ConsoleError "Error normalizing ENS name:" "Invalid label"],
     Returned undefined).
Proof.
  split; [reflexivity|]. split; [reflexivity|]. split; [reflexivity|].
  split.
  - exact (proj1 (proj1 (normalization_failure_is_absorbed world ETHEREUM
                           (val "bad name.eth") true "Invalid label")
                    eq_refl eq_refl eq_refl)).
  - exact (proj1 (proj2 (normalization_failure_is_absorbed world ETHEREUM
                           (val "bad name.eth") true "Invalid label")
                    eq_refl eq_refl)).
Defined.

Lemma address_input_resolves_immediately_witness :
  Profile.classify (val upperCaseExample) = Profile.Address /\
  nonBlank (val cakeToken) = true /\
  isAddress world (trim cakeToken) = true /\
  (exists r,
      result (Profile.useResolveAddressOrENS world ETHEREUM
                (val upperCaseExample) true) = Returned r /\
      Profile.r_address r = val upperCaseExample /\
      Profile.r_isLoading r = false /\ Profile.r_isValid r = true) /\
  (exists r,
      result (TokenAddress.useENSTokenAddress world BSC (val cakeToken) true) =
        Returned r /\
      TokenAddress.address r = val cakeToken /\
      TokenAddress.isLoading r = false /\
      TokenAddress.isValid r = true).
Proof.
  split; [reflexivity|]. split; [reflexivity|]. split; [reflexivity|].
  split.
  - destruct (proj1 (address_input_resolves_immediately world ETHEREUM
                       (val upperCaseExample) true)
                eq_refl)
      as (r & Hr & Ha & _ & _ & Hl & Hv & _).
    exists r. split; [exact Hr|]. split; [exact Ha|]. split; [exact Hl|exact Hv].
  - destruct (proj2 (address_input_resolves_immediately world BSC
                       (val cakeToken) true)
                eq_refl eq_refl)
      as (r & name & chain & [Hr _] & Ha & _ & _ & Hl & _ & _ & _ & _ & Hv & _).
    exists r. split; [exact Hr|]. split; [exact Ha|]. split; [exact Hl|].
    rewrite Hv. reflexivity.
Defined.

Lemma token_isValid_iff_witness :
  nonBlank (val "cake.eth") = true /\
  isAddress world (trim "cake.eth") = false /\
  normalize world (trim "cake.eth") = Returned "cake.eth" /\
  candidate world (val "cake.eth") (ensChain ETHEREUM) true = val cakeToken /\
  verified (decimalsRead world ETHEREUM (val cakeToken)) = true /\
  exists r,
    result (TokenAddress.useENSTokenAddress world ETHEREUM (val "cake.eth")
              true) = Returned r /\
    TokenAddress.isValid r = true.
Proof.
  split; [reflexivity|]. split; [reflexivity|]. split; [reflexivity|].
  split; [reflexivity|]. split; [reflexivity|].
  destruct (token_isValid_iff world ETHEREUM (val "cake.eth") true)
    as (r & r' & Hres & _ & _ & _ & _ & Hvalid & _).
  exists r. split; [exact Hres|].
  apply Hvalid. split; [reflexivity|]. right.
  split; [reflexivity|]. split; [reflexivity|].
  exists "cake.eth". split; [reflexivity|].
  split; [discriminate|reflexivity].
Defined.

Lemma profile_isValid_independent_witness :
  includes "vitalik.eth" "." = true /\
  normalize world "vitalik.eth" = Returned "vitalik.eth" /\
  data (ensAddressQuery world (val "vitalik.eth") (ensChain ETHEREUM) true) =
    val vitalik /\
  data (ensAvatarQuery world (val "vitalik.eth") (ensChain ETHEREUM) true) =
    null /\
  exists p,
    result (Profile.useENSProfile world ETHEREUM (val "vitalik.eth") true) =
      Returned p /\
    Profile.isValid p = true /\
    Profile.address p = val vitalik /\
    Profile.avatar p = undefined.
Proof.
  split; [reflexivity|]. split; [reflexivity|]. split; [reflexivity|].
  split; [reflexivity|].
  destruct (profile_isValid_independent world (ensAvatarQuery world)
              (ensTextQuery world) (readContractQuery world) ETHEREUM
              (val "vitalik.eth") true)
    as (p & p' & nn & Hres & _ & _ & _ & _ & _ & _ & _ & _ & _ & _ & _ & Hpart).
  destruct (Hpart "vitalik.eth" "vitalik.eth" vitalik eq_refl eq_refl eq_refl
              ltac:(discriminate) eq_refl eq_refl eq_refl ltac:(discriminate)
              eq_refl)
    as (Hv & Ha & Hav & _).
  exists p. split; [exact Hres|]. split; [exact Hv|]. split; [exact Ha|exact Hav].
Defined.

Lemma token_record_invariant_witness :
  disabledQueriesAreIdle world /\
  exists r name chain en,
    tokenRender (TokenAddress.useENSTokenAddress world ETHEREUM (val "cake.eth") true)
      ETHEREUM r name chain en /\
    (TokenAddress.hasTokenRecord r = true ->
     TokenAddress.address r = data (ensTextQuery world name "token" chain en)).
Proof.
  split.
  - unfold disabledQueriesAreIdle. repeat split; intros; reflexivity.
  - destruct (token_record_invariant world ETHEREUM (val "cake.eth") true)
      as (r & name & chain & en & Hrender & Hrec & _).
    + unfold disabledQueriesAreIdle. repeat split; intros; reflexivity.
    + exists r, name, chain, en. split; [exact Hrender|exact Hrec].
Defined.

End Witnesses.

(** ** Where the two hooks and the two revisions part *)

Section Counterexamples.

Import Sample.

(** The revision of the token-address resolver without the verification
    reports an ENS name valid although the [decimals()] read for the
    address it resolves to fails. *)
Lemma isValid_without_verification :
  exists r',
    result (TokenAddressBasic.useENSTokenAddress world ETHEREUM
              (val "vitalik.eth") true) = Returned r' /\
    TokenAddressBasic.isENSName r' = true /\
    TokenAddressBasic.address r' = val vitalik /\
    verified (decimalsRead world ETHEREUM (val vitalik)) = false /\
    TokenAddressBasic.isValid r' = true.
Proof.
  eexists. split; [vm_compute; reflexivity|]. repeat split.
Qed.

(** A string of the address pattern that the token-address resolver does
    not take for an address: viem rejects the upper-case string, which is
    not its own checksum, and the input is neither an address nor a
    name. *)
Lemma upper_case_pattern_is_no_address :
  Profile.addressPattern upperCaseExample = true /\
  Profile.classify (val upperCaseExample) = Profile.Address /\
  Viem.checksumAddress upperCaseExample =
    "0xabCDeF0123456789AbcdEf0123456789aBCDEF01" /\
  isAddress world (trim upperCaseExample) = false /\
  exists c r,
    TokenAddress.classifyInput world (val upperCaseExample) =
      ([], Returned c) /\
    tokenClass world (val upperCaseExample) c = Profile.Invalid /\
    result (TokenAddress.useENSTokenAddress world ETHEREUM
              (val upperCaseExample) true) = Returned r /\
    TokenAddress.isENSName r = false /\
    TokenAddress.address r = null /\
    TokenAddress.isValid r = false.
Proof.
  split; [reflexivity|]. split; [reflexivity|].
  split; [vm_compute; reflexivity|]. split; [vm_compute; reflexivity|].
  do 2 eexists. split; [vm_compute; reflexivity|].
  split; [vm_compute; reflexivity|].
  split; [vm_compute; reflexivity|]. repeat split.
Qed.

(** An input that both hooks classify as an address and that the
    token-address resolver reports not valid: the address of an account,
    whose [decimals()] read fails. *)
Lemma address_input_can_be_invalid :
  Profile.classify (val vitalik) = Profile.Address /\
  isAddress world (trim vitalik) = true /\
  exists c r,
    TokenAddress.classifyInput world (val vitalik) = ([], Returned c) /\
    tokenClass world (val vitalik) c = Profile.Address /\
    result (TokenAddress.useENSTokenAddress world ETHEREUM (val vitalik) true) =
      Returned r /\
    TokenAddress.address r = val vitalik /\
    TokenAddress.isENSName r = false /\
    TokenAddress.isLoading r = false /\
    TokenAddress.isValid r = false.
Proof.
  split; [reflexivity|]. split; [reflexivity|].
  do 2 eexists. split; [vm_compute; reflexivity|].
  split; [vm_compute; reflexivity|].
  split; [vm_compute; reflexivity|]. repeat split.
Qed.

(** The functions behind viem's [isAddress] at known values: the hash of
    the empty message, and the checksums of three addresses. *)
Example keccak256_empty :
  Viem.keccak256 [] =
  [197; 210; 70; 1; 134; 247; 35; 60; 146; 126; 125; 178; 220; 199; 3; 192;
   229; 0; 182; 83; 202; 130; 39; 59; 123; 250; 216; 4; 93; 133; 164; 112]%N.
Proof. vm_compute. reflexivity. Qed.

Example checksum_samples :
  map Viem.checksumAddress [vitalik; cakeOwner; cakeToken] =
  ["0xd8dA6BF26964aF9D7eEd9e03E53415D37aA96045";
   "0x73feaa1eE314F8c655E354234017bE2193C9E24E";
   "0x0E09FaBB73Bd3Ade0a17ECC321fD13a19e81cE82"] /\
  map Viem.isAddress
    [vitalik; "0xd8dA6BF26964aF9D7eEd9e03E53415D37aA96045";
     "0xD8dA6BF26964aF9D7eEd9e03E53415D37aA96045"; upperCaseExample;
     "0xd8da6bf26964af9d7eed9e03e53415d37aa9604"; "vitalik.eth"] =
  [true; true; false; false; false; false].
Proof. split; vm_compute; reflexivity. Qed.

End Counterexamples.

(** * Further properties *)

(** ** The other preference fields *)

Section MorePreferences.

Import Preferences.

Lemma lower_is_t (c : ascii) : toLowerChar c = "t"%char <-> oneOf "t" "T" c.
Proof.
  unfold oneOf.
  destruct c as [[] [] [] [] [] [] [] []]; vm_compute;
    (split; [intros H; try discriminate H; auto
            |intros [H|H]; try discriminate H; reflexivity]).
Qed.

Lemma lower_is_r (c : ascii) : toLowerChar c = "r"%char <-> oneOf "r" "R" c.
Proof.
  unfold oneOf.
  destruct c as [[] [] [] [] [] [] [] []]; vm_compute;
    (split; [intros H; try discriminate H; auto
            |intros [H|H]; try discriminate H; reflexivity]).
Qed.

Lemma lower_is_u (c : ascii) : toLowerChar c = "u"%char <-> oneOf "u" "U" c.
Proof.
  unfold oneOf.
  destruct c as [[] [] [] [] [] [] [] []]; vm_compute;
    (split; [intros H; try discriminate H; auto
            |intros [H|H]; try discriminate H; reflexivity]).
Qed.

Lemma lower_is_e (c : ascii) : toLowerChar c = "e"%char <-> oneOf "e" "E" c.
Proof.
  unfold oneOf.
  destruct c as [[] [] [] [] [] [] [] []]; vm_compute;
    (split; [intros H; try discriminate H; auto
            |intros [H|H]; try discriminate H; reflexivity]).
Qed.

Lemma toLowerCase_true (s : string) :
  toLowerCase s = "true" <-> spellsTrue s.
Proof.
  unfold spellsTrue. split.
  - destruct s as [|c1 [|c2 [|c3 [|c4 [|c5 s]]]]]; try discriminate.
    change (toLowerCase (String c1 (String c2 (String c3 (String c4 "")))))
      with (String (toLowerChar c1) (String (toLowerChar c2)
              (String (toLowerChar c3) (String (toLowerChar c4) "")))).
    intros H. injection H as H1 H2 H3 H4.
    exists c1, c2, c3, c4.
    rewrite <- lower_is_t, <- lower_is_r, <- lower_is_u, <- lower_is_e. auto.
  - intros (c1 & c2 & c3 & c4 & -> & H1 & H2 & H3 & H4).
    apply lower_is_t in H1. apply lower_is_r in H2.
    apply lower_is_u in H3. apply lower_is_e in H4.
    change (toLowerCase (String c1 (String c2 (String c3 (String c4 "")))))
      with (String (toLowerChar c1) (String (toLowerChar c2)
              (String (toLowerChar c3) (String (toLowerChar c4) "")))).
    rewrite H1, H2, H3, H4. reflexivity.
Qed.

Lemma arrayIncludes_gas (x : string) :
  arrayIncludes ["low"; "medium"; "high"] x = true <->
  x = "low" \/ x = "medium" \/ x = "high".
Proof.
  unfold arrayIncludes. cbn [existsb].
  rewrite orb_false_r, !orb_true_iff, !String.eqb_eq. tauto.
Qed.

(** X1.  The [theme] field is present exactly when the record is the word
    dark or the word light, in lower case, and then holds that word; any
    other text, a different letter case included, leaves it absent. *)
Theorem theme_field_decoding :
  forall (slippageText themeText expertModeText gasText : js string)
         (v : Obj.value),
    let prefs := parsePreferences slippageText themeText expertModeText gasText in
    (Obj.get prefs "theme" = Some v <->
       (themeText = val "dark" /\ v = Obj.VString "dark") \/
       (themeText = val "light" /\ v = Obj.VString "light")) /\
    Obj.get (parsePreferences slippageText (val "Dark") expertModeText gasText)
      "theme" = None.
Proof.
  intros s t e g v prefs. subst prefs. split; [|rewrite get_theme; reflexivity].
  rewrite get_theme.
  destruct t as [| |a]; simpl.
  - split; [discriminate|]. intros [[H _]|[H _]]; discriminate.
  - split; [discriminate|]. intros [[H _]|[H _]]; discriminate.
  - destruct (String.eqb_spec a "dark") as [->|Hd].
    + simpl. split.
      * intros H. injection H as <-. auto.
      * intros [[_ ->]|[H _]]; [reflexivity|discriminate].
    + destruct (String.eqb_spec a "light") as [->|Hl].
      * simpl. split.
        -- intros H. injection H as <-. auto.
        -- intros [[H _]|[_ ->]]; [discriminate|reflexivity].
      * rewrite andb_false_r. split; [discriminate|].
        intros [[H _]|[H _]]; congruence.
Qed.

(** X2.  The [expertMode] field is present exactly when the record is a
    non-empty text, and it is a boolean: true when the text is the word
    true in any letter case, false for every other text, the word false
    and a text such as yes or 1 alike. *)
Theorem expertMode_field_decoding :
  forall slippageText themeText expertModeText gasText : js string,
    let prefs := parsePreferences slippageText themeText expertModeText gasText in
    (Obj.get prefs "expertMode" = None <-> truthy expertModeText = false) /\
    (forall v, Obj.get prefs "expertMode" = Some v ->
       exists b, v = Obj.VBoolean b /\
                 (b = true <-> spellsTrue (textOf expertModeText))) /\
    (forall b, Obj.get prefs "expertMode" = Some (Obj.VBoolean b) <->
       truthy expertModeText = true /\
       b = (toLowerCase (textOf expertModeText) =? "true")).
Proof.
  intros s t e g prefs. subst prefs. rewrite get_expertMode.
  destruct (truthy e).
  - split; [split; discriminate|]. split.
    + intros v H. injection H as <-. eexists. split; [reflexivity|].
      rewrite String.eqb_eq. apply toLowerCase_true.
    + intros b. split.
      * intros H. injection H as <-. auto.
      * intros [_ ->]. reflexivity.
  - split; [tauto|]. split.
    + discriminate.
    + intros b. split; [discriminate|]. intros [H _]. discriminate.
Qed.

(** X3.  The [gasPriority] field, when present, is one of the three words
    low, medium and high in lower case: the record is accepted in any
    letter case and stored lower-cased.  It is present exactly when the
    record is non-empty and its lower-cased text is one of the three. *)
Theorem gasPriority_field_decoding :
  forall slippageText themeText expertModeText gasText : js string,
    let prefs := parsePreferences slippageText themeText expertModeText gasText in
    (forall v, Obj.get prefs "gasPriority" = Some v ->
       v = Obj.VString (toLowerCase (textOf gasText)) /\
       (v = Obj.VString "low" \/ v = Obj.VString "medium" \/
        v = Obj.VString "high")) /\
    (Obj.get prefs "gasPriority" <> None <->
       truthy gasText = true /\
       (toLowerCase (textOf gasText) = "low" \/
        toLowerCase (textOf gasText) = "medium" \/
        toLowerCase (textOf gasText) = "high")).
Proof.
  intros s t e g prefs. subst prefs. rewrite get_gasPriority.
  destruct (truthy g); [rewrite andb_true_l|rewrite andb_false_l].
  - destruct (arrayIncludes ["low"; "medium"; "high"] (toLowerCase (textOf g)))
      eqn:Hin; cbv iota.
    + apply arrayIncludes_gas in Hin. split.
      * intros v H. injection H as <-. split; [reflexivity|].
        destruct Hin as [Hv | [Hv | Hv]]; rewrite Hv; auto.
      * split; [auto|discriminate].
    + split; [discriminate|]. split; [congruence|].
      intros [_ H]. apply arrayIncludes_gas in H. congruence.
  - split; [discriminate|]. split; [congruence|]. intros [H _]. discriminate.
Qed.

Lemma parsePreferences_keys (s t e g : js string) :
  let prefs := parsePreferences s t e g in
  Obj.keys prefs = filter (present prefs) preferenceKeys /\
  NoDup (Obj.keys prefs) /\
  (List.length (Obj.keys prefs) <= 4)%nat.
Proof.
  unfold parsePreferences.
  repeat match goal with
         | |- context [if ?b then _ else _] => destruct b
         end;
    (split; [reflexivity|]); (split; [|simpl; lia]);
    repeat constructor; simpl; intuition discriminate.
Qed.

(** X4.  The decoded preferences have at most the four properties
    [slippage], [theme], [expertMode], [gasPriority], each at most once
    and in this order: the keys are the four names with the absent ones
    left out. *)
Theorem preferences_keys :
  forall slippageText themeText expertModeText gasText : js string,
    let prefs := parsePreferences slippageText themeText expertModeText gasText in
    Obj.keys prefs = filter (present prefs) preferenceKeys /\
    NoDup (Obj.keys prefs) /\
    (List.length (Obj.keys prefs) <= 4)%nat.
Proof.
  intros s t e g. apply parsePreferences_keys.
Qed.

(** The decoder as four independent fields. *)
Lemma parsePreferences_fields (s t e g : js string) :
  parsePreferences s t e g =
  (entry "slippage" (slippageField s) ++ entry "theme" (themeField t) ++
   entry "expertMode" (expertModeField e) ++
   entry "gasPriority" (gasPriorityField g))%list.
Proof.
  unfold parsePreferences, slippageField, themeField, expertModeField,
    gasPriorityField, slippageAccepted.
  destruct (truthy s); rewrite ?andb_true_l, ?andb_false_l;
    [destruct (negb (isNaN (parseFloat (textOf s))) &&
               ge (parseFloat (textOf s)) zero &&
               le (parseFloat (textOf s)) (ofN 50))|];
    destruct (truthy t && ((textOf t =? "dark") || (textOf t =? "light")));
    destruct (truthy e);
    destruct (truthy g &&
              arrayIncludes ["low"; "medium"; "high"] (toLowerCase (textOf g)));
    reflexivity.
Qed.

Lemma truthy_textOf (x : js string) :
  truthy x = true -> truthy (val (textOf x)) = true.
Proof.
  destruct x; simpl; congruence.
Qed.

Lemma slippageField_again (s : js string) :
  slippageField (recordOf (slippageField s)) = slippageField s.
Proof.
  unfold slippageField.
  destruct (truthy s && slippageAccepted (textOf s)) eqn:H; [|reflexivity].
  cbn [recordOf textOf]. apply andb_true_iff in H as [Ht Ha].
  rewrite (truthy_textOf s Ht), Ha. reflexivity.
Qed.

Lemma themeField_again (t : js string) :
  themeField (recordOf (themeField t)) = themeField t.
Proof.
  unfold themeField.
  destruct (truthy t && ((textOf t =? "dark") || (textOf t =? "light")))
    eqn:H; [|reflexivity].
  cbn [recordOf textOf]. apply andb_true_iff in H as [Ht Ha].
  rewrite (truthy_textOf t Ht), Ha. reflexivity.
Qed.

Lemma expertModeField_again (e : js string) :
  expertModeField (recordOf (expertModeField e)) = expertModeField e.
Proof.
  unfold expertModeField.
  destruct (truthy e); [|reflexivity].
  destruct (toLowerCase (textOf e) =? "true"); reflexivity.
Qed.

Lemma gasPriorityField_again (g : js string) :
  gasPriorityField (recordOf (gasPriorityField g)) = gasPriorityField g.
Proof.
  unfold gasPriorityField.
  destruct (truthy g &&
            arrayIncludes ["low"; "medium"; "high"] (toLowerCase (textOf g)))
    eqn:H; [|reflexivity].
  apply andb_true_iff in H as [_ Ha]. apply arrayIncludes_gas in Ha.
  destruct Ha as [Hv | [Hv | Hv]]; rewrite Hv; reflexivity.
Qed.

(** X5.  Decoding is stable: when the decoded values are written back as
    text records, a string as it is and the expert mode as the word true
    or false, decoding these records gives the same preferences again. *)
Theorem preferences_decode_again :
  forall slippageText themeText expertModeText gasText : js string,
    let prefs := parsePreferences slippageText themeText expertModeText gasText in
    parsePreferences
      (recordOf (Obj.get prefs "slippage"))
      (recordOf (Obj.get prefs "theme"))
      (recordOf (Obj.get prefs "expertMode"))
      (recordOf (Obj.get prefs "gasPriority")) = prefs.
Proof.
  intros s t e g prefs. subst prefs.
  rewrite get_slippage, get_theme, get_expertMode, get_gasPriority.
  fold (slippageField s) (themeField t) (expertModeField e)
    (gasPriorityField g).
  rewrite !parsePreferences_fields.
  rewrite slippageField_again, themeField_again, expertModeField_again,
    gasPriorityField_again.
  reflexivity.
Qed.

(** The four lookups of a render of [useENSPreferences]. *)
Lemma useENSPreferences_run (w : World) (chainId : ChainId)
    (domainName : js string) :
  let name := nullish domainName undefined in
  let chain := if sameChain chainId GOERLI then GOERLI else ETHEREUM in
  let en := truthy domainName in
  let q := fun key => ensTextQuery w name key chain en in
  useENSPreferences w chainId domainName =
  ([Issued (EnsText name SLIPPAGE chain en);
    Issued (EnsText name THEME chain en);
    Issued (EnsText name EXPERT_MODE chain en);
    Issued (EnsText name GAS_PRIORITY chain en)],
   Returned
     (mkResult
        (parsePreferences (data (q SLIPPAGE)) (data (q THEME))
           (data (q EXPERT_MODE)) (data (q GAS_PRIORITY)))
        (Effects.isLoading (q SLIPPAGE) || Effects.isLoading (q THEME) ||
         Effects.isLoading (q EXPERT_MODE) || Effects.isLoading (q GAS_PRIORITY))
        (hasAny
           (parsePreferences (data (q SLIPPAGE)) (data (q THEME))
              (data (q EXPERT_MODE)) (data (q GAS_PRIORITY))))
        domainName)).
Proof. reflexivity. Qed.

(** X6.  A render of [useENSPreferences] issues exactly four text-record
    lookups, for the keys [com.pancakeswap.slippage], [.theme],
    [.expertMode] and [.gas] of the domain name, on Goerli when the wallet
    is on Goerli and on mainnet otherwise, and logs nothing.  Without a
    domain name the four lookups are disabled, and when disabled queries
    hold no data the render returns empty preferences with
    [hasAnyPreferences] false and [isLoading] false. *)
Theorem preferences_without_name :
  forall (w : World) (chainId : ChainId) (domainName : js string),
    lookups (useENSPreferences w chainId domainName) =
      map (fun key =>
             EnsText (nullish domainName undefined) key
               (if sameChain chainId GOERLI then GOERLI else ETHEREUM)
               (truthy domainName))
        ["com.pancakeswap.slippage"; "com.pancakeswap.theme";
         "com.pancakeswap.expertMode"; "com.pancakeswap.gas"] /\
    consoleOutput (useENSPreferences w chainId domainName) = [] /\
    (truthy domainName = false ->
     allDisabled (lookups (useENSPreferences w chainId domainName)) /\
     (disabledQueriesAreIdle w ->
      result (useENSPreferences w chainId domainName) =
        Returned (mkResult [] false false domainName))).
Proof.
  intros w chainId domainName.
  rewrite useENSPreferences_run. cbv zeta.
  split; [reflexivity|]. split; [reflexivity|].
  intros Hn. rewrite Hn. split.
  - repeat constructor.
  - intros (_ & _ & Hidle & _). unfold result. simpl snd.
    rewrite !Hidle. reflexivity.
Qed.

End MorePreferences.

(** ** The sign of an accepted slippage *)

Section SlippageSign.

Lemma binary_round_aux_signed (sx : bool) (mx ex : Z) (lx : location) :
  signed sx (binary_round_aux prec emax sx mx ex lx).
Proof.
  unfold signed, binary_round_aux.
  destruct (shr_fexp prec emax mx ex lx) as [mrs' e'].
  destruct (shr_fexp prec emax
              (round_nearest_even (shr_m mrs') (loc_of_shr_record mrs')) e'
              loc_Exact) as [mrs'' e''].
  destruct (shr_m mrs'') as [|m|m]; auto.
  destruct (e'' <=? emax - prec)%Z; eauto 6.
Qed.

Lemma binary_round_signed (sx : bool) (mx : positive) (ex : Z) :
  signed sx (binary_round prec emax sx mx ex).
Proof.
  unfold binary_round.
  destruct (shl_align mx ex
              (fexp prec emax (Z.pos (digits2_pos mx) + ex))) as [mz ez].
  apply binary_round_aux_signed.
Qed.

Lemma roundDecimal_signed (neg : bool) (m : N) (e : Z) :
  signed neg (roundDecimal neg m e).
Proof.
  unfold roundDecimal. destruct m as [|p]; [right; left; reflexivity|].
  destruct e as [|k|k].
  - change (10 ^ 0)%Z with 1%Z. rewrite Z.mul_1_r.
    destruct neg; apply binary_round_signed.
  - assert (Hpos : exists q, (Z.pos p * 10 ^ Z.pos k)%Z = Z.pos q).
    { assert (0 < Z.pos p * 10 ^ Z.pos k)%Z.
      { apply Z.mul_pos_pos; [lia|]. apply Z.pow_pos_nonneg; lia. }
      destruct (Z.pos p * 10 ^ Z.pos k)%Z as [|q|q]; try lia. eauto. }
    destruct Hpos as [q Hq]. cbv zeta. rewrite Hq.
    destruct neg; apply binary_round_signed.
  - unfold SFdiv.
    destruct (SFdiv_core_binary prec emax (Z.pos p) 0 (Z.pos (10 ^ k)) 0)
      as [[mz ez] lz].
    rewrite xorb_false_r. apply binary_round_aux_signed.
Qed.

(** X7.  A slippage text that starts, after white space, with a minus
    sign is accepted only when it denotes zero: the number read is then
    negative zero, and no negative value passes the range test. *)
Theorem negative_slippage_is_zero :
  forall text rest : string,
    trimStart text = String "-" rest ->
    slippageAccepted text = true ->
    parseFloat text = S754_zero true.
Proof.
  intros text rest Ht. unfold slippageAccepted, parseFloat.
  rewrite Ht.
  destruct (startsWith rest "Infinity"); [discriminate|].
  destruct (parseUnsigned rest) as [[m e]|]; [|discriminate].
  destruct (roundDecimal_signed true m e)
    as [H|[H|[H|(m' & e' & H)]]]; rewrite H; try discriminate.
  reflexivity.
Qed.

Lemma negative_slippage_is_zero_witness :
  trimStart " -0.0" = String "-" "0.0" /\
  slippageAccepted " -0.0" = true /\
  parseFloat " -0.0" = S754_zero true.
Proof.
  split; [reflexivity|]. split; [reflexivity|].
  exact (negative_slippage_is_zero " -0.0" "0.0" eq_refl eq_refl).
Defined.

End SlippageSign.

(** ** More on the name resolver *)

Section MoreProfile.

Import Profile.

Lemma sameChain_eq (a b : ChainId) : sameChain a b = true <-> a = b.
Proof.
  destruct a, b; simpl; split; try congruence; try discriminate.
  - intros H. apply N.eqb_eq in H. congruence.
  - intros H. injection H as ->. apply N.eqb_refl.
Qed.

(** X8.  When [useENSProfile] goes to the name service: the address and
    avatar lookups are enabled exactly when the hook is enabled, the
    wallet is neither on BSC nor on the BSC test network, and the name is
    non-empty, contains a dot and is normalized to a non-empty name;
    the lookups are made for that normalized name, on Goerli when the
    wallet is on Goerli and on mainnet otherwise.  In every other case all
    eight lookups are disabled, and when disabled queries hold no data the
    profile is then not valid, not loading and empty. *)
Theorem profile_fetch_condition :
  forall (w : World) (chainId : ChainId) (ensName : js string) (enabled : bool),
  exists p normalizedName chain fetch,
    result (useENSProfile w chainId ensName enabled) = Returned p /\
    lookups (useENSProfile w chainId ensName enabled) =
      profileLookups normalizedName chain fetch (fetch && isValid p) /\
    (fetch = true <->
       enabled = true /\ chainId <> BSC /\ chainId <> BSC_TESTNET /\
       includes (textOf ensName) "." = true /\
       exists n, normalize w (textOf ensName) = Returned n /\ n <> "" /\
                 normalizedName = val n) /\
    (chain = GOERLI \/ chain = ETHEREUM) /\
    (chain = GOERLI <-> chainId = GOERLI) /\
    (fetch = false ->
     allDisabled (lookups (useENSProfile w chainId ensName enabled)) /\
     (disabledQueriesAreIdle w ->
      address p = undefined /\ avatar p = undefined /\
      isLoading p = false /\ isValid p = false)).
Proof.
  intros w chainId ensName enabled.
  destruct (profile_render w chainId ensName enabled)
    as (evs & nn & p & Hn & Hres & _ & Hlook & Haddr & Hav & Hload & Hvalid).
  cbv zeta in Hlook, Haddr, Hav, Hload, Hvalid.
  exists p, nn, (if sameChain chainId GOERLI then GOERLI else ETHEREUM),
    (enabled &&
     (negb (sameChain chainId BSC) && negb (sameChain chainId BSC_TESTNET)) &&
     truthy nn).
  split; [exact Hres|].
  split; [rewrite Hlook, Hvalid; reflexivity|].
  split.
  { rewrite !andb_true_iff, !negb_true_iff.
    rewrite <- !not_true_iff_false, !sameChain_eq.
    destruct (normalizeName_cases w ensName)
      as [(Ht & Hd & n & Hr & H)|[(Ht & Hd & e & Hr & H)|(Hor & H)]];
      rewrite H in Hn; injection Hn as <- <-.
    - split.
      + intros [[He [Hb Hbt]] Htn]. repeat split; try assumption.
        exists n. repeat split; [exact Hr|].
        apply truthy_iff in Htn. destruct Htn as (a & Ha & Hne).
        injection Ha as ->. exact Hne.
      + intros (He & Hb & Hbt & _ & n' & Hr' & Hne & Hv).
        injection Hv as <-. repeat split; try assumption.
        apply truthy_iff. eauto.
    - split.
      + intros [_ Htn]. discriminate.
      + intros (_ & _ & _ & _ & n' & _ & _ & Hv). discriminate.
    - split.
      + intros [_ Htn]. discriminate.
      + intros (_ & _ & _ & _ & n' & _ & _ & Hv). discriminate. }
  split; [destruct (sameChain chainId GOERLI); auto|].
  split.
  { destruct (sameChain chainId GOERLI) eqn:Hg.
    - apply sameChain_eq in Hg. tauto.
    - split; [discriminate|]. intros ->. discriminate. }
  intros Hf. rewrite Hf in Hlook, Haddr, Hav, Hload, Hvalid.
  rewrite Hlook. split; [repeat constructor|].
  intros (Hia & Hiv & _). rewrite Hia in Haddr, Hload, Hvalid.
  rewrite Hiv in Hav, Hload. auto.
Qed.

(** X9.  The six social text records are requested after the address: in
    a render of [useENSProfile] a text-record lookup is enabled only if
    the address lookup for the same name on the same chain is enabled and
    the address it holds is non-empty, which is when the profile is valid;
    and then all six keys are requested. *)
Theorem profile_records_after_address :
  forall (w : World) (chainId : ChainId) (ensName : js string) (enabled : bool),
  exists p,
    result (useENSProfile w chainId ensName enabled) = Returned p /\
    forall name key chain,
      In (EnsText name key chain true)
         (lookups (useENSProfile w chainId ensName enabled)) ->
      isValid p = true /\
      In (EnsAddress name chain true)
         (lookups (useENSProfile w chainId ensName enabled)) /\
      In key ["com.twitter"; "com.github"; "com.discord"; "org.telegram";
              "email"; "url"] /\
      forall key',
        In key' ["com.twitter"; "com.github"; "com.discord"; "org.telegram";
                 "email"; "url"] ->
        In (EnsText name key' chain true)
           (lookups (useENSProfile w chainId ensName enabled)).
Proof.
  intros w chainId ensName enabled.
  destruct (profile_render w chainId ensName enabled)
    as (evs & nn & p & Hn & Hres & _ & Hlook & _ & _ & _ & Hvalid).
  cbv zeta in Hlook, Hvalid.
  exists p. split; [exact Hres|].
  intros name key chain. rewrite Hlook, <- Hvalid. clear.
  unfold profileLookups. cbn [In].
  intros H.
  assert (Hx : (enabled &&
                (negb (sameChain chainId BSC) &&
                 negb (sameChain chainId BSC_TESTNET)) && truthy nn) &&
               isValid p = true /\
               name = nn /\
               chain = (if sameChain chainId GOERLI then GOERLI else ETHEREUM) /\
               In key ["com.twitter"; "com.github"; "com.discord";
                       "org.telegram"; "email"; "url"]).
  { cbn [In].
    repeat (destruct H as [H|H]; [try discriminate H|]);
      try (injection H as <- <- <- <-; repeat split; auto 10; fail).
    destruct H. }
  destruct Hx as (Hen & -> & -> & Hk).
  apply andb_true_iff in Hen as [Hf Hv]. rewrite Hf, Hv.
  split; [reflexivity|]. split; [auto|]. split; [exact Hk|].
  intros key' Hk'. cbn [In] in Hk'.
  repeat (destruct Hk' as [<-|Hk']; [simpl; auto 10|]). destruct Hk'.
Qed.

End MoreProfile.

(** ** More on [useResolveAddressOrENS] *)

Section MoreResolve.

Import Profile.

(** The render in terms of the render of [useENSProfile] inside it. *)
Lemma resolve_run (w : World) (chainId : ChainId) (input : js string)
    (enabled : bool) :
  exists evs p,
    useENSProfile w chainId (if inputIsENSName input then input else undefined)
      (enabled && inputIsENSName input) = (evs, Returned p) /\
    useResolveAddressOrENS w chainId input enabled =
      (evs,
       Returned
         (if inputIsAddress input then
            mkResolved input false undefined undefined undefined false true
          else if inputIsENSName input then
            mkResolved (address p) true input (avatar p)
              (val (socialRecords p)) (isLoading p) (isValid p)
          else
            mkResolved undefined false undefined undefined undefined false
              false)).
Proof.
  destruct (profile_render w chainId
              (if inputIsENSName input then input else undefined)
              (enabled && inputIsENSName input))
    as (evs0 & nn0 & p & _ & Hres & _).
  unfold useResolveAddressOrENS.
  destruct (useENSProfile w chainId
              (if inputIsENSName input then input else undefined)
              (enabled && inputIsENSName input)) as [evs [p0|e]];
    unfold result in Hres; simpl snd in Hres; [|discriminate].
  injection Hres as ->.
  exists evs, p. split; [reflexivity|].
  cbn [bind].
  destruct (inputIsAddress input); [|destruct (inputIsENSName input)];
    cbn [ret]; rewrite app_nil_r; reflexivity.
Qed.

Lemma inputIsENSName_spec (input : js string) :
  inputIsENSName input = true <->
  exists s, input = val s /\ includes s "." = true /\ addressPattern s = false.
Proof.
  unfold inputIsENSName, inputIsAddress. split.
  - destruct input as [| |s]; simpl; try discriminate.
    destruct (s =? ""); simpl; [discriminate|].
    intros H. apply andb_true_iff in H as [Hd Ha].
    apply negb_true_iff in Ha. eauto.
  - intros (s & -> & Hd & Ha).
    assert (Ht : truthy (val s) = true).
    { destruct s; [discriminate|reflexivity]. }
    rewrite Ht. cbn [negb textOf]. rewrite Hd, Ha. reflexivity.
Qed.

(** X10.  The classification of [useResolveAddressOrENS] is exclusive and
    complete: an input is an ENS name exactly when it is a string with a
    dot that is not of the address pattern, and it is invalid exactly when
    it is missing or empty, or has no dot and is not of the address
    pattern.  For an invalid input the render returns the empty result,
    not valid and not loading, with all lookups disabled and nothing
    logged. *)
Theorem resolve_classification :
  forall input : js string,
    inputIsAddress input && inputIsENSName input = false /\
    (classify input = ENSName <->
       exists s, input = val s /\ includes s "." = true /\
                 addressPattern s = false) /\
    (classify input = Invalid <->
       truthy input = false \/
       (includes (textOf input) "." = false /\
        addressPattern (textOf input) = false)) /\
    (classify input = Invalid ->
     forall (w : World) (chainId : ChainId) (enabled : bool),
       result (useResolveAddressOrENS w chainId input enabled) =
         Returned
           (mkResolved undefined false undefined undefined undefined false
              false) /\
       allDisabled (lookups (useResolveAddressOrENS w chainId input enabled)) /\
       consoleOutput (useResolveAddressOrENS w chainId input enabled) = []).
Proof.
  intros input.
  assert (Hex : inputIsAddress input && inputIsENSName input = false).
  { unfold inputIsENSName. destruct (inputIsAddress input); [|reflexivity].
    simpl. destruct (truthy input); [apply andb_false_r|reflexivity]. }
  split; [exact Hex|].
  split.
  { rewrite <- inputIsENSName_spec. unfold classify.
    destruct (inputIsAddress input); simpl in Hex.
    - rewrite Hex. split; discriminate.
    - destruct (inputIsENSName input); split; congruence. }
  assert (Hinv : classify input = Invalid <->
                 inputIsAddress input = false /\ inputIsENSName input = false).
  { unfold classify.
    destruct (inputIsAddress input); [split; [discriminate|intros [H _]; discriminate]|].
    destruct (inputIsENSName input); split; try discriminate; auto.
    intros [_ H]. discriminate. }
  split.
  { rewrite Hinv. unfold inputIsENSName, inputIsAddress.
    destruct (truthy input); simpl negb; cbv iota.
    - destruct (addressPattern (textOf input)), (includes (textOf input) ".");
        simpl; split; intros; try tauto; try discriminate;
        try (destruct H as [H|[H1 H2]]; discriminate);
        try (destruct H; discriminate).
    - tauto. }
  intros Hc w chainId enabled. apply Hinv in Hc as [Ha He].
  destruct (resolve_run w chainId input enabled) as (evs & p & Hp & Hrun).
  rewrite Ha, He in Hrun. rewrite He in Hp. rewrite andb_false_r in Hp.
  rewrite Hrun.
  unfold useENSProfile in Hp.
  cbn [normalizeName truthy negb bind ret fst snd app] in Hp.
  rewrite !andb_false_l in Hp.
  cbn [useEnsAddress useEnsAvatar useEnsText bind emit ret app] in Hp.
  injection Hp as <- _.
  split; [reflexivity|]. split; [repeat constructor|reflexivity].
Qed.

(** X11.  For an input that is an ENS name, [useResolveAddressOrENS]
    hands the input to [useENSProfile] with the same [enabled] flag and
    passes its answer through: the same lookups and console output, the
    same address, avatar, social records, [isLoading] and [isValid].  The
    [ensName] it returns is the input as typed, not the normalized name. *)
Theorem resolve_passes_profile_through :
  forall (w : World) (chainId : ChainId) (input : js string) (enabled : bool),
    classify input = ENSName ->
    exists p r,
      useENSProfile w chainId input enabled =
        (events (useENSProfile w chainId input enabled), Returned p) /\
      useResolveAddressOrENS w chainId input enabled =
        (events (useENSProfile w chainId input enabled), Returned r) /\
      r = mkResolved (address p) true input (avatar p) (val (socialRecords p))
            (isLoading p) (isValid p).
Proof.
  intros w chainId input enabled Hc.
  assert (Ha : inputIsAddress input = false /\ inputIsENSName input = true).
  { unfold classify in Hc.
    destruct (inputIsAddress input); [discriminate|].
    destruct (inputIsENSName input); [auto|discriminate]. }
  destruct Ha as [Ha He].
  destruct (resolve_run w chainId input enabled) as (evs & p & Hp & Hrun).
  rewrite Ha, He in Hrun. rewrite He, andb_true_r in Hp.
  rewrite Hp, Hrun. exists p. eexists. repeat split.
Qed.

Lemma resolve_passes_profile_through_witness :
  classify (val "Vitalik.eth") = ENSName /\
  exists p r,
    useENSProfile Sample.world ETHEREUM (val "Vitalik.eth") true =
      (events (useENSProfile Sample.world ETHEREUM (val "Vitalik.eth") true),
       Returned p) /\
    useResolveAddressOrENS Sample.world ETHEREUM (val "Vitalik.eth") true =
      (events (useENSProfile Sample.world ETHEREUM (val "Vitalik.eth") true),
       Returned r) /\
    r = mkResolved (address p) true (val "Vitalik.eth") (avatar p)
          (val (socialRecords p)) (isLoading p) (isValid p).
Proof.
  split; [reflexivity|].
  exact (resolve_passes_profile_through Sample.world ETHEREUM
           (val "Vitalik.eth") true eq_refl).
Defined.

(** X12.  What every result of [useResolveAddressOrENS] satisfies: a
    valid result carries a non-empty address; a result that is loading is
    that of an ENS name; and a result that is not an ENS name has no name,
    avatar or social records.  The render always returns. *)
Theorem resolve_result_invariants :
  forall (w : World) (chainId : ChainId) (input : js string) (enabled : bool),
  exists r,
    result (useResolveAddressOrENS w chainId input enabled) = Returned r /\
    (r_isValid r = true -> truthy (r_address r) = true) /\
    (r_isLoading r = true -> r_isENSName r = true) /\
    (r_isENSName r = true <-> classify input = ENSName) /\
    (r_isENSName r = true -> r_ensName r = input) /\
    (r_isENSName r = false ->
     r_ensName r = undefined /\ r_avatar r = undefined /\
     r_socialRecords r = undefined).
Proof.
  intros w chainId input enabled.
  destruct (resolve_run w chainId input enabled) as (evs & p & Hp & Hrun).
  rewrite Hrun. eexists. split; [reflexivity|].
  unfold classify.
  destruct (inputIsAddress input) eqn:Ha.
  - cbn. repeat split; try discriminate; auto.
    unfold inputIsAddress in Ha. destruct (truthy input); [auto|discriminate].
  - destruct (inputIsENSName input) eqn:He.
    + cbn. repeat split; try discriminate; auto.
      intros Hv.
      destruct (profile_render w chainId
                  (if inputIsENSName input then input else undefined)
                  (enabled && inputIsENSName input))
        as (evs' & nn & p' & _ & Hres & _ & _ & Haddr & _ & _ & Hvalid).
      rewrite He in Hres, Haddr, Hvalid.
      rewrite Hp in Hres. unfold result in Hres. simpl in Hres.
      injection Hres as Heq. subst p'. cbv zeta in Haddr, Hvalid.
      rewrite Haddr. rewrite <- Hvalid. exact Hv.
    + cbn. repeat split; try discriminate; auto.
Qed.

End MoreResolve.

(** ** More on the token-address resolver *)

Section MoreToken.

Import TokenAddress.

Variable w : World.

(** The [resolvedAddress] memo is null or a string viem accepted. *)
Lemma resolveAddress_accepted (input : js string) (isENSName : bool)
    (tokenTextRecord primaryAddress : js string) :
  let a := resolveAddress w input isENSName tokenTextRecord primaryAddress in
  a = null \/ exists s, a = val s /\ isAddress w s = true.
Proof.
  unfold resolveAddress.
  destruct (negb isENSName && truthy input &&
            isAddress w (trim (textOf input))) eqn:H1.
  - right. apply andb_true_iff in H1 as [_ H1]. eauto.
  - destruct (truthy tokenTextRecord && isAddress w (textOf tokenTextRecord))
      eqn:H2.
    + right. apply andb_true_iff in H2 as [Ht H2].
      destruct tokenTextRecord; try discriminate. eauto.
    + destruct (truthy primaryAddress && isAddress w (textOf primaryAddress))
        eqn:H3; [|auto].
      right. apply andb_true_iff in H3 as [Ht H3].
      destruct primaryAddress; try discriminate. eauto.
Qed.

(** X13.  What every result of the token-address resolver satisfies: the
    address is null or a string that viem's [isAddress] accepted, never
    undefined; a valid result is an ERC-20 token with an address, for a
    non-blank input; an ERC-20 token has an address and its decimals; a
    result that is loading is that of an ENS name; and an ENS name always
    comes with its normalized name. *)
Theorem token_result_invariants :
  forall (chainId : ChainId) (input : js string) (enabled : bool),
  exists r name chain en,
    tokenRender (useENSTokenAddress w chainId input enabled) chainId r name
      chain en /\
    (address r = null \/ exists s, address r = val s /\ isAddress w s = true) /\
    (isValid r = true ->
     isERC20Token r = true /\ address r <> null /\ nonBlank input = true) /\
    (isERC20Token r = true ->
     truthy (address r) = true /\ decimals r <> undefined) /\
    (isLoading r = true -> isENSName r = true) /\
    (isENSName r = true -> exists n, ensName r = val n).
Proof.
  intros chainId input enabled.
  destruct (token_render_full w chainId input enabled)
    as (evs & c & r & name & chain & en & Hc & Hrender & _ & _ & _ & Hens & Hn &
        Haddr & Hdec & Herc & Hload & Hvalid & _).
  exists r, name, chain, en. split; [exact Hrender|].
  assert (Hacc : address r = null \/
                 exists s, address r = val s /\ isAddress w s = true).
  { rewrite Haddr. apply resolveAddress_accepted. }
  split; [exact Hacc|].
  split.
  { rewrite Hvalid. intros Hv. apply andb_true_iff in Hv as [Hb Hv].
    assert (He : isERC20Token r = true).
    { destruct (c_isENSName c); apply andb_true_iff in Hv as [_ Hv]; exact Hv. }
    split; [exact He|]. split; [|exact Hb].
    rewrite Herc in He. apply andb_true_iff in He as [Ht _].
    intros Hnull. rewrite Hnull in Ht. discriminate. }
  split.
  { rewrite Herc, Hdec. unfold verified. intros He.
    apply andb_true_iff in He as [Ht He].
    apply andb_true_iff in He as [Hu _]. split; [exact Ht|].
    intros Hx. rewrite Hx in Hu. discriminate. }
  split.
  { rewrite Hload, Hens. intros Hl. apply andb_true_iff in Hl as [Hl _].
    exact Hl. }
  rewrite Hens, Hn. intros He. rewrite He.
  destruct (classifyInput_spec w input evs c Hc) as (_ & Hnorm & _).
  destruct (Hnorm He) as (n & _ & Hv). eauto.
Qed.

(** X14.  Where the token-address resolver sends its lookups: the two
    name-service lookups go to Goerli when the wallet is on Goerli and to
    mainnet on every other chain, BSC included, and they are enabled
    exactly when the input is an ENS name and the hook is enabled, on
    whatever chain the wallet is; the [decimals()] read goes to the
    wallet's own chain. *)
Theorem token_lookup_targets :
  forall (chainId : ChainId) (input : js string) (enabled : bool),
  exists r name chain en,
    tokenRender (useENSTokenAddress w chainId input enabled) chainId r name
      chain en /\
    chain = (if sameChain chainId GOERLI then GOERLI else ETHEREUM) /\
    (en = true <-> isENSName r = true /\ enabled = true) /\
    (forall l, In l (lookups (useENSTokenAddress w chainId input enabled)) ->
       match l with
       | EnsAddress _ c _ | EnsText _ _ c _ => c = chain
       | ReadContract _ _ c _ _ _ => c = chainId
       | EnsAvatar _ _ _ => False
       end).
Proof.
  intros chainId input enabled.
  destruct (token_render_full w chainId input enabled)
    as (evs & c & r & name & chain & en & Hc & Hrender & _ & Hchain & Hen &
        Hens & _).
  exists r, name, chain, en. split; [exact Hrender|].
  split.
  { rewrite Hchain. destruct chainId; reflexivity. }
  split.
  { rewrite Hen, Hens.
    destruct (classifyInput_spec w input evs c Hc) as (_ & Hnorm & _).
    destruct (c_isENSName c) eqn:He.
    - destruct (Hnorm eq_refl) as (n & _ & Hv). rewrite Hv. simpl.
      rewrite andb_true_r. tauto.
    - simpl. split; [discriminate|]. intros [H _]. discriminate. }
  destruct Hrender as [_ Hlook]. rewrite Hlook.
  intros l [<-|[<-|[<-|[]]]]; reflexivity.
Qed.

(** X15.  What the [enabled] flag of the token-address resolver does: it
    gates the two name-service lookups and nothing else.  For a raw
    address the render is the same with the flag off and on.  With the
    flag off the name-service lookups are disabled for every input, an ENS
    name is still classified and normalized, and when disabled queries
    hold no data an ENS name then resolves to no address, is not valid,
    is not loading, and no lookup at all is enabled. *)
Theorem token_enabled_flag :
  forall (chainId : ChainId) (input : js string),
    (nonBlank input = true -> isAddress w (trim (textOf input)) = true ->
     useENSTokenAddress w chainId input false =
     useENSTokenAddress w chainId input true) /\
    exists r name chain,
      tokenRender (useENSTokenAddress w chainId input false) chainId r name
        chain false /\
      ensDisabled (lookups (useENSTokenAddress w chainId input false)) /\
      (isENSName r = true -> exists n, ensName r = val n) /\
      (disabledQueriesAreIdle w -> isENSName r = true ->
       address r = null /\ isValid r = false /\ hasTokenRecord r = false /\
       isLoading r = false /\
       allDisabled (lookups (useENSTokenAddress w chainId input false))).
Proof.
  intros chainId input. split.
  - intros Hb Ha.
    destruct (classifyInput_address w input Hb Ha) as [Hcls _].
    unfold useENSTokenAddress. rewrite Hcls. reflexivity.
  - destruct (token_render_full w chainId input false)
      as (evs & c & r & name & chain & en & Hc & Hrender & _ & _ & Hen &
          Hens & Hn & Haddr & _ & Herc & Hload & Hvalid & Htok).
    rewrite andb_false_r in Hen. simpl in Hen. subst en.
    exists r, name, chain. split; [exact Hrender|].
    destruct Hrender as [Hres Hlook].
    split; [rewrite Hlook; repeat constructor; discriminate|].
    split.
    { rewrite Hens, Hn. intros He. rewrite He.
      destruct (classifyInput_spec w input evs c Hc) as (_ & Hnorm & _).
      destruct (Hnorm He) as (n & _ & Hv). eauto. }
    intros (Hia & _ & Hit & Hir) He. rewrite Hens in He.
    rewrite Hia, Hit in Haddr. rewrite He in Haddr.
    assert (Hnull : address r = null) by exact Haddr.
    rewrite Hload, Hvalid, Htok, Hlook, Hia, Hit, Hnull. cbn [truthy nullish].
    rewrite Hir, He. cbn.
    rewrite andb_false_r.
    repeat split. repeat constructor.
Qed.

Lemma trimEnd_cons (c : ascii) (s : string) :
  trimEnd (String c s) =
  if isWhiteSpace c && (trimEnd s =? "") then "" else String c (trimEnd s).
Proof. reflexivity. Qed.

Lemma trimEnd_idem (s : string) : trimEnd (trimEnd s) = trimEnd s.
Proof.
  induction s as [|c s IH]; [reflexivity|].
  rewrite trimEnd_cons.
  destruct (isWhiteSpace c && (trimEnd s =? "")) eqn:H; [reflexivity|].
  rewrite trimEnd_cons, IH, H. reflexivity.
Qed.

Lemma trimStart_head (s : string) :
  trimStart s = "" \/
  exists c r, trimStart s = String c r /\ isWhiteSpace c = false.
Proof.
  induction s as [|c s IH]; [left; reflexivity|].
  change (trimStart (String c s))
    with (if isWhiteSpace c then trimStart s else String c s).
  destruct (isWhiteSpace c) eqn:H; [exact IH|]. right. eauto.
Qed.

Lemma trimStart_cons_fixed (c : ascii) (r : string) :
  isWhiteSpace c = false -> trimStart (String c r) = String c r.
Proof.
  intros H.
  change (trimStart (String c r))
    with (if isWhiteSpace c then trimStart r else String c r).
  rewrite H. reflexivity.
Qed.

(** Trimming twice is trimming once. *)
Lemma trim_idem (s : string) : trim (trim s) = trim s.
Proof.
  unfold trim.
  destruct (trimStart_head s) as [H|(c & r & H & Hc)]; rewrite H.
  - reflexivity.
  - assert (Hcons : forall t, trimEnd (String c t) = String c (trimEnd t)).
    { intros t. rewrite trimEnd_cons, Hc. reflexivity. }
    rewrite (Hcons r), (trimStart_cons_fixed c (trimEnd r) Hc).
    rewrite (Hcons (trimEnd r)), trimEnd_idem. reflexivity.
Qed.

(** X16.  White space around the input is ignored by the token-address
    resolver: for an input that is not blank, the render for the input as
    typed and the render for the trimmed input are the same, lookups and
    console output included. *)
Theorem token_input_is_trimmed :
  forall (chainId : ChainId) (s : string) (enabled : bool),
    nonBlank (val s) = true ->
    useENSTokenAddress w chainId (val s) enabled =
    useENSTokenAddress w chainId (val (trim s)) enabled.
Proof.
  intros chainId s enabled Hb.
  unfold nonBlank in Hb. cbn [textOf] in Hb.
  apply andb_true_iff in Hb as [Ht Hn].
  assert (Ht' : truthy (val (trim s)) = true) by exact Hn.
  unfold useENSTokenAddress, classifyInput, resolveAddress.
  cbn [textOf]. rewrite trim_idem, Ht, Ht'. reflexivity.
Qed.

End MoreToken.

Lemma token_input_is_trimmed_witness :
  nonBlank (val " Cake.ETH ") = true /\
  TokenAddress.useENSTokenAddress Sample.world ETHEREUM (val " Cake.ETH ") true =
  TokenAddress.useENSTokenAddress Sample.world ETHEREUM (val "Cake.ETH") true.
Proof.
  split; [reflexivity|].
  exact (token_input_is_trimmed Sample.world ETHEREUM " Cake.ETH " true eq_refl).
Defined.

(** ** The two revisions of the token-address resolver *)

Section Revisions.

Variable w : World.

(** X17.  The two revisions of [useENSTokenAddress] classify every input
    alike, the test for the ending [.eth] of the older one adding nothing
    to the test for a dot, and they issue the same two name-service
    lookups and return the same address, name, [isENSName] and
    [hasTokenRecord].  They differ by the verification only: what the
    revision with the verification reports valid the other reports valid
    too, what the other reports valid is valid once it is an ERC-20 token,
    and what the other reports loading the revision with the verification
    reports loading too. *)
Theorem token_revisions_agree :
  forall (chainId : ChainId) (input : js string) (enabled : bool),
    TokenAddressBasic.classifyInput w input = TokenAddress.classifyInput w input /\
    exists r r' name chain en,
      tokenRender (TokenAddress.useENSTokenAddress w chainId input enabled)
        chainId r name chain en /\
      basicRender (TokenAddressBasic.useENSTokenAddress w chainId input enabled)
        r' name chain en /\
      TokenAddressBasic.address r' = TokenAddress.address r /\
      TokenAddressBasic.isENSName r' = TokenAddress.isENSName r /\
      TokenAddressBasic.ensName r' = TokenAddress.ensName r /\
      TokenAddressBasic.hasTokenRecord r' = TokenAddress.hasTokenRecord r /\
      (TokenAddress.isValid r = true -> TokenAddressBasic.isValid r' = true) /\
      (TokenAddressBasic.isValid r' = true ->
       TokenAddress.isERC20Token r = true -> TokenAddress.isValid r = true) /\
      (TokenAddressBasic.isLoading r' = true ->
       TokenAddress.isLoading r = true).
Proof.
  intros chainId input enabled.
  split; [apply basic_classifyInput|].
  destruct (token_render_full w chainId input enabled)
    as (evs & c & r & name & chain & en & Hc & Hrender & Hname & Hchain & Hen &
        Hens & Hn & Haddr & _ & _ & Hload & Hvalid & Htok).
  destruct (basic_render w chainId input enabled r name chain en Hrender)
    as (r' & Hb & _ & Ha' & He' & Hn' & Hh' & Hv').
  exists r, r', name, chain, en.
  split; [exact Hrender|]. split; [exact Hb|].
  split; [exact Ha'|]. split; [exact He'|]. split; [exact Hn'|].
  split; [exact Hh'|].
  rewrite Hv', Hvalid, Hens.
  split; [|split].
  - destruct (nonBlank input); [|discriminate]. simpl.
    destruct (TokenAddress.c_isENSName c); intros H; apply andb_true_iff in H as [H _];
      exact H.
  - destruct (nonBlank input); [|discriminate]. simpl.
    destruct (TokenAddress.c_isENSName c); intros H1 H2; rewrite H1, H2; reflexivity.
  - destruct Hb as [Hres' _].
    unfold TokenAddressBasic.useENSTokenAddress in Hres'.
    rewrite basic_classifyInput, Hc in Hres'.
    unfold result in Hres'.
    cbn [bind useEnsAddress useEnsText emit ret fst snd app] in Hres'.
    injection Hres' as <-.
    cbn [TokenAddressBasic.isLoading].
    rewrite Hload, Hname, Hchain, Hen.
    destruct (TokenAddress.c_isENSName c); [|discriminate]. simpl.
    intros H. rewrite H. reflexivity.
Qed.

End Revisions.

(** ** The preferences banner *)

Section Banner.

Import Preferences Indicator.

Lemma gas_word_nonempty (x : string) :
  arrayIncludes ["low"; "medium"; "high"] x = true -> (x =? "") = false.
Proof.
  intros H. apply arrayIncludes_gas in H.
  destruct H as [H | [H | H]]; rewrite H; reflexivity.
Qed.

Lemma truthy_nonempty (x : js string) :
  truthy x = true -> (textOf x =? "") = false.
Proof.
  destruct x; simpl; try discriminate. intros H.
  apply negb_true_iff in H. exact H.
Qed.

(** The lines of the banner, read off the four records. *)
Lemma bannerLines_of_records (s t e g : js string) :
  bannerLines (parsePreferences s t e g) =
  ((if truthy s && slippageAccepted (textOf s)
    then [("Slippage: " ++ textOf s ++ "%")%string] else []) ++
   (if truthy t && ((textOf t =? "dark") || (textOf t =? "light"))
    then [("Theme: " ++ textOf t)%string] else []) ++
   (if truthy e
    then [("Expert Mode: " ++
           (if toLowerCase (textOf e) =? "true" then "On" else "Off"))%string]
    else []) ++
   (if truthy g &&
       arrayIncludes ["low"; "medium"; "high"] (toLowerCase (textOf g))
    then [("Gas: " ++ toLowerCase (textOf g))%string] else []))%list.
Proof.
  unfold bannerLines.
  f_equal; [|f_equal; [|f_equal]].
  - unfold propTruthy, propText. rewrite get_slippage.
    destruct (truthy s) eqn:Hs; rewrite ?andb_true_l, ?andb_false_l;
      [|reflexivity].
    destruct (slippageAccepted (textOf s)); [|reflexivity].
    rewrite (truthy_nonempty s Hs). reflexivity.
  - unfold propTruthy, propText. rewrite get_theme.
    destruct (truthy t) eqn:Ht; rewrite ?andb_true_l, ?andb_false_l;
      [|reflexivity].
    destruct ((textOf t =? "dark") || (textOf t =? "light")); [|reflexivity].
    rewrite (truthy_nonempty t Ht). reflexivity.
  - unfold propTruthy. rewrite get_expertMode.
    destruct (truthy e); reflexivity.
  - unfold propTruthy, propText. rewrite get_gasPriority.
    destruct (truthy g) eqn:Hg; rewrite ?andb_true_l, ?andb_false_l;
      [|reflexivity].
    destruct (arrayIncludes ["low"; "medium"; "high"] (toLowerCase (textOf g)))
      eqn:Hin; [|reflexivity].
    rewrite (gas_word_nonempty _ Hin). reflexivity.
Qed.

Lemma bannerLines_length (s t e g : js string) :
  List.length (bannerLines (parsePreferences s t e g)) =
  List.length (Obj.keys (parsePreferences s t e g)).
Proof.
  rewrite bannerLines_of_records.
  destruct (parsePreferences_keys s t e g) as [Hk _]. cbv zeta in Hk.
  rewrite Hk. unfold preferenceKeys, present. cbn [filter].
  rewrite get_slippage, get_theme, get_expertMode, get_gasPriority.
  destruct (truthy s && slippageAccepted (textOf s)),
    (truthy t && ((textOf t =? "dark") || (textOf t =? "light"))),
    (truthy e),
    (truthy g &&
     arrayIncludes ["low"; "medium"; "high"] (toLowerCase (textOf g)));
    reflexivity.
Qed.

(** X18.  The banner of [ENSPreferencesIndicator] has one line for each
    decoded preference, in the order slippage, theme, expert mode, gas:
    the slippage text followed by a percent sign, the theme, the expert
    mode as On for the word true in any letter case and Off for any other
    text, and the gas priority in lower case.  The number of lines is the
    number of properties of the preferences. *)
Theorem banner_lines :
  forall slippageText themeText expertModeText gasText : js string,
    let prefs := parsePreferences slippageText themeText expertModeText gasText in
    bannerLines prefs =
      ((if truthy slippageText && slippageAccepted (textOf slippageText)
        then [("Slippage: " ++ textOf slippageText ++ "%")%string] else []) ++
       (if truthy themeText &&
           ((textOf themeText =? "dark") || (textOf themeText =? "light"))
        then [("Theme: " ++ textOf themeText)%string] else []) ++
       (if truthy expertModeText
        then [("Expert Mode: " ++
               (if toLowerCase (textOf expertModeText) =? "true"
                then "On" else "Off"))%string]
        else []) ++
       (if truthy gasText &&
           arrayIncludes ["low"; "medium"; "high"]
             (toLowerCase (textOf gasText))
        then [("Gas: " ++ toLowerCase (textOf gasText))%string]
        else []))%list /\
    List.length (bannerLines prefs) = List.length (Obj.keys prefs).
Proof.
  intros s t e g prefs. subst prefs.
  split; [apply bannerLines_of_records|apply bannerLines_length].
Qed.

(** X19.  When [ENSPreferencesIndicator] renders: the banner is rendered
    exactly when the preferences are not loading, the account has a name,
    some preference was decoded and the banner was not dismissed; a
    rendered banner has at least one line and carries the name in its
    title.  The render of the component issues the lookups of
    [useENSPreferences] and no other. *)
Theorem banner_visibility :
  forall (w : World) (chainId : ChainId) (domainName : js string)
         (isDismissed : bool),
  exists r v,
    result (useENSPreferences w chainId domainName) = Returned r /\
    result (ENSPreferencesIndicator w chainId domainName isDismissed) =
      Returned v /\
    events (ENSPreferencesIndicator w chainId domainName isDismissed) =
      events (useENSPreferences w chainId domainName) /\
    (v <> None <->
       Preferences.isLoading r = false /\ truthy domainName = true /\
       hasAnyPreferences r = true /\ isDismissed = false) /\
    (forall b, v = Some b ->
       lines b <> [] /\
       lines b = bannerLines (preferences r) /\
       title b = ("ENS Settings Loaded (" ++ textOf domainName ++ ")")%string).
Proof.
  intros w chainId domainName isDismissed.
  unfold ENSPreferencesIndicator.
  rewrite useENSPreferences_run. cbv zeta.
  set (prefs := parsePreferences _ _ _ _).
  set (loading := _ || _ || _ || _).
  cbn [bind Preferences.isLoading Preferences.ensName
       Preferences.hasAnyPreferences Preferences.preferences].
  exists (mkResult prefs loading (hasAny prefs) domainName),
    (if loading || negb (truthy domainName) || negb (hasAny prefs) ||
        isDismissed
     then None
     else Some (mkBanner
                  ("ENS Settings Loaded (" ++ textOf domainName ++ ")")
                  (bannerLines prefs))).
  split; [reflexivity|].
  cbn [Preferences.isLoading Preferences.hasAnyPreferences
       Preferences.preferences].
  destruct (loading || negb (truthy domainName) || negb (hasAny prefs) ||
            isDismissed) eqn:Hhide;
    cbn [ret result events fst snd]; (split; [reflexivity|]);
    (split; [apply app_nil_r|]).
  - split.
    + split; [congruence|]. intros (H1 & H2 & H3 & H4).
      rewrite H1, H2, H3, H4 in Hhide. discriminate.
    + discriminate.
  - apply orb_false_iff in Hhide as [Hhide Hd].
    apply orb_false_iff in Hhide as [Hhide Hh].
    apply orb_false_iff in Hhide as [Hl Hn].
    apply negb_false_iff in Hn, Hh.
    split.
    + split; [auto|discriminate].
    + intros b Hb. injection Hb as <-. cbn [lines title].
      split; [|split; reflexivity].
      intros Hnil.
      assert (Hlen : List.length (bannerLines prefs) =
                     List.length (Obj.keys prefs)).
      { subst prefs. apply bannerLines_length. }
      rewrite Hnil in Hlen. unfold hasAny in Hh.
      rewrite <- Hlen in Hh. discriminate.
Qed.

End Banner.

(** ** The token search *)

Section Search.

Import TokenSearch.

Variable Token : Type.
Variable w : World.
Variable safeGetAddress : string -> js string.
Variable useTokenByChainId : js string -> ChainId -> js Token.

(** In the revision without the verification a result that is loading is
    that of an ENS name. *)
Lemma basic_loading_ens (chainId : ChainId) (input : js string)
    (enabled : bool) (r' : TokenAddressBasic.Result) :
  result (TokenAddressBasic.useENSTokenAddress w chainId input enabled) =
    Returned r' ->
  TokenAddressBasic.isLoading r' = true ->
  TokenAddressBasic.isENSName r' = true.
Proof.
  unfold TokenAddressBasic.useENSTokenAddress. rewrite basic_classifyInput.
  destruct (classifyInput_returns w input) as (evs & c & Hc & _).
  rewrite Hc. unfold result.
  cbn [bind useEnsAddress useEnsText emit ret fst snd app].
  intros H. injection H as <-.
  cbn [TokenAddressBasic.isLoading TokenAddressBasic.isENSName].
  intros H. apply andb_true_iff in H as [H _]. exact H.
Qed.

(** What the component reads from the hook, in either revision, next to
    the render of the revision with the verification. *)
Lemma search_hook (revision : Revision) (chainId : ChainId)
    (input : js string) (enabled : bool) :
  exists res r name chain en,
    useENSTokenAddress revision w chainId input enabled =
      (match revision with
       | WithoutVerification =>
           events (TokenAddressBasic.useENSTokenAddress w chainId input enabled)
       | WithVerification =>
           events (TokenAddress.useENSTokenAddress w chainId input enabled)
       end, Returned res) /\
    tokenRender (TokenAddress.useENSTokenAddress w chainId input enabled)
      chainId r name chain en /\
    resolvedAddress res = TokenAddress.address r /\
    isENSName res = TokenAddress.isENSName r /\
    ensName res = TokenAddress.ensName r /\
    hasTokenRecord res = TokenAddress.hasTokenRecord r /\
    (isResolvingENS res = true -> isENSName res = true).
Proof.
  destruct (token_render_full w chainId input enabled)
    as (evs & c & r & name & chain & en & Hc & Hrender & _ & _ & _ & Hens &
        _ & _ & _ & _ & Hload & _).
  destruct (basic_render w chainId input enabled r name chain en Hrender)
    as (r' & [Hres' _] & _ & Ha' & He' & Hn' & Hh' & _).
  pose proof (basic_loading_ens chainId input enabled r' Hres') as Hl'.
  destruct Hrender as [Hres Hlook].
  unfold useENSTokenAddress.
  destruct revision.
  - destruct (TokenAddressBasic.useENSTokenAddress w chainId input enabled)
      as [evs0 [r0|e]]; unfold result in Hres'; simpl snd in Hres';
      [|discriminate].
    injection Hres' as ->.
    eexists. exists r, name, chain, en.
    cbn [bind ret events fst snd]. rewrite app_nil_r.
    split; [reflexivity|]. split; [split; [exact Hres|exact Hlook]|].
    cbn [resolvedAddress isENSName ensName hasTokenRecord isResolvingENS].
    auto 6.
  - destruct (TokenAddress.useENSTokenAddress w chainId input enabled)
      as [evs0 [r0|e]] eqn:Hrun; unfold result in Hres; simpl snd in Hres;
      [|discriminate].
    injection Hres as ->.
    eexists. exists r, name, chain, en.
    cbn [bind ret events fst snd]. rewrite app_nil_r.
    split; [reflexivity|]. split; [split; [reflexivity|exact Hlook]|].
    cbn [resolvedAddress isENSName ensName hasTokenRecord isResolvingENS].
    do 4 (split; [reflexivity|]).
    rewrite Hload, Hens. intros H. apply andb_true_iff in H as [H _]. exact H.
Qed.

(** X20.  The rows of the token search of [ManageTokens] exclude each
    other, whichever revision of [useENSTokenAddress] the component is
    built with: when the warning for an invalid input is shown, neither
    the typed nor the debounced text is empty, the debounced text is not
    an ENS name, and neither the row of the resolved name nor the row that
    reports a resolution in progress is rendered; while a resolution is in
    progress neither the resolved name nor a token to import is shown;
    and for an empty debounced text none of the three is rendered.  The
    debounced text is an ENS name exactly when it is not blank, its
    trimmed form is no address for viem, contains a dot and is accepted
    by [normalize].  The search causes the events of that revision of the
    hook for the debounced text, with the hook enabled, and no other. *)
Theorem search_rows_exclusive :
  forall (revision : Revision) (activeChainId : ChainId)
         (chainIdProp : js ChainId)
         (searchQuery debouncedSearchQuery : string),
  exists hook v,
    result (useENSTokenAddress revision w activeChainId
              (val debouncedSearchQuery) true) = Returned hook /\
    result (ManageTokensSearch revision w safeGetAddress useTokenByChainId
              activeChainId chainIdProp searchQuery debouncedSearchQuery) =
      Returned v /\
    events (ManageTokensSearch revision w safeGetAddress useTokenByChainId
              activeChainId chainIdProp searchQuery debouncedSearchQuery) =
      match revision with
      | WithoutVerification =>
          events (TokenAddressBasic.useENSTokenAddress w activeChainId
                    (val debouncedSearchQuery) true)
      | WithVerification =>
          events (TokenAddress.useENSTokenAddress w activeChainId
                    (val debouncedSearchQuery) true)
      end /\
    (isENSName hook = true <->
       nonBlank (val debouncedSearchQuery) = true /\
       isAddress w (trim debouncedSearchQuery) = false /\
       includes (trim debouncedSearchQuery) "." = true /\
       exists n, normalize w (trim debouncedSearchQuery) = Returned n) /\
    errorText v = inputWarning v /\
    (inputWarning v = true ->
     resolvedRow v = None /\ resolvingRow v = false /\
     searchQuery <> "" /\ debouncedSearchQuery <> "" /\
     isENSName hook = false) /\
    (resolvingRow v = true ->
     resolvedRow v = None /\ importRow v = undefined /\
     inputWarning v = false /\ isENSName hook = true) /\
    (resolvedRow v <> None ->
     inputWarning v = false /\ resolvingRow v = false /\
     isENSName hook = true) /\
    (debouncedSearchQuery = "" ->
     inputWarning v = false /\ resolvedRow v = None /\
     resolvingRow v = false).
Proof.
  intros revision activeChainId chainIdProp q dq.
  destruct (search_hook revision activeChainId (val dq) true)
    as (res & r & name & chain & en & Hrun & Hrender & _ & He & _ & _ & Hli).
  destruct (token_render_cases w activeChainId (val dq) true)
    as (r0 & name0 & en0 & [Hres0 _] & _).
  rewrite (proj1 Hrender) in Hres0. injection Hres0 as <-.
  destruct (token_render_full w activeChainId (val dq) true)
    as (evs & c & r1 & name1 & chain1 & en1 & Hc & [Hres1 _] & _ & _ & _ &
        Hens & _).
  rewrite (proj1 Hrender) in Hres1. injection Hres1 as <-.
  destruct (classifyInput_spec w (val dq) evs c Hc) as (Hiff & _).
  cbn [textOf] in Hiff. rewrite <- Hens, <- He in Hiff.
  assert (Hblank : dq = "" -> isENSName res = false).
  { intros ->. destruct (isENSName res); [|reflexivity].
    destruct (proj1 Hiff eq_refl) as (Hnb & _). discriminate. }
  clear Hens Hc He Hrender.
  unfold ManageTokensSearch. rewrite Hrun.
  exists res. eexists.
  cbn [bind ret result events fst snd]. rewrite app_nil_r.
  split; [reflexivity|]. split; [reflexivity|]. split; [reflexivity|].
  split; [exact Hiff|].
  cbn [errorText inputWarning resolvedRow resolvingRow importRow].
  split; [reflexivity|].
  destruct (isENSName res) eqn:He;
    destruct (isResolvingENS res) eqn:Hl;
    try (specialize (Hli eq_refl); discriminate);
    rewrite ?orb_true_r, ?orb_false_r, ?andb_true_r, ?andb_false_r;
    cbn [negb andb orb].
  - (* an ENS name, loading *)
    split; [discriminate|]. split; [auto|]. split; [congruence|].
    intros Hd. specialize (Hblank Hd). discriminate.
  - (* an ENS name, not loading *)
    split; [discriminate|]. split; [discriminate|]. split; [auto|].
    intros Hd. specialize (Hblank Hd). discriminate.
  - (* not an ENS name *)
    split.
    { intros Hw. apply andb_true_iff in Hw as [Hw Hd].
      apply negb_true_iff, orb_false_iff in Hw as [Hq _].
      apply String.eqb_neq in Hq. apply negb_true_iff, String.eqb_neq in Hd.
      auto 6. }
    split; [discriminate|]. split; [congruence|].
    intros ->. cbn [String.eqb negb]. rewrite andb_false_r. auto.
Qed.

(** X21.  The address the token search looks up, whichever revision of
    [useENSTokenAddress] the component is built with: the address
    resolved by the hook when there is one, else the debounced text when
    [safeGetAddress] accepts it, else none; the token is looked up on the
    chain given as a property, and on the chain of the wallet when none
    or the number 0 is given.  For a debounced text whose trimmed form
    viem takes for an address this is the trimmed text, and for an ENS
    name with a valid [token] record it is that record. *)
Theorem search_final_address :
  forall (revision : Revision) (activeChainId : ChainId)
         (chainIdProp : js ChainId)
         (searchQuery debouncedSearchQuery : string),
  exists hook v name chain en,
    tokenRender (TokenAddress.useENSTokenAddress w activeChainId
                   (val debouncedSearchQuery) true)
      activeChainId hook name chain en /\
    result (ManageTokensSearch revision w safeGetAddress useTokenByChainId
              activeChainId chainIdProp searchQuery debouncedSearchQuery) =
      Returned v /\
    searchToken v =
      useTokenByChainId (finalAddress v) (chainOf chainIdProp activeChainId) /\
    (forall c, chainIdProp = val c -> c <> OtherChain 0 ->
       chainOf chainIdProp activeChainId = c) /\
    (chainIdProp = undefined \/ chainIdProp = null \/
     chainIdProp = val (OtherChain 0) ->
     chainOf chainIdProp activeChainId = activeChainId) /\
    (truthy (TokenAddress.address hook) = true ->
     finalAddress v = TokenAddress.address hook) /\
    (truthy (TokenAddress.address hook) = false ->
     finalAddress v =
       if truthy (safeGetAddress debouncedSearchQuery)
       then val debouncedSearchQuery else undefined) /\
    (nonBlank (val debouncedSearchQuery) = true ->
     isAddress w (trim debouncedSearchQuery) = true ->
     finalAddress v = val (trim debouncedSearchQuery)) /\
    (TokenAddress.isENSName hook = true ->
     validAddress w (data (ensTextQuery w name "token" chain en)) = true ->
     finalAddress v = data (ensTextQuery w name "token" chain en)).
Proof.
  intros revision activeChainId chainIdProp q dq.
  destruct (search_hook revision activeChainId (val dq) true)
    as (res & r & name & chain & en & Hrun & Hrender & Hra & _).
  destruct (token_render_full w activeChainId (val dq) true)
    as (evs & c & r1 & name1 & chain1 & en1 & Hc & [Hres1 Hlook1] & _ & _ & _ &
        Hens & _ & Haddr & _).
  rewrite (proj1 Hrender) in Hres1. injection Hres1 as <-.
  rewrite (proj2 Hrender) in Hlook1. injection Hlook1 as <- <- <-.
  unfold ManageTokensSearch. rewrite Hrun.
  exists r. eexists. exists name, chain, en.
  split; [exact Hrender|].
  cbn [bind ret result snd finalAddress searchToken]. rewrite Hra.
  split; [reflexivity|]. split; [reflexivity|].
  split.
  { intros c0 -> Hc0. destruct c0 as [| | | |[|p]]; try reflexivity.
    destruct Hc0. reflexivity. }
  split; [intros [->|[->| ->]]; reflexivity|].
  split; [intros Hx; rewrite Hx; reflexivity|].
  split; [intros Hx; rewrite Hx; reflexivity|].
  split.
  - intros Hb Ha.
    destruct (classifyInput_address w (val dq) Hb Ha) as [Hcls Hres'].
    rewrite Hcls in Hc. injection Hc as <- <-.
    cbn [TokenAddress.c_isENSName] in Haddr. rewrite Hres' in Haddr.
    cbn [textOf] in Haddr. rewrite Haddr.
    unfold nonBlank in Hb. cbn [textOf] in Hb.
    apply andb_true_iff in Hb as [_ Hb].
    cbn [truthy]. rewrite Hb. reflexivity.
  - rewrite Hens. intros He Hv. rewrite He in Haddr.
    rewrite resolveAddress_ens, Hv in Haddr. rewrite Haddr.
    unfold validAddress in Hv. apply andb_true_iff in Hv as [Ht _].
    rewrite Ht. reflexivity.
Qed.

End Search.

(** ** The address row *)

Section AddressRow.

Import AddressDisplay.

Lemma length_app (p r : string) :
  String.length (p ++ r) = (String.length p + String.length r)%nat.
Proof.
  induction p as [|c p IH]; simpl; [reflexivity|]. rewrite IH. reflexivity.
Qed.

Lemma split_at (a : string) (n : nat) :
  (n <= String.length a)%nat ->
  exists p r, a = (p ++ r)%string /\ String.length p = n.
Proof.
  revert a. induction n as [|n IH]; intros a Hn.
  - exists "", a. split; reflexivity.
  - destruct a as [|c a]; simpl in Hn; [lia|].
    destruct (IH a) as (p & r & -> & Hp); [lia|].
    exists (String c p), r. split; [reflexivity|]. simpl. rewrite Hp.
    reflexivity.
Qed.

Lemma substring_all (s : string) (n : nat) :
  (String.length s <= n)%nat -> substring 0 n s = s.
Proof.
  revert n. induction s as [|c s IH]; intros n Hn.
  - destruct n; reflexivity.
  - destruct n; simpl in Hn; [lia|]. simpl. rewrite IH; [reflexivity|lia].
Qed.

Lemma substring_prefix (p r : string) :
  substring 0 (String.length p) (p ++ r) = p.
Proof.
  induction p as [|c p IH]; simpl.
  - destruct r; reflexivity.
  - rewrite IH. reflexivity.
Qed.

Lemma substring_suffix (x q : string) :
  substring (String.length x) (String.length q) (x ++ q) = q.
Proof.
  induction x as [|c x IH]; simpl.
  - apply substring_all. lia.
  - exact IH.
Qed.

(** X22.  The shortened form of an address: for an address of at least
    ten characters, with no domain name and without the full-address
    option, the text shown is the first six characters, three dots and
    the last four characters, thirteen characters in all.  With a domain
    name the text shown is the name. *)
Theorem address_shortened :
  forall a : string,
    (10 <= String.length a)%nat ->
    exists p mid q,
      a = (p ++ mid ++ q)%string /\
      String.length p = 6%nat /\ String.length q = 4%nat /\
      displayTextOf undefined false a = (p ++ "..." ++ q)%string /\
      String.length (displayTextOf undefined false a) = 13%nat /\
      displayTextOf undefined true a = a /\
      forall name full,
        name <> "" -> displayTextOf (val name) full a = name.
Proof.
  intros a Ha.
  destruct (split_at a 6) as (p & r & -> & Hp); [lia|].
  rewrite length_app, Hp in Ha.
  destruct (split_at r (String.length r - 4)) as (mid & q & -> & Hm); [lia|].
  assert (Hq : String.length q = 4%nat).
  { rewrite length_app in Ha, Hm. lia. }
  exists p, mid, q. split; [reflexivity|]. split; [exact Hp|].
  split; [exact Hq|].
  assert (Hd : displayTextOf undefined false (p ++ mid ++ q) =
               (p ++ "..." ++ q)%string).
  { unfold displayTextOf. cbn [truthy].
    unfold Text.slice, Text.sliceFrom, Text.sliceIndex.
    set (len := String.length (p ++ mid ++ q)).
    assert (Hlen : len = (10 + String.length mid)%nat).
    { unfold len. rewrite !length_app. lia. }
    cbn [Z.ltb Z.compare].
    replace (Nat.min (Z.to_nat 0) len) with 0%nat by lia.
    replace (Nat.min (Z.to_nat 6) len) with (String.length p) by lia.
    replace (Z.to_nat (Z.max (Z.of_nat len + -4) 0))
      with (String.length (p ++ mid)) by (rewrite length_app; lia).
    replace (len - String.length (p ++ mid))%nat with (String.length q)
      by (rewrite length_app; lia).
    rewrite Nat.sub_0_r, substring_prefix.
    replace (p ++ mid ++ q)%string with ((p ++ mid) ++ q)%string.
    - rewrite substring_suffix. reflexivity.
    - clear. induction p as [|c p IH]; simpl; [reflexivity|].
      rewrite IH. reflexivity. }
  split; [exact Hd|]. split.
  - rewrite Hd, !length_app, Hp, Hq. reflexivity.
  - split; [reflexivity|].
    intros name full Hn. unfold displayTextOf. cbn [truthy textOf].
    apply String.eqb_neq in Hn. rewrite Hn. reflexivity.
Qed.

Lemma address_shortened_witness :
  (10 <= String.length Sample.vitalik)%nat /\
  displayTextOf undefined false Sample.vitalik = "0xd8da...6045".
Proof.
  split; [vm_compute; lia|].
  destruct (address_shortened Sample.vitalik) as (p & mid & q & _).
  - vm_compute. lia.
  - reflexivity.
Defined.




End AddressRow.

(** ** The profile card *)

Section Card.

Import ProfileCard.

Lemma removeFirst_leading (h : string) :
  Text.removeFirst (String "@" h) "@" = h.
Proof.
  unfold Text.removeFirst. rewrite startsWith_char.
  cbn [Ascii.eqb Bool.eqb String.length substring andb].
  apply substring_all. lia.
Qed.

Lemma removeFirst_absent (h : string) :
  includes h "@" = false -> Text.removeFirst h "@" = h.
Proof.
  induction h as [|c h IH]; intros H; [reflexivity|].
  rewrite includes_cons in H. apply orb_false_iff in H as [Hs Hi].
  change (Text.removeFirst (String c h) "@")
    with (if startsWith (String c h) "@"
          then substring (String.length "@") (String.length (String c h))
                 (String c h)
          else String c (Text.removeFirst h "@")).
  rewrite Hs, (IH Hi). reflexivity.
Qed.


(** X25.  The links of the twitter and telegram badges are made from the
    handle without its first at sign: a twitter handle written with a
    leading at sign and the same handle written without one give the same
    badge, with the link to the handle and the handle after an at sign as
    the label; a telegram handle gives the link without the at sign and
    keeps the text as written. *)
Theorem profile_card_handles :
  forall (h : string) (r : Profile.SocialRecords),
    includes h "@" = false -> h <> "" ->
    (Profile.twitter r = val (String "@" h) \/ Profile.twitter r = val h ->
     hd_error (badges r) =
       Some (Twitter ("https://twitter.com/" ++ h) (String "@" h))) /\
    (Profile.telegram r = val (String "@" h) ->
     In (Telegram ("https://t.me/" ++ h) (String "@" h)) (badges r)) /\
    (Profile.telegram r = val h ->
     In (Telegram ("https://t.me/" ++ h) h) (badges r)).
Proof.
  intros h r Hat Hne.
  assert (Hh : truthy (val h) = true).
  { apply truthy_iff. eauto. }
  unfold badges. split; [|split].
  - intros [H|H]; rewrite H; cbn [textOf].
    + rewrite removeFirst_leading. reflexivity.
    + rewrite Hh, (removeFirst_absent h Hat). reflexivity.
  - intros H. rewrite H. cbn [textOf]. rewrite removeFirst_leading.
    cbn [truthy String.eqb negb].
    apply in_or_app. right. apply in_or_app. right.
    apply in_or_app. right. apply in_or_app. left. left. reflexivity.
  - intros H. rewrite H. cbn [textOf].
    rewrite Hh, (removeFirst_absent h Hat).
    apply in_or_app. right. apply in_or_app. right.
    apply in_or_app. right. apply in_or_app. left. left. reflexivity.
Qed.

Lemma profile_card_handles_witness :
  includes "cake" "@" = false /\ "cake" <> "" /\
  hd_error
    (badges (Profile.mkSocialRecords (val "@cake") undefined undefined
               undefined undefined undefined)) =
    Some (Twitter "https://twitter.com/cake" "@cake").
Proof.
  split; [reflexivity|]. split; [discriminate|].
  apply (proj1 (profile_card_handles "cake"
                  (Profile.mkSocialRecords (val "@cake") undefined undefined
                     undefined undefined undefined)
                  eq_refl ltac:(discriminate))).
  left. reflexivity.
Defined.

End Card.

(** ** Further statements at concrete inputs *)

Section MoreWitnesses.

Lemma preferences_without_name_witness :
  truthy (undefined : js string) = false /\
  disabledQueriesAreIdle Sample.world /\
  result (Preferences.useENSPreferences Sample.world BSC undefined) =
    Returned (Preferences.mkResult [] false false undefined).
Proof.
  split; [reflexivity|]. split; [exact sample_world_idle|].
  exact (proj2 (proj2 (proj2 (preferences_without_name Sample.world BSC
                                undefined)) eq_refl) sample_world_idle).
Defined.

Lemma resolve_classification_witness :
  Profile.classify (val "pancake") = Profile.Invalid /\
  result (Profile.useResolveAddressOrENS Sample.world ETHEREUM (val "pancake")
            true) =
    Returned
      (Profile.mkResolved undefined false undefined undefined undefined false
         false).
Proof.
  split; [reflexivity|].
  exact (proj1 (proj2 (proj2 (proj2 (resolve_classification (val "pancake"))))
                  eq_refl Sample.world ETHEREUM true)).
Defined.

Lemma token_enabled_flag_witness :
  nonBlank (val Sample.vitalik) = true /\
  isAddress Sample.world (trim Sample.vitalik) = true /\
  TokenAddress.useENSTokenAddress Sample.world BSC (val Sample.vitalik) false =
  TokenAddress.useENSTokenAddress Sample.world BSC (val Sample.vitalik) true.
Proof.
  split; [reflexivity|]. split; [reflexivity|].
  exact (proj1 (token_enabled_flag Sample.world BSC (val Sample.vitalik))
           eq_refl eq_refl).
Defined.

End MoreWitnesses.
